(** * Team schedule system: a shallow embedding of [app.py]

    The development follows the core of [TeamScheduleSystem]: the pandas
    tables holding schedule entries and shift-swap requests, the
    notification inboxes, automatic shift assignment, the schedule form
    with its conflict check, the swap workflow, the admin panel's
    handlers for users and departments, and the cleanup of backups.
    Python and pandas
    library calls used by the program are modelled in the modules [Py]
    and [pd]; everything after them is a translation of [app.py]. *)

From Stdlib Require Import ZArith List String Ascii QArith Qround Bool Lia.
From Stdlib Require Import DecimalString DecimalZ.
From stdpp Require Import base option gmap strings.
Import ListNotations.

Open Scope string_scope.
Open Scope Z_scope.

(** ** Python library functions used by the program *)

Module Py.

(** [str(n)] for an integer. *)
Definition str (n : Z) : string := NilZero.string_of_int (Z.to_int n).

(** The two-digit fields [%H], [%M], [%m], [%d] of [strftime]. *)
Definition pad2 (n : Z) : string :=
  if n <? 10 then "0" ++ str n else str n.

(** The blanks that [int()] and [float()] skip around a literal: tab,
    line feed, vertical tab, form feed, carriage return and space. *)
Definition is_space (c : ascii) : bool :=
  let n := Z.of_nat (nat_of_ascii c) in
  ((9 <=? n) && (n <=? 13)) || (n =? 32).

Definition digit_val (c : ascii) : option Z :=
  let n := Z.of_nat (nat_of_ascii c) in
  if (48 <=? n) && (n <=? 57) then Some (n - 48) else None.

Fixpoint lstrip (s : string) : string :=
  match s with
  | String c r => if is_space c then lstrip r else s
  | EmptyString => s
  end.

Fixpoint rev_onto (s acc : string) : string :=
  match s with
  | String c r => rev_onto r (String c acc)
  | EmptyString => acc
  end.

Definition strip (s : string) : string :=
  rev_onto (lstrip (rev_onto (lstrip s) "")) "".

(** Digits of an integer literal: single underscores are allowed
    between digits, the literal has at least one digit. *)
Fixpoint int_digits (s : string) (acc : Z) (after_digit : bool) : option Z :=
  match s with
  | EmptyString => if after_digit then Some acc else None
  | String c r =>
      match digit_val c with
      | Some d => int_digits r (10 * acc + d) true
      | None =>
          if Ascii.eqb c "_" && after_digit then int_digits r acc false
          else None
      end
  end.

Definition signed (digits : string -> option Z) (s : string) : option Z :=
  match s with
  | String "+" r => digits r
  | String "-" r => Z.opp <$> digits r
  | _ => digits s
  end.

(** The number of digit characters of a literal. *)
Fixpoint count_digits (s : string) : Z :=
  match s with
  | EmptyString => 0
  | String c r =>
      (match digit_val c with Some _ => 1 | None => 0 end) + count_digits r
  end.

(** [int(s)] for a string of ASCII characters; [None] is [ValueError],
    which a literal of more than 4300 digits raises too. *)
Definition int (s : string) : option Z :=
  let t := strip s in
  if 4300 <? count_digits t then None
  else signed (fun t => int_digits t 0 false) t.

(** [s.split(':')]. *)
Fixpoint split_colon (s : string) (cur : string) : list string :=
  match s with
  | EmptyString => [rev_onto cur ""]
  | String c r =>
      if Ascii.eqb c ":" then rev_onto cur "" :: split_colon r ""
      else split_colon r (String c cur)
  end.

Fixpoint contains_colon (s : string) : bool :=
  match s with
  | EmptyString => false
  | String c r => Ascii.eqb c ":" || contains_colon r
  end.

(** The integer part of a plain decimal literal, [ddd] or [ddd.ddd]. *)
Fixpoint float_digits (s : string) (acc : Z) (seen : bool) : option Z :=
  match s with
  | EmptyString => if seen then Some acc else None
  | String c r =>
      match digit_val c with
      | Some d => float_digits r (10 * acc + d) true
      | None =>
          if Ascii.eqb c "." then
            match int_digits r 0 false, r with
            | Some _, _ => Some acc
            | None, EmptyString => if seen then Some acc else None
            | None, _ => None
            end
          else None
      end
  end.

(** [int(float(s))] on plain decimal text such as ["3"], ["3.0"] or
    ["-1"]: the sign and the integer part.  [None] is [ValueError].
    Exponents, underscores, [inf] and [nan] are outside this model, and
    so is the rounding of the text to a double (beyond [2^53], or a
    fraction that rounds up to the next integer).  The text that the
    program writes, [str] of an integer key, is read exactly. *)
Definition int_float (s : string) : option Z :=
  signed (fun t => float_digits t 0 false) (strip s).

(** *** [datetime.time] *)

Record time := mk_time { hour : Z; minute : Z }.

Definition time_lt (a b : time) : bool :=
  (hour a <? hour b) || ((hour a =? hour b) && (minute a <? minute b)).

Definition time_le (a b : time) : bool := negb (time_lt b a).

(** [t.strftime('%H:%M')]. *)
Definition strftime_HM (t : time) : string :=
  pad2 (hour t) ++ ":" ++ pad2 (minute t).

(** [datetime.strptime(s, '%H:%M')]: an hour of one or two digits up
    to 23, a colon, a minute of one or two digits up to 59, and
    nothing else.  [None] is [ValueError]. *)
Definition strptime_minute (s : string) : option Z :=
  match s with
  | String a EmptyString => digit_val a
  | String a (String b EmptyString) =>
      match digit_val a, digit_val b with
      | Some x, Some y => if x <=? 5 then Some (10 * x + y) else None
      | _, _ => None
      end
  | _ => None
  end.

Definition strptime_HM (s : string) : option time :=
  match s with
  | String a (String ":" r) =>
      h ← digit_val a; m ← strptime_minute r; Some (mk_time h m)
  | String a (String b (String ":" r)) =>
      match digit_val a, digit_val b with
      | Some x, Some y =>
          if 10 * x + y <=? 23
          then m ← strptime_minute r; Some (mk_time (10 * x + y) m)
          else None
      | _, _ => None
      end
  | _ => None
  end.

(** *** [datetime.date] *)

Record date := mk_date { year : Z; month : Z; day : Z }.

Definition is_leap (y : Z) : bool :=
  (y mod 4 =? 0) && (negb (y mod 100 =? 0) || (y mod 400 =? 0)).

Definition days_before_year (y : Z) : Z :=
  let p := y - 1 in p * 365 + p / 4 - p / 100 + p / 400.

Definition days_before_month (y m : Z) : Z :=
  nth (Z.to_nat m) [0; 0; 31; 59; 90; 120; 151; 181; 212; 243; 273; 304; 334] 0
  + (if (2 <? m) && is_leap y then 1 else 0).

Definition toordinal (d : date) : Z :=
  days_before_year (year d) + days_before_month (year d) (month d) + day d.

(** [d.weekday()], Monday is 0. *)
Definition weekday (d : date) : Z := (toordinal d + 6) mod 7.

(** [d.strftime('%A')]. *)
Definition day_name (d : date) : string :=
  nth (Z.to_nat (weekday d))
    ["Monday"; "Tuesday"; "Wednesday"; "Thursday"; "Friday"; "Saturday"; "Sunday"]
    "".

(** [d.strftime('%Y-%m-%d')], for a year of four digits. *)
Definition strftime_Ymd (d : date) : string :=
  str (year d) ++ "-" ++ pad2 (month d) ++ "-" ++ pad2 (day d).

Definition days_in_month (y m : Z) : Z :=
  if (m =? 2) && is_leap y then 29
  else nth (Z.to_nat m) [0; 31; 28; 31; 30; 31; 30; 31; 31; 30; 31; 30; 31] 0.

Definition next_day (d : date) : date :=
  if day d <? days_in_month (year d) (month d)
  then mk_date (year d) (month d) (day d + 1)
  else if month d <? 12 then mk_date (year d) (month d + 1) 1
  else mk_date (year d + 1) 1 1.

Definition prev_day (d : date) : date :=
  if 1 <? day d then mk_date (year d) (month d) (day d - 1)
  else if 1 <? month d
  then mk_date (year d) (month d - 1) (days_in_month (year d) (month d - 1))
  else mk_date (year d - 1) 12 31.

(** The date [n] days after [d], within the years 1 to 9999. *)
Definition add_days (d : date) (n : Z) : date :=
  if 0 <=? n then Nat.iter (Z.to_nat n) next_day d
  else Nat.iter (Z.to_nat (- n)) prev_day d.

(** [date.max.toordinal()], the ordinal of 9999-12-31. *)
Definition max_ordinal : Z := 3652059.

(** [d + timedelta(days=n)]; [None] is [OverflowError], raised when the
    sum leaves the years 1 to 9999. *)
Definition date_add (d : date) (n : Z) : option date :=
  let ord := toordinal d + n in
  if (1 <=? ord) && (ord <=? max_ordinal) then Some (add_days d n) else None.

(** *** [datetime.datetime] *)

Record datetime := mk_datetime { date_of : date; time_of : time; second : Z }.

(** [dt.strftime('%Y-%m-%d %H:%M:%S')]. *)
Definition strftime_YmdHMS (dt : datetime) : string :=
  strftime_Ymd (date_of dt) ++ " " ++ strftime_HM (time_of dt)
  ++ ":" ++ pad2 (second dt).

(** *** [timedelta(hours=h)] and [datetime + timedelta] *)

Definition round_half_even (q : Q) : Z :=
  let f := Qfloor q in
  match Qcompare (q - inject_Z f) (1 # 2) with
  | Lt => f
  | Gt => f + 1
  | Eq => if Z.even f then f else f + 1
  end.

(** Microseconds of [timedelta(hours=h)].  A float [h] is read as the
    rational number it denotes. *)
Definition timedelta_hours (h : Q) : Z :=
  round_half_even (h * inject_Z 3600000000)%Q.

Definition us_per_day : Z := 86400000000.

(** [(datetime.strptime(s, '%H:%M') + delta).strftime('%H:%M')]: the
    parsed time lies on 1900-01-01; the sum must stay within the years
    1 to 9999, otherwise [OverflowError] ([None]). *)
Definition add_to_time (t : time) (delta_us : Z) : option string :=
  let us := (hour t * 3600 + minute t * 60) * 1000000 + delta_us in
  let ord := 693596 + us / us_per_day in
  if (1 <=? ord) && (ord <=? 3652059) then
    let r := us mod us_per_day in
    Some (strftime_HM (mk_time (r / 3600000000) ((r mod 3600000000) / 60000000)))
  else None.

End Py.

(** ** The part of pandas used by the program

    A table is a list of rows, each carrying its index label.  The
    program reads and writes schedule entries through these labels. *)

Module pd.

Definition DataFrame (A : Type) : Type := list (Z * A).

Section Frame.
Context {A : Type}.

Definition index (df : DataFrame A) : list Z := map fst df.

Definition rows (df : DataFrame A) : list A := map snd df.

(** [k in df.index]. *)
Definition index_mem (k : Z) (df : DataFrame A) : bool :=
  existsb (Z.eqb k) (index df).

(** [df.loc[k]]. *)
Definition loc (k : Z) (df : DataFrame A) : option A :=
  snd <$> find (fun p => fst p =? k) df.

(** [df.drop(k)]: the rows labelled [k] are removed, the others keep
    their labels; [None] is the [KeyError] of a missing label. *)
Definition drop (k : Z) (df : DataFrame A) : option (DataFrame A) :=
  if index_mem k df
  then Some (List.filter (fun p => negb (fst p =? k)) df)
  else None.

(** [df[mask]] for a row-wise condition: labels are kept. *)
Definition select (mask : Z -> A -> bool) (df : DataFrame A) : DataFrame A :=
  List.filter (fun p => mask (fst p) (snd p)) df.

(** A fresh [RangeIndex]: rows are labelled [i], [i+1], ... in order. *)
Fixpoint range_index (i : Z) (l : list A) : DataFrame A :=
  match l with
  | [] => []
  | r :: l' => (i, r) :: range_index (i + 1) l'
  end.

(** [pd.DataFrame(records)]. *)
Definition of_records (l : list A) : DataFrame A := range_index 0 l.

(** [pd.concat([a, b], ignore_index=True)]. *)
Definition concat_ignore_index (a b : DataFrame A) : DataFrame A :=
  range_index 0 (rows a ++ rows b).

(** [df.loc[k, col] = v] for a label that is present: the rows
    labelled [k] are updated in place. *)
Definition set_loc (k : Z) (upd : A -> A) (df : DataFrame A) : DataFrame A :=
  map (fun p => if fst p =? k then (fst p, upd (snd p)) else p) df.

End Frame.

End pd.

(** ** Data model *)

(** [SHIFT_REQUEST_STATUS]. *)
Inductive Status := Pending | Approved | Rejected | Cancelled.

Definition status_eqb (a b : Status) : bool :=
  match a, b with
  | Pending, Pending | Approved, Approved
  | Rejected, Rejected | Cancelled, Cancelled => true
  | _, _ => false
  end.

(** The [preferences] dictionary of a user record; every key is
    optional. *)
Module Prefs.
Record t := mk {
  preferred_location : option string;
  preferred_days : list string;
  preferred_start_time : option string;
  preferred_hours : option Q
}.
(** [{}]. *)
Definition empty : t := mk None [] None None.
End Prefs.

(** A value of the [users] dictionary.  [_load_users] fills in [name],
    [subteam] and [role] when they are missing, so they are always
    present; [preferences] is optional. *)
Module User.
Record t := mk {
  name : string;
  subteam : string;
  email : string;
  role : string;
  preferences : option Prefs.t
}.
End User.

(** A row of the [schedule] table. *)
Module Entry.
Record t := mk {
  date : string;
  username : string;
  name : string;
  subteam : string;
  start_time : string;
  end_time : string;
  location : string;
  notes : string;
  auto_assigned : bool;
  created_at : string;
  updated_at : string
}.
End Entry.

(** A row of the [shift_requests] table. *)
Module Request.
Record t := mk {
  request_id : string;
  requester_username : string;
  requester_name : string;
  schedule_id : string;
  date : string;
  start_time : string;
  end_time : string;
  location : string;
  target_username : string;
  target_name : string;
  status : Status;
  created_at : string;
  updated_at : string;
  notes : string;
  auto_assigned : bool
}.

Definition set_status (st : Status) (now : string) (r : t) : t :=
  mk (request_id r) (requester_username r) (requester_name r) (schedule_id r)
     (date r) (start_time r) (end_time r) (location r) (target_username r)
     (target_name r) st (created_at r) now (notes r) (auto_assigned r).
End Request.

(** An element of a user's inbox. *)
Module Notification.
Record t := mk {
  id : string;
  message : string;
  type : string;
  link : option string;
  created_at : string;
  read : bool
}.

Definition mark_read (n : t) : t :=
  mk (id n) (message n) (type n) (link n) (created_at n) true.
End Notification.

(** ** The environment and the state of the system *)

(** What the program reads from outside: the clock ([datetime.now()]),
    [str(uuid.uuid4())] and [random.random()].  The state counts the
    reads made so far, and the [k]-th read returns the value at [k]. *)
Record World := {
  now : nat -> Py.datetime;
  uuid4 : nat -> string;
  random : nat -> Q
}.

(** [datetime.now().strftime('%Y-%m-%d %H:%M:%S')] at read [k]. *)
Definition timestamp (w : World) (k : nat) : string :=
  Py.strftime_YmdHMS (now w k).

(** The attributes of [TeamScheduleSystem] that the core reads and
    writes.  [users] keeps the insertion order of the dictionary, which
    auto-assignment depends on.  [st_error] collects the messages shown
    by [st.error], latest first.  Saving a collection to its file
    ([_save_schedule], [_save_shift_requests], [_save_notifications])
    leaves these attributes as they are and is not represented. *)
Record State := mkState {
  users : list (string * User.t);
  schedule : pd.DataFrame Entry.t;
  shift_requests : list Request.t;
  notifications : gmap string (list Notification.t);
  st_error : list string;
  ticks : nat
}.

Definition set_schedule (df : pd.DataFrame Entry.t) (s : State) : State :=
  mkState (users s) df (shift_requests s) (notifications s) (st_error s) (ticks s).

Definition set_shift_requests (l : list Request.t) (s : State) : State :=
  mkState (users s) (schedule s) l (notifications s) (st_error s) (ticks s).

Definition set_notifications (m : gmap string (list Notification.t)) (s : State) : State :=
  mkState (users s) (schedule s) (shift_requests s) m (st_error s) (ticks s).

(** [st.error(msg)]. *)
Definition report (msg : string) (s : State) : State :=
  mkState (users s) (schedule s) (shift_requests s) (notifications s)
          (msg :: st_error s) (ticks s).

Definition set_ticks (n : nat) (s : State) : State :=
  mkState (users s) (schedule s) (shift_requests s) (notifications s)
          (st_error s) n.

Definition tick (n : nat) (s : State) : State := set_ticks (n + ticks s) s.

(** [self.users[username]]; [None] is [KeyError]. *)
Definition lookup_user (username : string) (s : State) : option User.t :=
  snd <$> find (fun p => String.eqb (fst p) username) (users s).

(** [str(KeyError(key))]. *)
Definition key_error (key : string) : string := "'" ++ key ++ "'".

(** ** Notification service *)

Section Core.

Variable w : World.

(** [add_notification]: the new notification goes to the front of the
    inbox, which keeps its 50 latest elements.  The optional e-mail is
    a log line in [_send_email_notification] and changes nothing. *)
Definition add_notification (username message notification_type : string)
           (link : option string) (s : State) : State :=
  let inbox := default [] (notifications s !! username) in
  let notification :=
    Notification.mk (uuid4 w (ticks s)) message notification_type link
                    (timestamp w (S (ticks s))) false in
  let inbox1 := notification :: inbox in
  let inbox2 := if (50 <? length inbox1)%nat then firstn 50 inbox1 else inbox1 in
  tick 2 (set_notifications (<[username := inbox2]> (notifications s)) s).

(** The loop of [mark_notification_as_read]: the first notification
    with the given id is marked, then the loop breaks. *)
Fixpoint mark_first (notification_id : string) (inbox : list Notification.t)
  : list Notification.t :=
  match inbox with
  | [] => []
  | n :: rest =>
      if String.eqb (Notification.id n) notification_id
      then Notification.mark_read n :: rest
      else n :: mark_first notification_id rest
  end.

Definition mark_notification_as_read (username notification_id : string)
           (s : State) : bool * State :=
  match notifications s !! username with
  | None => (false, s)
  | Some inbox =>
      (true,
       set_notifications
         (<[username := mark_first notification_id inbox]> (notifications s)) s)
  end.

Definition delete_notification (username notification_id : string)
           (s : State) : bool * State :=
  match notifications s !! username with
  | None => (false, s)
  | Some inbox =>
      (true,
       set_notifications
         (<[username :=
              List.filter
                (fun n => negb (String.eqb (Notification.id n) notification_id))
                inbox]> (notifications s)) s)
  end.

Definition get_unread_notification_count (username : string) (s : State) : nat :=
  match notifications s !! username with
  | None => 0%nat
  | Some inbox => length (List.filter (fun n => negb (Notification.read n)) inbox)
  end.

(** ** Swap workflow *)

Definition has_id (request_id : string) (r : Request.t) : bool :=
  String.eqb (Request.request_id r) request_id.

(** [self.shift_requests[request_mask].iloc[0]]. *)
Definition find_request (request_id : string) (s : State) : option Request.t :=
  find (has_id request_id) (shift_requests s).

(** [create_shift_swap_request]: the entry's fields are copied into a
    new Pending request, then both users are notified. *)
Definition create_shift_swap_request (schedule_id : Z) (target_username : string)
           (s : State) : bool * State :=
  match pd.loc schedule_id (schedule s) with
  | None => (false, report "Schedule not found." s)
  | Some schedule_entry =>
      match lookup_user target_username s with
      | None => (false, report "Target user not found." s)
      | Some target =>
          let request_data :=
            Request.mk (uuid4 w (ticks s))
                       (Entry.username schedule_entry)
                       (Entry.name schedule_entry)
                       (Py.str schedule_id)
                       (Entry.date schedule_entry)
                       (Entry.start_time schedule_entry)
                       (Entry.end_time schedule_entry)
                       (Entry.location schedule_entry)
                       target_username
                       (User.name target)
                       Pending
                       (timestamp w (1 + ticks s))
                       (timestamp w (2 + ticks s))
                       (Entry.notes schedule_entry)
                       (Entry.auto_assigned schedule_entry) in
          let s1 := tick 3 (set_shift_requests (shift_requests s ++ [request_data])%list s) in
          let s2 :=
            add_notification target_username
              ("New shift swap request from " ++ Entry.name schedule_entry
               ++ " for " ++ Entry.date schedule_entry)
              "info" None s1 in
          let s3 :=
            add_notification (Entry.username schedule_entry)
              ("Shift swap request sent to " ++ User.name target)
              "success" None s2 in
          (true, s3)
      end
  end.

(** [process_approved_swap]: the ownership transfer.  The new entry is
    built from the request; the entry labelled with the request's
    [schedule_id] is dropped and the new one appended, the table being
    relabelled by [ignore_index=True]. *)
Definition process_approved_swap (request_id : string) (s : State) : bool * State :=
  match find_request request_id s with
  | None => (false, report "Shift request not found." s)
  | Some request =>
      match lookup_user (Request.target_username request) s with
      | None =>
          (false,
           report ("Error processing shift swap: "
                   ++ key_error (Request.target_username request)) s)
      | Some target =>
          let target_schedule :=
            Entry.mk (Request.date request)
                     (Request.target_username request)
                     (Request.target_name request)
                     (User.subteam target)
                     (Request.start_time request)
                     (Request.end_time request)
                     (Request.location request)
                     ("Swapped with " ++ Request.requester_name request)
                     (Request.auto_assigned request)
                     (timestamp w (ticks s))
                     (timestamp w (S (ticks s))) in
          let s1 := tick 2 s in
          match Py.int_float (Request.schedule_id request) with
          | None => (false, report "Invalid schedule ID in request." s1)
          | Some schedule_id =>
              if negb (pd.index_mem schedule_id (schedule s1))
              then (false, report "Original schedule not found." s1)
              else
                match pd.drop schedule_id (schedule s1) with
                | Some remaining =>
                    (true,
                     set_schedule
                       (pd.concat_ignore_index remaining
                          (pd.of_records [target_schedule])) s1)
                | None =>
                    (false,
                     report ("Error processing shift swap: "
                             ++ key_error (Py.str schedule_id)) s1)
                end
          end
      end
  end.

Definition swap_issue : string :=
  "There was an issue processing the swap. Please contact support.".

Definition approved_message (date approver : string) : string :=
  "Your shift swap request for " ++ date ++ " was approved by " ++ approver.

(** The two assignments through [request_mask]: the status and the
    update time of every row with the given id are overwritten. *)
Definition store_status (request_id : string) (status : Status) (s : State) : State :=
  tick 1
    (set_shift_requests
       (map (fun r => if has_id request_id r
                      then Request.set_status status (timestamp w (ticks s)) r
                      else r)
            (shift_requests s)) s).

(** [update_shift_request_status]: the new status is stored, then the
    parties are notified; an approval runs the ownership transfer. *)
Definition update_shift_request_status (request_id : string) (status : Status)
           (s : State) : bool * State :=
  match find_request request_id s with
  | None => (false, report "Shift request not found." s)
  | Some request =>
      let requester_username := Request.requester_username request in
      let target_username := Request.target_username request in
      let date := Request.date request in
      let s1 := store_status request_id status s in
      let raised key :=
        (false, report ("Error updating shift request: " ++ key_error key) s1) in
      match status with
      | Approved =>
          match lookup_user target_username s1 with
          | None => raised target_username
          | Some target =>
              let s2 :=
                add_notification requester_username
                  (approved_message date (User.name target))
                  "success" None s1 in
              let '(ok, s3) := process_approved_swap request_id s2 in
              if ok then (true, s3)
              else
                let s4 := add_notification requester_username swap_issue "error" None s3 in
                let s5 := add_notification target_username swap_issue "error" None s4 in
                (false, s5)
          end
      | Rejected =>
          match lookup_user target_username s1 with
          | None => raised target_username
          | Some target =>
              (true,
               add_notification requester_username
                 ("Your shift swap request for " ++ date ++ " was rejected by "
                  ++ User.name target)
                 "warning" None s1)
          end
      | Cancelled =>
          match lookup_user requester_username s1 with
          | None => raised requester_username
          | Some requester =>
              (true,
               add_notification target_username
                 ("Shift swap request from " ++ User.name requester ++ " for "
                  ++ date ++ " was cancelled")
                 "info" None s1)
          end
      | Pending => (true, s1)
      end
  end.

(** The buttons of a request card.  [_show_incoming_swap_requests]
    offers Approve and Reject, and [_show_my_swap_requests] offers
    Cancel, only while the displayed status is Pending.  The Approve
    handler calls [process_approved_swap] once more after a successful
    [update_shift_request_status]. *)
Definition displayed_pending (request_id : string) (s : State) : bool :=
  match find_request request_id s with
  | Some request => status_eqb (Request.status request) Pending
  | None => false
  end.

Definition approve_button (request_id : string) (s : State) : State :=
  if displayed_pending request_id s then
    let '(ok, s1) := update_shift_request_status request_id Approved s in
    if ok then snd (process_approved_swap request_id s1) else s1
  else s.

Definition reject_button (request_id : string) (s : State) : State :=
  if displayed_pending request_id s
  then snd (update_shift_request_status request_id Rejected s)
  else s.

Definition cancel_button (request_id : string) (s : State) : State :=
  if displayed_pending request_id s
  then snd (update_shift_request_status request_id Cancelled s)
  else s.

End Core.

(** ** Auto-assignment engine *)

Section AutoAssign.

Variable w : World.

Definition roster : Type := list (string * User.t).

(** [subteam_users]: users grouped by subteam, subteams and members in
    the order in which the [users] dictionary yields them. *)
Fixpoint group_add (subteam : string) (u : string * User.t)
         (groups : list (string * roster)) : list (string * roster) :=
  match groups with
  | [] => [(subteam, [u])]
  | (k, members) :: rest =>
      if String.eqb k subteam then (k, (members ++ [u])%list) :: rest
      else (k, members) :: group_add subteam u rest
  end.

Definition group_by_subteam (us : roster) : list (string * roster) :=
  fold_left (fun groups u => group_add (User.subteam (snd u)) u groups) us [].

Definition members_per_day (team_size : Z) : Z := Z.max 1 (team_size / 5).

(** [selected_users] of one team on one date. *)
Definition select_users (date : Py.date) (team : roster) : roster :=
  let n := Z.of_nat (length team) in
  omap (fun i => team !! Z.to_nat ((Py.weekday date + i) mod n))
       (seqZ 0 (members_per_day n)).

Definition location_weights (prefs : Prefs.t) (day_name : string) : Q * Q :=
  let preferred_location := Prefs.preferred_location prefs in
  let is_loc l :=
    match preferred_location with
    | Some p => String.eqb p l
    | None => false
    end in
  let w1 :=
    if is_loc "Office" then (9 # 10, 1 # 10)%Q
    else if is_loc "WFH" then (2 # 10, 8 # 10)%Q
    else (7 # 10, 3 # 10)%Q in
  if existsb (String.eqb day_name) (Prefs.preferred_days prefs) && is_loc "WFH"
  then (1 # 10, 9 # 10)%Q
  else w1.

(** [random.choices(["Office", "WFH"], weights=..., k=1)[0]] for the
    draw [r] of [random.random()]. *)
Definition choose_location (weights : Q * Q) (r : Q) : string :=
  let total := (fst weights + snd weights)%Q in
  match Qcompare (r * total) (fst weights) with
  | Lt => "Office"
  | _ => "WFH"
  end.

(** The body of the loop over the selected users: one new entry.  The
    read counter [t] advances with the draw and the two clock reads;
    [None] is the exception of [strptime] or of the date overflow. *)
Definition assign_one (date : Py.date) (subteam : string) (u : string * User.t)
           (t : nat) : option Entry.t * nat :=
  let '(username, user_data) := u in
  let user_prefs := default Prefs.empty (User.preferences user_data) in
  let day_name := Py.day_name date in
  let location :=
    choose_location (location_weights user_prefs day_name) (random w t) in
  let start_time := default "09:00" (Prefs.preferred_start_time user_prefs) in
  let hours_worked := default (9 : Q) (Prefs.preferred_hours user_prefs) in
  match Py.strptime_HM start_time with
  | None => (None, S t)
  | Some start_dt =>
      match Py.add_to_time start_dt (Py.timedelta_hours hours_worked) with
      | None => (None, S t)
      | Some end_time =>
          (Some (Entry.mk (Py.strftime_Ymd date) username (User.name user_data)
                          subteam start_time end_time location
                          "Auto-assigned shift" true
                          (timestamp w (1 + t)) (timestamp w (2 + t))),
           (3 + t)%nat)
      end
  end.

(** The users selected for every date and team, in loop order. *)
Definition selections (dates : list Py.date) (groups : list (string * roster))
  : list (Py.date * string * (string * User.t)) :=
  flat_map
    (fun date =>
       flat_map
         (fun g => map (fun u => (date, fst g, u)) (select_users date (snd g)))
         groups)
    dates.

Fixpoint assign_all (sel : list (Py.date * string * (string * User.t))) (t : nat)
  : option (list Entry.t) * nat :=
  match sel with
  | [] => (Some [], t)
  | (date, subteam, u) :: rest =>
      match assign_one date subteam u t with
      | (None, t1) => (None, t1)
      | (Some e, t1) =>
          match assign_all rest t1 with
          | (None, t2) => (None, t2)
          | (Some es, t2) => (Some (e :: es), t2)
          end
      end
  end.

(** Rows whose date is not one of [dates].  Stored dates have the form
    [%Y-%m-%d], as [_load_schedule] and every writer leave them, so
    the conversion to datetime and back is the identity. *)
Definition clear_dates (dates : list Py.date) (df : pd.DataFrame Entry.t)
  : pd.DataFrame Entry.t :=
  if (0 <? length df)%nat then
    pd.select
      (fun _ e =>
         negb (existsb (String.eqb (Entry.date e)) (map Py.strftime_Ymd dates)))
      df
  else df.

(** [_auto_assign_shifts]: an exception leaves the schedule as it was. *)
Definition _auto_assign_shifts (dates : list Py.date) (s : State) : State :=
  match users s with
  | [] => s
  | _ =>
      match assign_all (selections dates (group_by_subteam (users s))) (ticks s) with
      | (None, t) => set_ticks t s
      | (Some [], t) => set_ticks t s
      | (Some new_schedules, t) =>
          let new_schedules_df := pd.of_records new_schedules in
          let kept := clear_dates dates (schedule s) in
          set_ticks t
            (set_schedule
               (if (length kept =? 0)%nat then new_schedules_df
                else pd.concat_ignore_index kept new_schedules_df) s)
      end
  end.

(** [_get_current_week_dates] and [_get_next_week_dates] for the date
    read from the clock. *)
Definition week_from (monday : Py.date) : option (list Py.date) :=
  mapM (Py.date_add monday) (seqZ 0 5).

Definition _get_current_week_dates (today : Py.date) : option (list Py.date) :=
  monday ← Py.date_add today (- Py.weekday today);
  week_from monday.

Definition _get_next_week_dates (today : Py.date) : option (list Py.date) :=
  monday ← Py.date_add today (- Py.weekday today);
  next_monday ← Py.date_add monday 7;
  week_from next_monday.

(** [regenerate_auto_assignments].  A week that leaves the calendar
    raises [OverflowError] before anything is changed; the handler
    reports it and answers [False].  Otherwise the two weeks are
    cleared in [self.schedule] and the assignment runs; the schedule
    file is written by [_auto_assign_shifts] alone, and only by a run
    that stores entries. *)
Definition regenerate_auto_assignments (s : State) : bool * State :=
  let raised s' :=
    (false,
     report ("Error regenerating assignments: " ++ "date value out of range") s') in
  match _get_current_week_dates (Py.date_of (now w (ticks s))) with
  | None => raised (tick 1 s)
  | Some current_week =>
      match _get_next_week_dates (Py.date_of (now w (S (ticks s)))) with
      | None => raised (tick 2 s)
      | Some next_week =>
          let all_dates := (current_week ++ next_week)%list in
          let s1 := tick 2 (set_schedule (clear_dates all_dates (schedule s)) s) in
          (true, _auto_assign_shifts all_dates s1)
      end
  end.

End AutoAssign.

(** ** Schedule form and conflict check *)

(** The session variables read by the form. *)
Record Session := {
  current_user : string;
  user_role : string;
  editing_schedule : bool;
  editing_schedule_id : option Z
}.

(** The values submitted with the form. *)
Module Form.
Record t := mk {
  schedule_date : Py.date;
  start_time : Py.time;
  end_time : Py.time;
  location : string;
  notes : string;
  mark_auto : bool
}.
End Form.

(** The ways out of the submit handler of [_create_schedule_input]. *)
Inductive SubmitExit :=
| InvalidTimes   (* "Start time must be before end time." *)
| Conflict       (* "Schedule conflict detected! ..." *)
| Raised         (* the exception handler *)
| Saved.

Section ScheduleForm.

Variable w : World.

(** [_parse_time] on a stored string. *)
Definition _parse_time (time_str : string) : Py.time :=
  if Py.contains_colon time_str then
    match Py.split_colon time_str "" with
    | p0 :: p1 :: _ =>
        match Py.int p0, Py.int p1 with
        | Some h, Some m => Py.mk_time (h mod 24) (m mod 60)
        | _, _ => Py.mk_time 9 0
        end
    | _ => Py.mk_time 9 0
    end
  else Py.mk_time 9 0.

(** The mask of [get_user_schedule]. *)
Definition user_on_date (username date_str : string) (e : Entry.t) : bool :=
  String.eqb (Entry.username e) username && String.eqb (Entry.date e) date_str.

(** The overlap test of the conflict loop. *)
Definition overlaps (start_time end_time : Py.time) (existing : Entry.t) : bool :=
  let exist_start := _parse_time (Entry.start_time existing) in
  let exist_end := _parse_time (Entry.end_time existing) in
  Py.time_lt start_time exist_end && Py.time_lt exist_start end_time.

Definition is_manager (role : string) : bool :=
  String.eqb role "Admin" || String.eqb role "Manager".

(** The loop that notifies every Admin and Manager. *)
Definition notify_managers (message notification_type : string) (s : State) : State :=
  fold_left
    (fun acc u =>
       if is_manager (User.role (snd u))
       then add_notification w (fst u) message notification_type None acc
       else acc)
    (users s) s.

(** Whether the form is in edit mode: the session says so and the
    entry is still in the table. *)
Definition editing (sess : Session) (s : State) : option Z :=
  if editing_schedule sess then
    match editing_schedule_id sess with
    | Some id => if pd.index_mem id (schedule s) then Some id else None
    | None => None
    end
  else None.

(** The rows compared with the candidate: those of the current user
    on the chosen date, without the row being edited. *)
Definition comparison_set (sess : Session) (form : Form.t) (s : State)
  : pd.DataFrame Entry.t :=
  pd.select
    (fun k e =>
       user_on_date (current_user sess) (Py.strftime_Ymd (Form.schedule_date form)) e
       && match editing sess s with
          | Some id => negb (k =? id)
          | None => true
          end)
    (schedule s).

Definition submit_schedule (sess : Session) (form : Form.t) (s : State)
  : SubmitExit * State :=
  let start_time := Form.start_time form in
  let end_time := Form.end_time form in
  if Py.time_le end_time start_time
  then (InvalidTimes, report "Start time must be before end time." s)
  else
    let start_time_str := Py.strftime_HM start_time in
    let end_time_str := Py.strftime_HM end_time in
    let date_str := Py.strftime_Ymd (Form.schedule_date form) in
    match find (fun p => overlaps start_time end_time (snd p))
               (comparison_set sess form s) with
    | Some (_, existing) =>
        (Conflict,
         report ("Schedule conflict detected! Conflicts with existing shift from "
                 ++ Py.strftime_HM (_parse_time (Entry.start_time existing))
                 ++ " to "
                 ++ Py.strftime_HM (_parse_time (Entry.end_time existing))) s)
    | None =>
        match lookup_user (current_user sess) s with
        | None =>
            (Raised,
             report ("Error saving schedule: " ++ key_error (current_user sess)) s)
        | Some user =>
            let privileged := is_manager (user_role sess) in
            let updated_at := timestamp w (ticks s) in
            let s1 := tick 1 s in
            match editing sess s with
            | Some id =>
                let is_auto :=
                  if privileged then Form.mark_auto form
                  else match pd.loc id (schedule s) with
                       | Some old => Entry.auto_assigned old
                       | None => false
                       end in
                let s2 :=
                  set_schedule
                    (pd.set_loc id
                       (fun old =>
                          Entry.mk date_str (current_user sess) (User.name user)
                                   (User.subteam user) start_time_str end_time_str
                                   (Form.location form) (Form.notes form) is_auto
                                   (Entry.created_at old) updated_at)
                       (schedule s1)) s1 in
                let s3 :=
                  add_notification w (current_user sess)
                    ("Schedule for " ++ date_str ++ " updated successfully")
                    "success" None s2 in
                let s4 :=
                  if negb is_auto && negb privileged
                  then notify_managers
                         (User.name user ++ " updated their schedule for " ++ date_str)
                         "info" s3
                  else s3 in
                (Saved, s4)
            | None =>
                let is_auto := if privileged then Form.mark_auto form else false in
                let schedule_data :=
                  Entry.mk date_str (current_user sess) (User.name user)
                           (User.subteam user) start_time_str end_time_str
                           (Form.location form) (Form.notes form) is_auto
                           (timestamp w (ticks s1)) updated_at in
                let s2 :=
                  tick 1
                    (set_schedule
                       (pd.concat_ignore_index (schedule s1)
                          (pd.of_records [schedule_data])) s1) in
                let s3 :=
                  add_notification w (current_user sess)
                    ("New schedule for " ++ date_str ++ " added successfully")
                    "success" None s2 in
                let s4 :=
                  if negb is_auto && negb privileged
                  then notify_managers
                         (User.name user ++ " added a new schedule for " ++ date_str)
                         "info" s3
                  else s3 in
                (Saved, s4)
            end
        end
    end.

End ScheduleForm.

(** ** Vocabulary of the properties *)

(** Every entry that is still in the table has the key it had. *)
Definition keys_stable (before after : pd.DataFrame Entry.t) : Prop :=
  forall k e,
    pd.loc k before = Some e -> In e (pd.rows after) -> pd.loc k after = Some e.

(** The inbox of a user, empty when the user has none. *)
Definition inbox_of (username : string) (s : State) : list Notification.t :=
  default [] (notifications s !! username).

(** A user record with no preferred start time and no preferred hours. *)
Definition no_time_preferences (u : User.t) : Prop :=
  let prefs := default Prefs.empty (User.preferences u) in
  Prefs.preferred_start_time prefs = None /\ Prefs.preferred_hours prefs = None.

(** The range of the fields of a [datetime.time]. *)
Definition valid_time (t : Py.time) : Prop :=
  0 <= Py.hour t < 24 /\ 0 <= Py.minute t < 60.

(** [_parse_time] reads back every time printed by [strftime]. *)
Definition reads_back (h m : Z) : bool :=
  let t := _parse_time (Py.strftime_HM (Py.mk_time h m)) in
  (Py.hour t =? h) && (Py.minute t =? m).

(** The stored end time of an entry is after its stored start time, as
    the program reads them. *)
Definition ends_after_start (e : Entry.t) : bool :=
  Py.time_lt (_parse_time (Entry.start_time e)) (_parse_time (Entry.end_time e)).

(** ** Sample data

    A small roster, a clock and two schedules on which the operations
    are run in the examples below. *)

Module Sample.

Definition monday : Py.date := Py.mk_date 2026 11 2.

Definition world : World :=
  {| now := fun k => Py.mk_datetime monday (Py.mk_time 8 0) (Z.of_nat k mod 60);
     uuid4 := fun k => "uuid-" ++ Py.str (Z.of_nat k);
     random := fun _ => (1 # 2)%Q |}.

Definition alice : User.t :=
  User.mk "Alice" "Brokerage" "alice@company.com" "Regular" None.
Definition bob : User.t :=
  User.mk "Bob" "Brokerage" "bob@company.com" "Regular" None.
Definition carol : User.t :=
  User.mk "Carol" "Control" "carol@company.com" "Manager" None.
(** A user record as [users.json] can hold it: an evening start. *)
Definition nina : User.t :=
  User.mk "Nina" "IT Support" "nina@company.com" "Regular"
          (Some (Prefs.mk (Some "Office") [] (Some "20:00") (Some (9 : Q)))).

Definition shift (username name subteam start_time end_time : string) : Entry.t :=
  Entry.mk "2026-11-02" username name subteam start_time end_time "Office"
           "" false "2026-11-01 10:00:00" "2026-11-01 10:00:00".

Definition alice_shift : Entry.t := shift "alice" "Alice" "Brokerage" "09:00" "17:00".
Definition carol_shift : Entry.t := shift "carol" "Carol" "Control" "10:00" "18:00".

(** Alice and Carol each have a shift on Monday; Bob has none. *)
Definition office : State :=
  mkState [("alice", alice); ("bob", bob); ("carol", carol)]
          (pd.of_records [alice_shift; carol_shift]) [] ∅ [] 0.

(** Alice asks Bob to take her shift (entry 0). *)
Definition requested : State :=
  snd (create_shift_swap_request world 0 "bob" office).

Definition request_id : string := uuid4 world 0.

(** Bob approves. *)
Definition approved : State :=
  snd (update_shift_request_status world request_id Approved requested).

(** The same request is approved once more. *)
Definition approved_twice : State :=
  snd (update_shift_request_status world request_id Approved approved).

(** Bob's account is removed while the request is pending. *)
Definition bob_removed : State :=
  mkState [("alice", alice); ("carol", carol)]
          (schedule requested) (shift_requests requested)
          (notifications requested) [] (ticks requested).

(** Bob rejects, and the request is then approved all the same. *)
Definition rejected : State :=
  snd (update_shift_request_status world request_id Rejected requested).

(** The schedule is emptied while the request is pending. *)
Definition schedule_cleared : State := set_schedule [] requested.

Definition night_roster : State :=
  mkState [("nina", nina)] [] [] ∅ [] 0.

Definition alice_session : Session :=
  {| current_user := "alice"; user_role := "Regular";
     editing_schedule := false; editing_schedule_id := None |}.

Definition alice_editing : Session :=
  {| current_user := "alice"; user_role := "Regular";
     editing_schedule := true; editing_schedule_id := Some 0 |}.

Definition form (start_time end_time : Py.time) : Form.t :=
  Form.mk monday start_time end_time "WFH" "" false.

End Sample.

(** ** Further vocabulary *)

(** The number written by the digits [d] after the number [acc]. *)
Fixpoint uint_val (d : Decimal.uint) (acc : Z) : Z :=
  match d with
  | Decimal.Nil => acc
  | Decimal.D0 r => uint_val r (10 * acc)
  | Decimal.D1 r => uint_val r (10 * acc + 1)
  | Decimal.D2 r => uint_val r (10 * acc + 2)
  | Decimal.D3 r => uint_val r (10 * acc + 3)
  | Decimal.D4 r => uint_val r (10 * acc + 4)
  | Decimal.D5 r => uint_val r (10 * acc + 5)
  | Decimal.D6 r => uint_val r (10 * acc + 6)
  | Decimal.D7 r => uint_val r (10 * acc + 7)
  | Decimal.D8 r => uint_val r (10 * acc + 8)
  | Decimal.D9 r => uint_val r (10 * acc + 9)
  end.

(** A string without white space. *)
Fixpoint no_space (s : string) : bool :=
  match s with
  | EmptyString => true
  | String c r => negb (Py.is_space c) && no_space r
  end.

(** Two entries whose times overlap, as the program reads them. *)
Definition entries_overlap (a b : Entry.t) : bool :=
  Py.time_lt (_parse_time (Entry.start_time a)) (_parse_time (Entry.end_time b))
  && Py.time_lt (_parse_time (Entry.start_time b)) (_parse_time (Entry.end_time a)).

(** No two rows of the same user on the same date overlap. *)
Definition conflict_free (df : pd.DataFrame Entry.t) : Prop :=
  forall (i j : nat) (a b : Entry.t),
    i <> j -> pd.rows df !! i = Some a -> pd.rows df !! j = Some b ->
    Entry.username a = Entry.username b -> Entry.date a = Entry.date b ->
    entries_overlap a b = false.

(** An entry dated on one of [dates]. *)
Definition in_window (dates : list Py.date) (e : Entry.t) : bool :=
  existsb (String.eqb (Entry.date e)) (map Py.strftime_Ymd dates).

(** What an auto-assigned entry is apart from the location drawn and
    the time of its creation. *)
Definition slate (e : Entry.t)
  : string * string * string * string * string * string * string * bool :=
  (Entry.date e, Entry.username e, Entry.name e, Entry.subteam e,
   Entry.start_time e, Entry.end_time e, Entry.notes e, Entry.auto_assigned e).

(** The number of members scheduled on one day over all teams. *)
Definition daily_cover (groups : list (string * roster)) : nat :=
  fold_right
    (fun g n => (Z.to_nat (members_per_day (Z.of_nat (length (snd g)))) + n)%nat)
    0%nat groups.

(** A date of the calendar. *)
Definition valid_date (d : Py.date) : Prop :=
  1 <= Py.year d /\ 1 <= Py.month d <= 12
  /\ 1 <= Py.day d <= Py.days_in_month (Py.year d) (Py.month d).

(** A user whose stored start time and hours auto-assignment can
    read: the start time has the form [%H:%M] and the shift stays
    within the calendar. *)
Definition readable_times (u : User.t) : Prop :=
  let prefs := default Prefs.empty (User.preferences u) in
  exists start_dt end_time,
    Py.strptime_HM (default "09:00" (Prefs.preferred_start_time prefs))
    = Some start_dt
    /\ Py.add_to_time start_dt
         (Py.timedelta_hours (default (9 : Q) (Prefs.preferred_hours prefs)))
       = Some end_time.

(** Date, team and user of an entry. *)
Definition assignment (e : Entry.t) : string * string * string :=
  (Entry.date e, Entry.subteam e, Entry.username e).

(** The assignments that the selection loop makes for the dates: for
    each date in turn, for each team in turn, the selected members. *)
Definition selected_assignments (dates : list Py.date) (us : roster)
  : list (string * string * string) :=
  map (fun x => (Py.strftime_Ymd (fst (fst x)), snd (fst x), fst (snd x)))
      (selections dates (group_by_subteam us)).

(** Further cases: rosters with a start time that is not of the form
    [%H:%M], and runs of the swap workflow. *)
Module Cases.


(** Carol, a manager, asks Bob to take her shift (entry 1), then edits
    that shift and ticks "Mark as auto-assigned"; [at_transfer] is the
    state in which [update_shift_request_status] then runs the transfer
    for Bob's approval. *)
Definition carol_requested : State :=
  snd (create_shift_swap_request Sample.world 1 "bob" Sample.office).

Definition carol_request_id : string := uuid4 Sample.world 0.

Definition carol_editing : Session :=
  {| current_user := "carol"; user_role := "Manager";
     editing_schedule := true; editing_schedule_id := Some 1 |}.

Definition carol_edited : State :=
  snd (submit_schedule Sample.world carol_editing
         (Form.mk Sample.monday (Py.mk_time 10 0) (Py.mk_time 18 0) "Office" "" true)
         carol_requested).

Definition at_transfer : State :=
  add_notification Sample.world "carol" (approved_message "2026-11-02" "Bob")
    "success" None
    (store_status Sample.world carol_request_id Approved carol_edited).

(** Alice has asked Bob to take her shift (entry 0); Carol also asks
    Alice to take hers (entry 1).  Bob approves, then Alice approves. *)
Definition both_requested : State :=
  snd (create_shift_swap_request Sample.world 1 "alice" Sample.requested).

Definition second_request_id : string := uuid4 Sample.world (ticks Sample.requested).

Definition first_approved : State :=
  snd (update_shift_request_status Sample.world Sample.request_id Approved
         both_requested).

Definition second_approved : State :=
  snd (update_shift_request_status Sample.world second_request_id Approved
         first_approved).

(** A clock that stands in the last week of the year 9999. *)
Definition last_week : World :=
  {| now := fun _ => Py.mk_datetime (Py.mk_date 9999 12 28) (Py.mk_time 8 0) 0;
     uuid4 := uuid4 Sample.world;
     random := random Sample.world |}.


Definition dave : User.t :=
  User.mk "Dave" "IT Support" "dave@company.com" "Regular"
          (Some (Prefs.mk None [] (Some "9am") None)).

Definition dave_only : State :=
  mkState [("dave", dave)] (pd.of_records [Sample.alice_shift]) [] ∅ [] 0.

End Cases.

(** ** Administration of users and departments

    The handlers of the admin panel, for the run in which the button
    that confirms the action is pressed.  [SUBTEAMS] is the module's
    list of department names; it is passed in and handed back. *)

Definition set_users (us : list (string * User.t)) (s : State) : State :=
  mkState us (schedule s) (shift_requests s) (notifications s) (st_error s) (ticks s).

(** [_show_delete_user_confirm] with "Yes, Delete User" pressed.
    [preferences] is the dictionary of per-user settings kept beside
    [users]. *)
Definition _show_delete_user_confirm {P : Type} (username : string)
           (preferences : gmap string P) (s : State)
  : bool * gmap string P * State :=
  match lookup_user username s with
  | None => (false, preferences, report ("User '" ++ username ++ "' not found") s)
  | Some _ =>
      (true, delete username preferences,
       set_notifications (delete username (notifications s))
         (set_users
            (List.filter (fun p => negb (String.eqb (fst p) username)) (users s))
            s))
  end.

(** [user_data['subteam'] = new] for every user of [dept_name]. *)
Definition reassign_users (dept_name new : string) (us : list (string * User.t))
  : list (string * User.t) :=
  map (fun p =>
         if String.eqb (User.subteam (snd p)) dept_name
         then (fst p,
               User.mk (User.name (snd p)) new (User.email (snd p))
                       (User.role (snd p)) (User.preferences (snd p)))
         else p)
      us.

(** [schedule.loc[schedule['subteam'] == dept_name, 'subteam'] = new]. *)
Definition reassign_entries (dept_name new : string) (df : pd.DataFrame Entry.t)
  : pd.DataFrame Entry.t :=
  map (fun p =>
         let e := snd p in
         if String.eqb (Entry.subteam e) dept_name
         then (fst p,
               Entry.mk (Entry.date e) (Entry.username e) (Entry.name e) new
                        (Entry.start_time e) (Entry.end_time e) (Entry.location e)
                        (Entry.notes e) (Entry.auto_assigned e)
                        (Entry.created_at e) (Entry.updated_at e))
         else p)
      df.

(** [l[l.index(old)] = new], for [old] in [l]. *)
Fixpoint replace_first (old new : string) (l : list string) : list string :=
  match l with
  | [] => []
  | x :: r => if String.eqb x old then new :: r else x :: replace_first old new r
  end.

(** [l.remove(x)], for [x] in [l]. *)
Fixpoint remove_first (x : string) (l : list string) : list string :=
  match l with
  | [] => []
  | y :: r => if String.eqb y x then r else y :: remove_first x r
  end.

Definition listed (x : string) (l : list string) : bool :=
  existsb (String.eqb x) l.

Inductive DeptExit :=
  | DeptNotFound | NameRequired | NameTaken | NoChanges | NothingToPress
  | Added | Renamed | Deleted.

(** [_show_add_dept_form] with "Add Department" pressed. *)
Definition _show_add_dept_form (dept_name : string) (SUBTEAMS : list string)
           (s : State) : DeptExit * list string * State :=
  if String.eqb dept_name "" then
    (NameRequired, SUBTEAMS, report "Department name is required" s)
  else if listed dept_name SUBTEAMS then
    (NameTaken, SUBTEAMS,
     report ("Department '" ++ dept_name ++ "' already exists") s)
  else (Added, (SUBTEAMS ++ [dept_name])%list, s).

(** [_show_edit_dept_form] with "Save Changes" pressed. *)
Definition _show_edit_dept_form (dept_name new_dept_name : string)
           (SUBTEAMS : list string) (s : State) : DeptExit * list string * State :=
  if negb (listed dept_name SUBTEAMS) then
    (DeptNotFound, SUBTEAMS,
     report ("Department '" ++ dept_name ++ "' not found") s)
  else if String.eqb new_dept_name "" then
    (NameRequired, SUBTEAMS, report "Department name is required" s)
  else if negb (String.eqb new_dept_name dept_name) && listed new_dept_name SUBTEAMS
  then
    (NameTaken, SUBTEAMS,
     report ("Department '" ++ new_dept_name ++ "' already exists") s)
  else if negb (String.eqb new_dept_name dept_name) then
    (Renamed, replace_first dept_name new_dept_name SUBTEAMS,
     set_schedule (reassign_entries dept_name new_dept_name (schedule s))
       (set_users (reassign_users dept_name new_dept_name (users s)) s))
  else (NoChanges, SUBTEAMS, s).

(** [_show_delete_dept_confirm] with the confirming button pressed:
    "Reassign and Delete" when the department has users, the select box
    standing at its option number [choice], and "Yes, Delete
    Department" when it has none. *)
Definition _show_delete_dept_confirm (dept_name : string) (choice : nat)
           (SUBTEAMS : list string) (s : State) : DeptExit * list string * State :=
  if negb (listed dept_name SUBTEAMS) then
    (DeptNotFound, SUBTEAMS,
     report ("Department '" ++ dept_name ++ "' not found") s)
  else
    let users_in_dept :=
      length (List.filter (fun p => String.eqb (User.subteam (snd p)) dept_name)
                          (users s)) in
    if (0 <? users_in_dept)%nat then
      let s1 :=
        report ("This department has " ++ Py.str (Z.of_nat users_in_dept)
                ++ " users. You must reassign these users before deleting.") s in
      let other_depts :=
        List.filter (fun d => negb (String.eqb d dept_name)) SUBTEAMS in
      match other_depts with
      | [] =>
          (NothingToPress, SUBTEAMS,
           report ("There are no other departments to reassign users to. "
                   ++ "Please create another department first.") s1)
      | _ :: _ =>
          match other_depts !! choice with
          | None => (NothingToPress, SUBTEAMS, s1)
          | Some reassign_to =>
              (Deleted, remove_first dept_name SUBTEAMS,
               set_schedule (reassign_entries dept_name reassign_to (schedule s1))
                 (set_users (reassign_users dept_name reassign_to (users s1)) s1))
          end
      end
    else (Deleted, remove_first dept_name SUBTEAMS, s).

(** The usernames of a department, in the order of [users]. *)
Definition members_of (dept_name : string) (us : list (string * User.t))
  : list string :=
  map fst (List.filter (fun p => String.eqb (User.subteam (snd p)) dept_name) us).

(** The departments the program starts with. *)
Definition SUBTEAMS : list string :=
  ["Brokerage"; "Control"; "Reconciliation"; "Clearing"; "Team A";
   "Management"; "IT Support"; "HR"; "Finance"].

(** Every user belongs to a listed department, and no department is
    listed twice. *)
Definition departments_ok (SUBTEAMS : list string) (s : State) : Prop :=
  List.NoDup SUBTEAMS
  /\ Forall (fun p => In (User.subteam (snd p)) SUBTEAMS) (users s).

(** ** The dates of a month *)

(** [datetime(year, month, day).date()]; [None] is [ValueError]. *)
Definition checked_date (year month day : Z) : option Py.date :=
  if (1 <=? year) && (year <=? 9999) && (1 <=? month) && (month <=? 12)
     && (1 <=? day) && (day <=? Py.days_in_month year month)
  then Some (Py.mk_date year month day)
  else None.

(** [_get_month_dates]. *)
Definition _get_month_dates (year month : Z) : option (list Py.date) :=
  first_day ← checked_date year month 1;
  next_month ← (if month =? 12 then checked_date (year + 1) 1 1
                else checked_date year (month + 1) 1);
  let last_day := Py.add_days next_month (- 1) in
  Some (map (Py.add_days first_day)
            (seqZ 0 (Py.toordinal last_day - Py.toordinal first_day + 1))).

(** ** Backups

    The directory [data/backups] as the list of its files, in the
    order in which [glob] yields them; a file is its name and its
    modification time (a float, read as the rational it denotes).  The
    entries are regular files that [unlink] can remove. *)
Module Backup.

Record file := mk_file { name : string; st_mtime : Q }.

Fixpoint ends_with (suffix s : string) : bool :=
  String.eqb suffix s
  || match s with
     | EmptyString => false
     | String _ r => ends_with suffix r
     end.

Fixpoint drop_chars (n : nat) (s : string) : string :=
  match n, s with
  | S n, String _ r => drop_chars n r
  | _, _ => s
  end.

(** The pattern [f"{file_stem}_backup_*{file_suffix}"], for a stem and
    a suffix without wildcard characters. *)
Definition matches (file_stem file_suffix name : string) : bool :=
  let pre := (file_stem ++ "_backup_")%string in
  String.prefix pre name && ends_with file_suffix (drop_chars (String.length pre) name).

(** [backup_files.sort(key=lambda x: x.stat().st_mtime, reverse=True)]:
    newest first, files of equal time in the order they had. *)
Fixpoint insert_newest_first (f : file) (sorted : list file) : list file :=
  match sorted with
  | [] => [f]
  | g :: r =>
      if Qle_bool (st_mtime g) (st_mtime f) then f :: g :: r
      else g :: insert_newest_first f r
  end.

Definition sort_newest_first (l : list file) : list file :=
  fold_right insert_newest_first [] l.

(** [old_file.unlink()]. *)
Definition unlink (path : string) (dir : list file) : list file :=
  List.filter (fun f => negb (String.eqb (name f) path)) dir.

(** [_cleanup_old_backups]. *)
Definition _cleanup_old_backups (file_stem file_suffix : string) (dir : list file)
  : list file :=
  let backup_files :=
    sort_newest_first
      (List.filter (fun f => matches file_stem file_suffix (name f)) dir) in
  let max_backups := 10%nat in
  if (max_backups <? length backup_files)%nat then
    fold_left (fun d old_file => unlink (name old_file) d)
              (skipn max_backups backup_files) dir
  else dir.

(** The backups of one file in a directory. *)
Definition backups (file_stem file_suffix : string) (dir : list file) : list file :=
  List.filter (fun f => matches file_stem file_suffix (name f)) dir.

(** Newest first. *)
Fixpoint newest_first (l : list file) : Prop :=
  match l with
  | [] => True
  | a :: r => Forall (fun b => (st_mtime b <= st_mtime a)%Q) r /\ newest_first r
  end.

(** Twelve backups of [users.json], the first written, oldest, first,
    and a file of another kind. *)
Definition sample_dir : list file :=
  mk_file "notes.txt" 0
  :: map (fun i => mk_file ("users_backup_" ++ Py.str i ++ ".json") (inject_Z i))
         (seqZ 1 12).

End Backup.

(** * Properties *)

Open Scope list_scope.

(** ** Tables *)

Lemma rows_range_index {A} (l : list A) i : pd.rows (pd.range_index i l) = l.
Proof.
  unfold pd.rows.
  revert i; induction l as [|r l IH]; intros i; simpl; [reflexivity|].
  f_equal; apply IH.
Qed.

Lemma length_range_index {A} (l : list A) i : length (pd.range_index i l) = length l.
Proof. revert i; induction l; intros; simpl; auto. Qed.

Lemma range_index_app {A} (a b : list A) i :
  pd.range_index i (a ++ b)
  = (pd.range_index i a ++ pd.range_index (i + Z.of_nat (length a)) b)%list.
Proof.
  revert i; induction a as [|r a IH]; intros i; simpl.
  - rewrite Z.add_0_r; reflexivity.
  - rewrite IH; do 3 f_equal; lia.
Qed.

Lemma index_range_index {A} (l : list A) i :
  pd.index (pd.range_index i l) = seqZ i (Z.of_nat (length l)).
Proof.
  unfold pd.index.
  revert i; induction l as [|r l IH]; intros i; [reflexivity|].
  rewrite seqZ_cons by (simpl; lia). simpl map. rewrite IH.
  do 2 f_equal; simpl length; lia.
Qed.

(** A table whose labels are [0 .. n-1] in row order, as every load and
    every [ignore_index=True] leaves it. *)
Lemma range_index_of_index {A} (df : pd.DataFrame A) i :
  pd.index df = seqZ i (Z.of_nat (length df)) ->
  df = pd.range_index i (pd.rows df).
Proof.
  revert i; induction df as [|[k r] df IH]; intros i H; simpl; [reflexivity|].
  simpl in H. rewrite seqZ_cons in H by lia.
  injection H as -> H. f_equal. apply IH.
  rewrite H; f_equal; lia.
Qed.

Lemma index_mem_true {A} k (df : pd.DataFrame A) :
  pd.index_mem k df = true <-> In k (pd.index df).
Proof.
  unfold pd.index_mem. rewrite existsb_exists. split.
  - intros (x & Hx & E). apply Z.eqb_eq in E. subst; assumption.
  - intros H. exists k. split; [assumption | apply Z.eqb_refl].
Qed.

Lemma loc_app_l {A} k (a b : pd.DataFrame A) e :
  pd.loc k a = Some e -> pd.loc k (a ++ b) = Some e.
Proof.
  unfold pd.loc. induction a as [|[k' r] a IH]; simpl; [discriminate|].
  destruct (k' =? k); auto.
Qed.

Lemma loc_set_loc_ne {A} k id upd (df : pd.DataFrame A) :
  k <> id -> pd.loc k (pd.set_loc id upd df) = pd.loc k df.
Proof.
  intros Hne. unfold pd.loc, pd.set_loc.
  induction df as [|[k' r] df IH]; simpl; [reflexivity|].
  destruct (k' =? id) eqn:E1; simpl.
  - apply Z.eqb_eq in E1. subst k'.
    destruct (id =? k) eqn:E2; [apply Z.eqb_eq in E2; congruence | exact IH].
  - destruct (k' =? k); [reflexivity | exact IH].
Qed.

Lemma index_set_loc {A} id upd (df : pd.DataFrame A) :
  pd.index (pd.set_loc id upd df) = pd.index df.
Proof.
  unfold pd.index, pd.set_loc. rewrite map_map. apply map_ext.
  intros [k r]; simpl. destruct (k =? id); reflexivity.
Qed.

(** [drop] keeps the labels of the rows it leaves. *)
Lemma drop_keeps_labels {A} k (df df' : pd.DataFrame A) j :
  pd.drop k df = Some df' -> j <> k -> pd.loc j df' = pd.loc j df.
Proof.
  unfold pd.drop. destruct (pd.index_mem k df); [|discriminate].
  intros [= <-] Hne. unfold pd.loc.
  induction df as [|[k' r] df IH]; simpl; [reflexivity|].
  destruct (k' =? k) eqn:E1; simpl.
  - apply Z.eqb_eq in E1. subst k'.
    destruct (k =? j) eqn:E2; [apply Z.eqb_eq in E2; congruence | exact IH].
  - destruct (k' =? j); [reflexivity | exact IH].
Qed.

(** ** What notifications and transfers leave alone *)

(** Case analysis on every [match] of the goal, each branch closed by
    computation. *)
Ltac by_cases :=
  repeat (match goal with
          | |- context [match ?x with _ => _ end] => destruct x
          end; simpl; try reflexivity).

Section Frames.

Variable w : World.

Lemma add_notification_schedule u m t l s :
  schedule (add_notification w u m t l s) = schedule s.
Proof. reflexivity. Qed.

Lemma add_notification_requests u m t l s :
  shift_requests (add_notification w u m t l s) = shift_requests s.
Proof. reflexivity. Qed.

Lemma add_notification_users u m t l s :
  users (add_notification w u m t l s) = users s.
Proof. reflexivity. Qed.

Lemma notify_managers_schedule m t s :
  schedule (notify_managers w m t s) = schedule s.
Proof.
  unfold notify_managers. generalize (users s) as l.
  intros l; revert s; induction l as [|u l IH]; intros s; simpl; [reflexivity|].
  rewrite IH. destruct (is_manager _); reflexivity.
Qed.

Lemma process_approved_swap_requests rid s :
  shift_requests (snd (process_approved_swap w rid s)) = shift_requests s.
Proof.
  unfold process_approved_swap. by_cases.
Qed.

Lemma process_approved_swap_notifications rid s :
  notifications (snd (process_approved_swap w rid s)) = notifications s.
Proof.
  unfold process_approved_swap. by_cases.
Qed.

Lemma process_approved_swap_users rid s :
  users (snd (process_approved_swap w rid s)) = users s.
Proof.
  unfold process_approved_swap. by_cases.
Qed.

End Frames.

(** ** Notification service: unknown user or unknown id *)

Lemma mark_first_unknown notification_id inbox :
  Forall (fun n => Notification.id n <> notification_id) inbox ->
  mark_first notification_id inbox = inbox.
Proof.
  induction 1 as [|n inbox Hn _ IH]; simpl; [reflexivity|].
  destruct (String.eqb_spec (Notification.id n) notification_id); [contradiction|].
  rewrite IH; reflexivity.
Qed.

Lemma filter_unknown notification_id inbox :
  Forall (fun n => Notification.id n <> notification_id) inbox ->
  List.filter (fun n => negb (String.eqb (Notification.id n) notification_id)) inbox
  = inbox.
Proof.
  induction 1 as [|n inbox Hn _ IH]; simpl; [reflexivity|].
  destruct (String.eqb_spec (Notification.id n) notification_id); [contradiction|].
  simpl; rewrite IH; reflexivity.
Qed.

Lemma set_notifications_same s username inbox :
  notifications s !! username = Some inbox ->
  set_notifications (<[username := inbox]> (notifications s)) s = s.
Proof.
  intros H. unfold set_notifications. rewrite (insert_id _ _ _ H).
  destruct s; reflexivity.
Qed.

(** C9, as stated, fails: with a known user and an unknown notification
    id, [mark_notification_as_read] answers [True], not [False]. *)
Lemma C9_unknown_id_answers_true :
  ~ (forall (s : State) (username notification_id : string),
        (forall inbox, notifications s !! username = Some inbox ->
           Forall (fun n => Notification.id n <> notification_id) inbox) ->
        mark_notification_as_read username notification_id s = (false, s) /\
        delete_notification username notification_id s = (false, s)).
Proof.
  intros claim.
  destruct (claim Sample.requested "alice" "no-such-id") as [H _].
  - intros inbox E. vm_compute in E. injection E as <-.
    repeat constructor; discriminate.
  - apply (f_equal fst) in H. vm_compute in H. discriminate.
Qed.

(** C9 (amended): when the notification id is not in the user's inbox,
    or the user has no inbox, [mark_notification_as_read] and
    [delete_notification] leave the whole state, hence every inbox, as
    it was, so repeating the call changes nothing either; they answer
    [False] when the user has no inbox and [True] when the user has one
    that lacks the id. *)
Theorem C9_unknown_target_changes_nothing
        (s : State) (username notification_id : string) :
  (forall inbox, notifications s !! username = Some inbox ->
     Forall (fun n => Notification.id n <> notification_id) inbox) ->
  let known :=
    match notifications s !! username with Some _ => true | None => false end in
  mark_notification_as_read username notification_id s = (known, s) /\
  delete_notification username notification_id s = (known, s).
Proof.
  intros H. unfold mark_notification_as_read, delete_notification.
  destruct (notifications s !! username) as [inbox|] eqn:E; simpl.
  - specialize (H inbox eq_refl).
    rewrite (mark_first_unknown _ _ H), (filter_unknown _ _ H).
    rewrite (set_notifications_same _ _ _ E). split; reflexivity.
  - split; reflexivity.
Qed.

Lemma C9_unknown_target_witness :
  mark_notification_as_read "alice" "no-such-id" Sample.requested
  = (true, Sample.requested)
  /\ delete_notification "nobody" "uuid-5" Sample.requested
     = (false, Sample.requested).
Proof.
  split.
  - apply (C9_unknown_target_changes_nothing Sample.requested "alice" "no-such-id").
    intros inbox E. vm_compute in E. injection E as <-.
    repeat constructor; discriminate.
  - apply (C9_unknown_target_changes_nothing Sample.requested "nobody" "uuid-5").
    intros inbox E. vm_compute in E. discriminate.
Defined.

(** ** Swap workflow: the status of a request *)

Lemma find_set_status rid st stamp l r :
  find (has_id rid) l = Some r ->
  find (has_id rid)
       (map (fun r => if has_id rid r then Request.set_status st stamp r else r) l)
  = Some (Request.set_status st stamp r).
Proof.
  induction l as [|x l IH]; simpl; [discriminate|].
  destruct (has_id rid x) eqn:E; simpl.
  - intros [= ->]. unfold has_id in *. simpl. rewrite E. reflexivity.
  - rewrite E. exact IH.
Qed.

Lemma update_status_requests w rid st s r :
  find_request rid s = Some r ->
  shift_requests (snd (update_shift_request_status w rid st s))
  = map (fun r => if has_id rid r
                  then Request.set_status st (timestamp w (ticks s)) r else r)
        (shift_requests s).
Proof.
  intros H. unfold update_shift_request_status. rewrite H.
  destruct st; simpl; try reflexivity.
  - destruct (lookup_user _ _); [|reflexivity].
    match goal with
    | |- context [process_approved_swap w rid ?s2] =>
        pose proof (process_approved_swap_requests w rid s2) as F;
        destruct (process_approved_swap w rid s2) as [[] s3]
    end; simpl in *; rewrite F; reflexivity.
  - destruct (lookup_user _ _); reflexivity.
  - destruct (lookup_user _ _); reflexivity.
Qed.

(** C7, as stated, fails: a rejected request that is then approved
    becomes Approved. *)
Lemma C7_terminal_status_is_overwritten :
  ~ (forall w s rid st r r',
        find_request rid s = Some r ->
        Request.status r <> Pending ->
        find_request rid (snd (update_shift_request_status w rid st s)) = Some r' ->
        Request.status r' = Request.status r).
Proof.
  intros claim.
  destruct (find_request Sample.request_id Sample.rejected) as [r|] eqn:E1;
    [|vm_compute in E1; discriminate].
  destruct (find_request Sample.request_id
              (snd (update_shift_request_status Sample.world Sample.request_id
                      Approved Sample.rejected))) as [r'|] eqn:E2;
    [|vm_compute in E2; discriminate].
  assert (Hr : Request.status r = Rejected)
    by (vm_compute in E1; injection E1 as <-; reflexivity).
  assert (Hr' : Request.status r' = Approved)
    by (vm_compute in E2; injection E2 as <-; reflexivity).
  specialize (claim _ _ _ _ _ _ E1 ltac:(rewrite Hr; discriminate) E2).
  congruence.
Qed.

(** C7 (amended): [update_shift_request_status] has no guard on the
    current status: for an existing request it stores the status it is
    given, whatever the stored one was.  A request that has left
    Pending keeps its status under the Approve, Reject and Cancel
    buttons, which act on Pending requests only and otherwise leave the
    state as it is. *)
Theorem C7_status_is_overwritten_unless_guarded w s rid st r :
  find_request rid s = Some r ->
  (exists r',
      find_request rid (snd (update_shift_request_status w rid st s)) = Some r'
      /\ Request.status r' = st)
  /\ (Request.status r <> Pending ->
      approve_button w rid s = s /\ reject_button w rid s = s
      /\ cancel_button w rid s = s).
Proof.
  intros H. split.
  - exists (Request.set_status st (timestamp w (ticks s)) r). split; [|reflexivity].
    unfold find_request in *.
    rewrite (update_status_requests w rid st s r H).
    apply find_set_status; assumption.
  - intros Hne.
    assert (D : displayed_pending rid s = false).
    { unfold displayed_pending. rewrite H.
      destruct (Request.status r); [contradiction | reflexivity ..]. }
    unfold approve_button, reject_button, cancel_button. rewrite D. auto.
Qed.

Lemma C7_status_is_overwritten_witness :
  (exists r',
      find_request Sample.request_id
        (snd (update_shift_request_status Sample.world Sample.request_id
                Cancelled Sample.rejected)) = Some r'
      /\ Request.status r' = Cancelled)
  /\ approve_button Sample.world Sample.request_id Sample.rejected = Sample.rejected.
Proof.
  destruct (find_request Sample.request_id Sample.rejected) as [r|] eqn:E;
    [|vm_compute in E; discriminate].
  destruct (C7_status_is_overwritten_unless_guarded
              Sample.world Sample.rejected Sample.request_id Cancelled r E)
    as [H1 H2].
  split; [exact H1|].
  apply H2. vm_compute in E. injection E as <-. discriminate.
Defined.

(** ** The schedule id written into a request reads back *)

Lemma uint_val_pos d p : uint_val d (Z.pos p) = Z.pos (Pos.of_uint_acc d p).
Proof.
  revert p; induction d; intros p; simpl; try reflexivity;
    rewrite <- IHd; f_equal; lia.
Qed.

Lemma uint_val_zero d : uint_val d 0 = Z.of_N (Pos.of_uint d).
Proof.
  induction d; simpl; try reflexivity; try apply uint_val_pos. exact IHd.
Qed.

Lemma float_digits_uint d acc :
  Py.float_digits (NilEmpty.string_of_uint d) acc true = Some (uint_val d acc).
Proof.
  revert acc; induction d; intros acc; try reflexivity;
    cbn [NilEmpty.string_of_uint Py.float_digits uint_val];
    match goal with
    | |- context [Py.digit_val ?c] =>
        let v := eval vm_compute in (Py.digit_val c) in
        change (Py.digit_val c) with v
    end; cbv iota; rewrite ?Z.add_0_r; apply IHd.
Qed.

Lemma float_digits_uint_first d acc :
  d <> Decimal.Nil ->
  Py.float_digits (NilEmpty.string_of_uint d) acc false = Some (uint_val d acc).
Proof.
  destruct d; intros H; [contradiction | ..];
    cbn [NilEmpty.string_of_uint Py.float_digits uint_val];
    match goal with
    | |- context [Py.digit_val ?c] =>
        let v := eval vm_compute in (Py.digit_val c) in
        change (Py.digit_val c) with v
    end; cbv iota; rewrite ?Z.add_0_r; apply float_digits_uint.
Qed.

Lemma rev_onto_twice s a b :
  Py.rev_onto (Py.rev_onto s a) b = Py.rev_onto a (s ++ b)%string.
Proof.
  revert a b; induction s as [|c r IH]; intros a b; simpl; [reflexivity|].
  rewrite IH. reflexivity.
Qed.

Lemma append_empty s : (s ++ "")%string = s.
Proof.
  induction s as [|c r IH]; [reflexivity|].
  change (String c (r ++ "")%string = String c r). f_equal. exact IH.
Qed.

Lemma no_space_rev_onto s acc :
  no_space (Py.rev_onto s acc) = no_space s && no_space acc.
Proof.
  revert acc; induction s as [|c r IH]; intros acc; simpl; [reflexivity|].
  rewrite IH. simpl. destruct (Py.is_space c), (no_space r); reflexivity.
Qed.

Lemma lstrip_no_space s : no_space s = true -> Py.lstrip s = s.
Proof.
  destruct s as [|c r]; simpl; [reflexivity|].
  destruct (Py.is_space c); [discriminate | reflexivity].
Qed.

Lemma strip_no_space s : no_space s = true -> Py.strip s = s.
Proof.
  intros H. unfold Py.strip. rewrite (lstrip_no_space s H).
  rewrite lstrip_no_space by (rewrite no_space_rev_onto, H; reflexivity).
  rewrite rev_onto_twice. simpl. apply append_empty.
Qed.

Lemma no_space_uint d : no_space (NilEmpty.string_of_uint d) = true.
Proof. induction d; simpl; auto. Qed.

Lemma signed_uint f d :
  Py.signed f (NilEmpty.string_of_uint d) = f (NilEmpty.string_of_uint d).
Proof. destruct d; reflexivity. Qed.

Lemma string_of_uint_nonnil d :
  d <> Decimal.Nil -> NilZero.string_of_uint d = NilEmpty.string_of_uint d.
Proof. destruct d; intros H; [contradiction | reflexivity ..]. Qed.

(** [int(float(str(k)))] is [k]: the text that
    [create_shift_swap_request] stores as [schedule_id] is read back by
    [process_approved_swap] as the key it was made from. *)

Lemma int_float_str k : Py.int_float (Py.str k) = Some k.
Proof.
  unfold Py.int_float, Py.str. destruct k as [|p|p]; [reflexivity| |];
    pose proof (DecimalPos.Unsigned.to_uint_nonnil p) as Hnn;
    simpl Z.to_int; unfold NilZero.string_of_int;
    rewrite (string_of_uint_nonnil _ Hnn).
  - rewrite strip_no_space by apply no_space_uint.
    rewrite signed_uint, float_digits_uint_first by exact Hnn.
    rewrite uint_val_zero, DecimalPos.Unsigned.of_to. reflexivity.
  - rewrite strip_no_space by (simpl; apply no_space_uint).
    cbn [Py.signed]. rewrite float_digits_uint_first by exact Hnn.
    rewrite uint_val_zero, DecimalPos.Unsigned.of_to. reflexivity.
Qed.

(** ** Swap workflow: the ownership transfer *)

Lemma drop_spec {A} k (df : pd.DataFrame A) :
  pd.drop k df
  = if pd.index_mem k df
    then Some (List.filter (fun p => negb (fst p =? k)) df) else None.
Proof. reflexivity. Qed.

(** A transfer that fails leaves the schedule as it was. *)
Lemma failed_transfer_keeps_schedule w rid s :
  fst (process_approved_swap w rid s) = false ->
  schedule (snd (process_approved_swap w rid s)) = schedule s.
Proof.
  unfold process_approved_swap.
  destruct (find_request rid s); [|reflexivity].
  destruct (lookup_user _ s); [|reflexivity].
  destruct (Py.int_float _); [|reflexivity].
  simpl. destruct (pd.index_mem _ _) eqn:E; simpl; [|reflexivity].
  rewrite drop_spec. simpl. rewrite E. simpl. discriminate.
Qed.

(** The request made by [create_shift_swap_request] carries the key and
    the fields of the entry it was made from. *)
Lemma create_request_snapshot w k target_username s e target :
  pd.loc k (schedule s) = Some e ->
  lookup_user target_username s = Some target ->
  exists r,
    shift_requests (snd (create_shift_swap_request w k target_username s))
    = shift_requests s ++ [r]
    /\ Request.status r = Pending
    /\ Py.int_float (Request.schedule_id r) = Py.int_float (Py.str k)
    /\ Request.requester_username r = Entry.username e
    /\ Request.date r = Entry.date e
    /\ Request.start_time r = Entry.start_time e
    /\ Request.end_time r = Entry.end_time e
    /\ Request.location r = Entry.location e
    /\ Request.auto_assigned r = Entry.auto_assigned e.
Proof.
  intros H1 H2. unfold create_shift_swap_request. rewrite H1, H2.
  eexists. simpl. repeat split; reflexivity.
Qed.

(** The state in which the transfer is run for Bob's approval of
    Carol's request, after Carol's edit. *)
Lemma transfer_after_edit_is_reached :
  update_shift_request_status Sample.world Cases.carol_request_id Approved
    Cases.carol_edited
  = process_approved_swap Sample.world Cases.carol_request_id Cases.at_transfer.
Proof. vm_compute. reflexivity. Qed.

(** C6, as stated, fails: Carol's shift was not auto-assigned when she
    asked Bob to take it, and she has since marked it auto-assigned.
    The request's schedule id resolves to that live entry, yet the
    entry inserted for Bob does not carry its flag. *)
Lemma C6_flag_is_not_read_from_the_entry :
  ~ (forall w s rid r target k e,
        find_request rid s = Some r ->
        lookup_user (Request.target_username r) s = Some target ->
        Py.int_float (Request.schedule_id r) = Some k ->
        pd.loc k (schedule s) = Some e ->
        exists new s',
          process_approved_swap w rid s = (true, s')
          /\ last (pd.rows (schedule s')) = Some new
          /\ Entry.auto_assigned new = Entry.auto_assigned e).
Proof.
  intros claim.
  destruct (find_request Cases.carol_request_id Cases.at_transfer) as [r|] eqn:E;
    [|vm_compute in E; discriminate].
  destruct (pd.loc 1 (schedule Cases.at_transfer)) as [e|] eqn:L;
    [|vm_compute in L; discriminate].
  destruct (claim Sample.world Cases.at_transfer Cases.carol_request_id r
                  Sample.bob 1 e E) as (new & s' & H1 & H2 & H3).
  - vm_compute in E. injection E as <-. reflexivity.
  - vm_compute in E. injection E as <-. reflexivity.
  - exact L.
  - apply (f_equal snd) in H1. cbn [snd] in H1. subst s'.
    vm_compute in H2. injection H2 as <-.
    vm_compute in L. injection L as <-.
    discriminate H3.
Qed.

Lemma loc_split {A} (k : Z) (df : pd.DataFrame A) (e : A) :
  NoDup (pd.index df) -> pd.loc k df = Some e ->
  exists before after,
    df = before ++ (k, e) :: after
    /\ List.filter (fun p => negb (fst p =? k)) df = before ++ after.
Proof.
  unfold pd.index, pd.loc.
  induction df as [|[k' x] df IH]; intros Hnd H; [discriminate H|].
  simpl in Hnd. apply NoDup_cons in Hnd as [Hk Hnd].
  simpl in H |- *. destruct (Z.eqb_spec k' k) as [->|Hne]; simpl in H |- *.
  - injection H as <-. exists [], df. split; [reflexivity|].
    simpl. clear IH Hnd. induction df as [|[k2 y] df IH]; [reflexivity|].
    simpl in Hk |- *. apply not_elem_of_cons in Hk as [Hk2 Hk].
    destruct (Z.eqb_spec k2 k) as [->|_]; [contradiction|].
    simpl. f_equal. apply IH. exact Hk.
  - destruct (IH Hnd H) as (before & after & -> & F).
    exists ((k', x) :: before), after. split; [reflexivity|].
    simpl. f_equal. exact F.
Qed.

(** C6 (amended): a transfer that fails deletes and inserts nothing.
    For a request whose target user is registered, as both callers have
    checked, and whose schedule id is an integer [k], as
    [create_shift_swap_request] writes it: if [k] resolves to a live
    entry, the transfer succeeds, deletes that entry and appends
    exactly one entry, owned by the target user and carrying the
    request's date, start time, end time and location, the notes
    "Swapped with <requester name>" and the auto_assigned flag of the
    request; if [k] does not resolve, the transfer fails, reports
    "Original schedule not found." and leaves the schedule as it was.
    The request's date, times, location and flag are those the entry
    had when [create_shift_swap_request] made the request. *)
Theorem C6_ownership_transfer w s rid :
  (fst (process_approved_swap w rid s) = false ->
   schedule (snd (process_approved_swap w rid s)) = schedule s)
  /\ (forall r target k,
      find_request rid s = Some r ->
      lookup_user (Request.target_username r) s = Some target ->
      Py.int_float (Request.schedule_id r) = Some k ->
      (pd.index_mem k (schedule s) = true ->
       exists new s',
         process_approved_swap w rid s = (true, s')
         /\ pd.rows (schedule s')
            = pd.rows (List.filter (fun p => negb (fst p =? k)) (schedule s)) ++ [new]
         /\ Entry.username new = Request.target_username r
         /\ Entry.date new = Request.date r
         /\ Entry.start_time new = Request.start_time r
         /\ Entry.end_time new = Request.end_time r
         /\ Entry.location new = Request.location r
         /\ Entry.notes new = ("Swapped with " ++ Request.requester_name r)%string
         /\ Entry.auto_assigned new = Request.auto_assigned r)
      /\ (NoDup (pd.index (schedule s)) ->
          forall e,
            pd.loc k (schedule s) = Some e ->
            exists before after new s',
              schedule s = before ++ (k, e) :: after
              /\ process_approved_swap w rid s = (true, s')
              /\ pd.rows (schedule s') = pd.rows before ++ pd.rows after ++ [new]
              /\ Entry.username new = Request.target_username r
              /\ Entry.date new = Request.date r
              /\ Entry.start_time new = Request.start_time r
              /\ Entry.end_time new = Request.end_time r
              /\ Entry.location new = Request.location r
              /\ Entry.notes new
                 = ("Swapped with " ++ Request.requester_name r)%string
              /\ Entry.auto_assigned new = Request.auto_assigned r)
      /\ (pd.index_mem k (schedule s) = false ->
          exists s',
            process_approved_swap w rid s = (false, s')
            /\ schedule s' = schedule s
            /\ st_error s' = "Original schedule not found." :: st_error s))
  /\ (forall s0 k target_username e target,
         pd.loc k (schedule s0) = Some e ->
         lookup_user target_username s0 = Some target ->
         exists r,
           shift_requests (snd (create_shift_swap_request w k target_username s0))
           = shift_requests s0 ++ [r]
           /\ Py.int_float (Request.schedule_id r) = Some k
           /\ Request.date r = Entry.date e
           /\ Request.start_time r = Entry.start_time e
           /\ Request.end_time r = Entry.end_time e
           /\ Request.location r = Entry.location e
           /\ Request.auto_assigned r = Entry.auto_assigned e).
Proof.
  split; [apply failed_transfer_keeps_schedule|].
  split.
  2:{ intros s0 k target_username e target He Ht.
      destruct (create_request_snapshot w k target_username s0 e target He Ht)
        as (r & H1 & _ & H2 & _ & H3 & H4 & H5 & H6 & H7).
      exists r. rewrite int_float_str in H2. auto 10. }
  intros r target k Hr Ht Hk.
  assert (Live : pd.index_mem k (schedule s) = true ->
                 exists new s',
                   process_approved_swap w rid s = (true, s')
                   /\ pd.rows (schedule s')
                      = pd.rows (List.filter (fun p => negb (fst p =? k)) (schedule s))
                        ++ [new]
                   /\ Entry.username new = Request.target_username r
                   /\ Entry.date new = Request.date r
                   /\ Entry.start_time new = Request.start_time r
                   /\ Entry.end_time new = Request.end_time r
                   /\ Entry.location new = Request.location r
                   /\ Entry.notes new
                      = ("Swapped with " ++ Request.requester_name r)%string
                   /\ Entry.auto_assigned new = Request.auto_assigned r).
  { intros Hmem. unfold process_approved_swap. rewrite Hr, Ht, Hk. simpl.
    rewrite drop_spec. simpl. rewrite Hmem. simpl.
    do 2 eexists. split; [reflexivity|]. simpl.
    unfold pd.concat_ignore_index, pd.of_records.
    rewrite !rows_range_index.
    repeat split; reflexivity. }
  split; [exact Live|]. split.
  - intros Hnd e He.
    destruct (loc_split k (schedule s) e Hnd He) as (before & after & Hs & Hf).
    destruct Live as (new & s' & H1 & H2 & H3).
    { rewrite Hs. unfold pd.index_mem, pd.index.
      rewrite map_app, existsb_app. simpl. rewrite Z.eqb_refl.
      apply orb_true_r. }
    exists before, after, new, s'.
    split; [exact Hs|]. split; [exact H1|]. split; [|exact H3].
    rewrite H2, Hf. unfold pd.rows. rewrite map_app, <- app_assoc. reflexivity.
  - intros Hmem. unfold process_approved_swap. rewrite Hr, Ht, Hk. simpl.
    rewrite Hmem. simpl. eexists. repeat split; reflexivity.
Qed.

Lemma C6_ownership_transfer_witness :
  (exists e before after new s',
      pd.loc 1 (schedule Cases.at_transfer) = Some e
      /\ schedule Cases.at_transfer = before ++ (1, e) :: after
      /\ process_approved_swap Sample.world Cases.carol_request_id Cases.at_transfer
         = (true, s')
      /\ pd.rows (schedule s') = pd.rows before ++ pd.rows after ++ [new]
      /\ Entry.username new = "bob"
      /\ Entry.auto_assigned new = false)
  /\ (exists s',
         process_approved_swap Sample.world Sample.request_id Sample.schedule_cleared
         = (false, s')
         /\ schedule s' = schedule Sample.schedule_cleared
         /\ st_error s' = ["Original schedule not found."]).
Proof.
  split.
  - destruct (find_request Cases.carol_request_id Cases.at_transfer) as [r|] eqn:E;
      [|vm_compute in E; discriminate].
    pose proof E as E'. vm_compute in E'. injection E' as <-.
    destruct (pd.loc 1 (schedule Cases.at_transfer)) as [e|] eqn:L;
      [|vm_compute in L; discriminate].
    destruct (C6_ownership_transfer Sample.world Cases.at_transfer
                Cases.carol_request_id) as (_ & Hok & _).
    destruct (Hok _ Sample.bob 1 E eq_refl eq_refl) as (_ & Hthat & _).
    assert (N : NoDup (pd.index (schedule Cases.at_transfer)))
      by (apply (bool_decide_unpack _); vm_compute; exact I).
    destruct (Hthat N e L)
      as (before & after & new & s' & H1 & H2 & H3 & H4 & _ & _ & _ & _ & _ & H5).
    exists e, before, after, new, s'.
    split; [reflexivity|]. split; [exact H1|]. split; [exact H2|].
    split; [exact H3|]. split; [exact H4 | exact H5].
  - destruct (find_request Sample.request_id Sample.schedule_cleared) as [r|] eqn:E;
      [|vm_compute in E; discriminate].
    pose proof E as E'. vm_compute in E'. injection E' as <-.
    destruct (C6_ownership_transfer Sample.world Sample.schedule_cleared
                Sample.request_id) as (_ & Hok & _).
    destruct (Hok _ Sample.bob 0 E eq_refl eq_refl) as (_ & _ & Hgone).
    exact (Hgone eq_refl).
Defined.

(** C1: on the sample office, approving Alice's request moves her shift
    to Bob, and approving the same request again succeeds as well: no
    error is reported, Carol's shift, which now has key 0, is removed,
    and Bob receives the shift a second time. *)
Theorem C1_second_approval_transfers_again :
  fst (update_shift_request_status Sample.world Sample.request_id Approved
         Sample.requested) = true
  /\ map Entry.username (pd.rows (schedule Sample.approved)) = ["carol"; "bob"]
  /\ fst (update_shift_request_status Sample.world Sample.request_id Approved
            Sample.approved) = true
  /\ map Entry.username (pd.rows (schedule Sample.approved_twice)) = ["bob"; "bob"]
  /\ st_error Sample.approved_twice = [].
Proof. vm_compute. repeat split; reflexivity. Qed.

(** One click on Approve already does this: the handler runs the
    transfer inside [update_shift_request_status] and once more. *)
Lemma approve_button_transfers_twice :
  map Entry.username
      (pd.rows (schedule (approve_button Sample.world Sample.request_id
                            Sample.requested)))
  = ["bob"; "bob"].
Proof. vm_compute. reflexivity. Qed.

(** On a table keyed [0 .. n-1], a key that was live before a transfer
    is live after it, so the same request can be processed again. *)
Lemma filter_above {A} k i (l : list A) :
  k < i ->
  List.filter (fun p => negb (fst p =? k)) (pd.range_index i l) = pd.range_index i l.
Proof.
  revert i; induction l as [|r l IH]; intros i Hlt; simpl; [reflexivity|].
  destruct (Z.eqb_spec i k); [lia|]. simpl. rewrite IH by lia. reflexivity.
Qed.

Lemma filter_range_length {A} (k i : Z) (l : list A) :
  (length l <= S (length (List.filter (fun p => negb (fst p =? k)%Z)
                                      (pd.range_index i l))))%nat.
Proof.
  revert i; induction l as [|r l IH]; intros i; simpl; [lia|].
  destruct (Z.eqb_spec i k) as [->|Hne]; simpl.
  - rewrite filter_above by lia. rewrite length_range_index. lia.
  - specialize (IH (i + 1)). lia.
Qed.

Lemma second_transfer_succeeds w rid s s' :
  pd.index (schedule s) = seqZ 0 (Z.of_nat (length (schedule s))) ->
  process_approved_swap w rid s = (true, s') ->
  fst (process_approved_swap w rid s') = true.
Proof.
  intros Hcan H. unfold process_approved_swap in H.
  destruct (find_request rid s) as [r|] eqn:Hr; [|discriminate].
  destruct (lookup_user (Request.target_username r) s) as [target|] eqn:Ht;
    [|discriminate].
  destruct (Py.int_float (Request.schedule_id r)) as [k|] eqn:Hk; [|discriminate].
  simpl in H. destruct (pd.index_mem k (schedule s)) eqn:Hmem; [|discriminate].
  rewrite drop_spec in H. simpl in H. rewrite Hmem in H. simpl in H.
  injection H as <-.
  unfold process_approved_swap.
  change (find_request rid _) with (find_request rid s) at 1. rewrite Hr.
  change (lookup_user (Request.target_username r) _)
    with (lookup_user (Request.target_username r) s) at 1.
  rewrite Ht, Hk.
  match goal with
  | |- context [pd.index_mem k ?df] =>
      assert (Hlive : pd.index_mem k df = true)
  end.
  { simpl. apply index_mem_true.
    unfold pd.concat_ignore_index. rewrite index_range_index.
    apply list_elem_of_In, elem_of_seqZ.
    apply index_mem_true in Hmem. rewrite Hcan in Hmem.
    apply list_elem_of_In, elem_of_seqZ in Hmem.
    rewrite (range_index_of_index _ 0 Hcan).
    pose proof (filter_range_length k 0 (pd.rows (schedule s))) as Hlen.
    unfold pd.rows in *. rewrite length_app, !length_map in *.
    simpl length. lia. }
  rewrite drop_spec, !Hlive. reflexivity.
Qed.

(** ** Keys of schedule entries *)

(** C2: keys are positions, and a transfer reassigns them.  On the
    sample office, with Alice's request to Bob (entry 0) and Carol's
    request to Alice (entry 1) both pending, Carol's shift has key 1.
    Bob's approval moves Carol's shift to key 0 and gives key 1 to
    Bob's new entry.  Alice's approval of Carol's request, whose
    schedule id is still 1, then succeeds without an error, removes
    Bob's new entry and leaves Carol her shift: the stored key refers
    to a different live entry. *)
Theorem C2_transfer_reassigns_keys :
  map (fun r => (Request.schedule_id r, Request.requester_username r))
      (shift_requests Cases.both_requested)
  = [("0", "alice"); ("1", "carol")]
  /\ pd.index (schedule Cases.both_requested) = [0; 1]
  /\ pd.loc 1 (schedule Cases.both_requested) = Some Sample.carol_shift
  /\ fst (update_shift_request_status Sample.world Sample.request_id Approved
            Cases.both_requested) = true
  /\ pd.index (schedule Cases.first_approved) = [0; 1]
  /\ pd.loc 0 (schedule Cases.first_approved) = Some Sample.carol_shift
  /\ Entry.username <$> pd.loc 1 (schedule Cases.first_approved) = Some "bob"
  /\ fst (update_shift_request_status Sample.world Cases.second_request_id Approved
            Cases.first_approved) = true
  /\ st_error Cases.second_approved = []
  /\ map (fun e => (Entry.username e, Entry.start_time e, Entry.end_time e))
         (pd.rows (schedule Cases.second_approved))
     = [("carol", "10:00", "18:00"); ("alice", "10:00", "18:00")].
Proof. vm_compute. repeat split; reflexivity. Qed.

(** In general no transfer can be relied on to keep the keys: the
    transfer of Alice's shift moves Carol's shift from key 1 to key 0
    and gives key 1 to the new entry. *)
Lemma transfer_renumbers_entries :
  ~ (forall w rid s,
        keys_stable (schedule s) (schedule (snd (process_approved_swap w rid s)))).
Proof.
  intros claim.
  specialize (claim Sample.world Sample.request_id Sample.requested
                    1 Sample.carol_shift eq_refl).
  assert (H : In Sample.carol_shift
                 (pd.rows (schedule (snd (process_approved_swap Sample.world
                                            Sample.request_id Sample.requested)))))
    by (vm_compute; left; reflexivity).
  apply claim in H. vm_compute in H. discriminate.
Qed.

(** X29.  Saving through the form keeps the keys.  Saving an edit
    changes no label: every other entry is found under the key it had,
    and the edited row keeps its own.  Saving a new entry into a table
    keyed [0 .. n-1] appends it under the unused key [n] and leaves
    every existing entry under the key it had. *)
Theorem saving_keeps_keys w sess form s s' :
  submit_schedule w sess form s = (Saved, s') ->
  (editing sess s = None ->
   pd.index (schedule s) = seqZ 0 (Z.of_nat (length (schedule s)))) ->
  (forall k e,
      pd.loc k (schedule s) = Some e -> editing sess s <> Some k ->
      pd.loc k (schedule s') = Some e)
  /\ match editing sess s with
     | Some _ => pd.index (schedule s') = pd.index (schedule s)
     | None =>
         exists new,
           schedule s' = schedule s ++ [(Z.of_nat (length (schedule s)), new)]
     end.
Proof.
  intros H Hcan. unfold submit_schedule in H.
  destruct (Py.time_le _ _); [discriminate|].
  destruct (find _ _) as [[? ?]|]; [discriminate|].
  destruct (lookup_user _ _) as [user|]; [|discriminate].
  destruct (editing sess s) as [id|] eqn:Ed; injection H as <-.
  - assert (E : forall upd s3 m t,
               schedule (if negb upd then notify_managers w m t s3 else s3)
               = schedule s3)
      by (intros [] ? ? ?; simpl; auto using notify_managers_schedule).
    match goal with
    | |- context [if ?b && ?c then _ else _] =>
        destruct b; simpl andb; [rewrite E | ]
    end; simpl; (split; [| apply index_set_loc]);
      intros k e Hk Hne; rewrite loc_set_loc_ne by congruence; exact Hk.
  - specialize (Hcan eq_refl).
    match goal with
    | |- context [pd.of_records [?x]] => set (new := x)
    end.
    assert (S' : forall s3, schedule s3
                   = pd.concat_ignore_index (schedule s) (pd.of_records [new]) ->
                 schedule s3 = schedule s ++ [(Z.of_nat (length (schedule s)), new)]).
    { intros s3 ->. unfold pd.concat_ignore_index, pd.of_records.
      rewrite rows_range_index, range_index_app.
      rewrite <- (range_index_of_index _ 0 Hcan). simpl.
      unfold pd.rows. rewrite length_map. reflexivity. }
    match goal with
    | |- context [if ?b then notify_managers w ?m ?t ?s3 else _] =>
        assert (E : schedule (if b then notify_managers w m t s3 else s3)
                    = pd.concat_ignore_index (schedule s) (pd.of_records [new]))
          by (destruct b; [rewrite notify_managers_schedule|]; reflexivity)
    end.
    apply S' in E. rewrite E. split; [|exists new; reflexivity].
    intros k e Hk _. apply loc_app_l; exact Hk.
Qed.

Lemma saving_keeps_keys_witness :
  pd.loc 1 (schedule (snd (submit_schedule Sample.world Sample.alice_session
                             (Sample.form (Py.mk_time 17 0) (Py.mk_time 18 0))
                             Sample.office)))
  = Some Sample.carol_shift
  /\ pd.loc 1 (schedule (snd (submit_schedule Sample.world Sample.alice_editing
                                (Sample.form (Py.mk_time 8 0) (Py.mk_time 16 0))
                                Sample.office)))
     = Some Sample.carol_shift
  /\ pd.index (schedule (snd (submit_schedule Sample.world Sample.alice_editing
                                 (Sample.form (Py.mk_time 8 0) (Py.mk_time 16 0))
                                 Sample.office)))
     = pd.index (schedule Sample.office).
Proof.
  destruct (submit_schedule Sample.world Sample.alice_session
              (Sample.form (Py.mk_time 17 0) (Py.mk_time 18 0)) Sample.office)
    as [x s'] eqn:E.
  assert (Hx : x = Saved) by (apply (f_equal fst) in E; vm_compute in E; congruence).
  subst x.
  destruct (submit_schedule Sample.world Sample.alice_editing
              (Sample.form (Py.mk_time 8 0) (Py.mk_time 16 0)) Sample.office)
    as [y s''] eqn:E'.
  assert (Hy : y = Saved) by (apply (f_equal fst) in E'; vm_compute in E'; congruence).
  subst y.
  destruct (saving_keeps_keys _ _ _ _ _ E) as [H _].
  { intros _. vm_compute. reflexivity. }
  destruct (saving_keeps_keys _ _ _ _ _ E') as [H' I'].
  { intros D. vm_compute in D. discriminate D. }
  change (editing Sample.alice_editing Sample.office) with (Some 0) in H', I'.
  split; [|split].
  - apply H; [reflexivity | vm_compute; discriminate].
  - apply H'; [reflexivity | discriminate].
  - exact I'.
Defined.

(** ** Inboxes *)

Lemma inbox_add_same w u m t l s :
  exists rest,
    inbox_of u (add_notification w u m t l s)
    = Notification.mk (uuid4 w (ticks s)) m t l (timestamp w (S (ticks s))) false
      :: rest
    /\ forall i, (i < 49)%nat -> rest !! i = inbox_of u s !! i.
Proof.
  unfold inbox_of, add_notification. simpl. rewrite lookup_insert_eq. simpl.
  set (old := default [] (notifications s !! u)).
  destruct (50 <? S (length old))%nat.
  - exists (firstn 49 old). split; [reflexivity|].
    intros i Hi. apply lookup_take_lt. exact Hi.
  - exists old. split; [reflexivity | reflexivity].
Qed.

Lemma inbox_add_other w u u' m t l s :
  u <> u' -> inbox_of u' (add_notification w u m t l s) = inbox_of u' s.
Proof.
  intros Hne. unfold inbox_of, add_notification. simpl.
  rewrite lookup_insert_ne by exact Hne. reflexivity.
Qed.

Lemma inbox_after_transfer w rid u s :
  inbox_of u (snd (process_approved_swap w rid s)) = inbox_of u s.
Proof. unfold inbox_of. rewrite process_approved_swap_notifications. reflexivity. Qed.

(** ** Swap workflow: notifications around an approval *)

(** C10, as stated, fails: when the target user is no longer
    registered, the approval stops before any notification: the
    requester's inbox is what it was. *)
Lemma C10_no_notification_without_target :
  ~ (forall w s rid r,
        find_request rid s = Some r ->
        exists n approver,
          In n (inbox_of (Request.requester_username r)
                         (snd (update_shift_request_status w rid Approved s)))
          /\ Notification.message n = approved_message (Request.date r) approver).
Proof.
  intros claim.
  destruct (find_request Sample.request_id Sample.bob_removed) as [r|] eqn:E;
    [|vm_compute in E; discriminate].
  destruct (claim Sample.world _ _ _ E) as (n & approver & Hin & Hmsg).
  vm_compute in E. injection E as <-.
  vm_compute in Hin. destruct Hin as [<- | []].
  vm_compute in Hmsg. discriminate.
Qed.

(** C10 (amended): when a status update to Approved is applied to an
    existing request whose target user is still registered, the
    requester's "approved" notification is put at the head of their
    inbox first, and the ownership transfer is run on the state that
    already holds it.  If the transfer then fails, the operation
    returns [False], the requester's inbox holds that notification and
    the error notification, and the target's inbox holds the error
    notification. *)
Theorem C10_approval_notifies_before_transfer w s rid r target :
  find_request rid s = Some r ->
  lookup_user (Request.target_username r) s = Some target ->
  let requester := Request.requester_username r in
  let s2 :=
    add_notification w requester
      (approved_message (Request.date r) (User.name target)) "success" None
      (store_status w rid Approved s) in
  let s' := snd (update_shift_request_status w rid Approved s) in
  exists success,
    Notification.message success
    = approved_message (Request.date r) (User.name target)
    /\ Notification.type success = "success"
    /\ hd_error (inbox_of requester s2) = Some success
    /\ fst (update_shift_request_status w rid Approved s)
       = fst (process_approved_swap w rid s2)
    /\ (fst (process_approved_swap w rid s2) = true ->
        s' = snd (process_approved_swap w rid s2))
    /\ (fst (process_approved_swap w rid s2) = false ->
        In success (inbox_of requester s')
        /\ (exists e,
               In e (inbox_of requester s')
               /\ Notification.message e = swap_issue
               /\ Notification.type e = "error")
        /\ (exists e,
               In e (inbox_of (Request.target_username r) s')
               /\ Notification.message e = swap_issue
               /\ Notification.type e = "error")).
Proof.
  intros Hr Ht requester s2 s'. subst s'.
  unfold update_shift_request_status. rewrite Hr.
  change (lookup_user (Request.target_username r) (store_status w rid Approved s))
    with (lookup_user (Request.target_username r) s).
  rewrite Ht. fold requester. fold s2.
  set (success :=
         Notification.mk (uuid4 w (S (ticks s)))
           (approved_message (Request.date r) (User.name target))
           "success" None (timestamp w (S (S (ticks s)))) false).
  assert (Hin2 : exists rest, inbox_of requester s2 = success :: rest).
  { subst s2. match goal with
              | |- context [add_notification w ?u ?m ?t ?l ?s1] =>
                  destruct (inbox_add_same w u m t l s1) as (rest & H & _)
              end.
    exists rest. exact H. }
  destruct Hin2 as (rest & Hin2).
  exists success. split; [reflexivity|]. split; [reflexivity|].
  split; [rewrite Hin2; reflexivity|].
  pose proof (inbox_after_transfer w rid requester s2) as H3.
  destruct (process_approved_swap w rid s2) as [ok s3]. simpl in H3.
  destruct ok; simpl.
  { split; [reflexivity|]. split; [reflexivity | discriminate]. }
  split; [reflexivity|]. split; [discriminate|]. intros _.
  destruct (inbox_add_same w requester swap_issue "error" None s3)
    as (rest4 & Hin4 & Hrest4).
  set (s4 := add_notification w requester swap_issue "error" None s3) in *.
  assert (H0 : rest4 !! 0%nat = Some success)
    by (rewrite Hrest4 by lia; rewrite H3, Hin2; reflexivity).
  destruct (inbox_add_same w (Request.target_username r) swap_issue "error"
              None s4) as (rest5 & Hin5 & Hrest5).
  destruct (decide (Request.target_username r = requester)) as [Heq | Hne].
  - rewrite Heq in *. rewrite Hin5.
    assert (H1 : rest5 !! 1%nat = rest4 !! 0%nat)
      by (rewrite Hrest5 by lia; rewrite Hin4; reflexivity).
    repeat split.
    + right. apply list_elem_of_In, list_elem_of_lookup.
      exists 1%nat. rewrite H1. exact H0.
    + eexists. split; [left; reflexivity|]. split; reflexivity.
    + eexists. split; [left; reflexivity|]. split; reflexivity.
  - rewrite (inbox_add_other w _ _ _ _ _ s4 Hne), Hin4, Hin5.
    repeat split.
    + right. apply list_elem_of_In, list_elem_of_lookup.
      exists 0%nat. exact H0.
    + eexists. split; [left; reflexivity|]. split; reflexivity.
    + eexists. split; [left; reflexivity|]. split; reflexivity.
Qed.

Lemma C10_approval_notifies_witness :
  exists e,
    In e (inbox_of "bob"
            (snd (update_shift_request_status Sample.world Sample.request_id
                    Approved Sample.schedule_cleared)))
    /\ Notification.message e = swap_issue
    /\ Notification.type e = "error".
Proof.
  destruct (find_request Sample.request_id Sample.schedule_cleared) as [r|] eqn:E;
    [|vm_compute in E; discriminate].
  destruct (C10_approval_notifies_before_transfer
              Sample.world Sample.schedule_cleared Sample.request_id r Sample.bob E)
    as (success & _ & _ & _ & Hfst & _ & Hfail).
  - vm_compute in E. injection E as <-. reflexivity.
  - vm_compute in E. injection E as <-.
    apply Hfail. rewrite <- Hfst. vm_compute. reflexivity.
Defined.

(** ** Schedule form: the conflict check *)

Lemma time_le_lt a b : Py.time_le a b = negb (Py.time_lt b a).
Proof. reflexivity. Qed.

Lemma in_comparison_set sess form s k e :
  In (k, e) (comparison_set sess form s) <->
  In (k, e) (schedule s)
  /\ Entry.username e = current_user sess
  /\ Entry.date e = Py.strftime_Ymd (Form.schedule_date form)
  /\ editing sess s <> Some k.
Proof.
  unfold comparison_set, pd.select. rewrite filter_In. simpl.
  unfold user_on_date. rewrite !andb_true_iff, !String.eqb_eq.
  assert (Hed : match editing sess s with
                | Some id => negb (k =? id)
                | None => true
                end = true <-> editing sess s <> Some k).
  { destruct (editing sess s) as [id|]; [|split; [discriminate | reflexivity]].
    rewrite negb_true_iff, Z.eqb_neq. split; congruence. }
  rewrite Hed. tauto.
Qed.

(** C3: a candidate whose end is after its start is rejected by the
    conflict check exactly when some entry of the same user on the same
    date, other than the entry being edited, overlaps it in the
    half-open sense (candidate start before the entry's end and
    candidate end after the entry's start); the rejection only reports
    the conflict and leaves the state, hence the schedule, as it was;
    and a candidate that is not rejected is saved whenever the current
    user is registered. *)
Theorem C3_conflict_rejection w sess form s :
  Py.time_lt (Form.start_time form) (Form.end_time form) = true ->
  (fst (submit_schedule w sess form s) = Conflict <->
   exists k e,
     In (k, e) (schedule s)
     /\ Entry.username e = current_user sess
     /\ Entry.date e = Py.strftime_Ymd (Form.schedule_date form)
     /\ editing sess s <> Some k
     /\ Py.time_lt (Form.start_time form) (_parse_time (Entry.end_time e)) = true
     /\ Py.time_lt (_parse_time (Entry.start_time e)) (Form.end_time form) = true)
  /\ (fst (submit_schedule w sess form s) = Conflict ->
      exists msg, snd (submit_schedule w sess form s) = report msg s)
  /\ (fst (submit_schedule w sess form s) <> Conflict ->
      lookup_user (current_user sess) s <> None ->
      fst (submit_schedule w sess form s) = Saved).
Proof.
  intros Hlt. unfold submit_schedule. rewrite time_le_lt, Hlt. simpl negb. cbv iota.
  destruct (find _ (comparison_set sess form s)) as [[k e]|] eqn:F.
  - split; [|split; [intros _; eexists; reflexivity | intros H; contradiction]].
    split; [intros _ | reflexivity].
    apply find_some in F as [Hin Hov]. apply in_comparison_set in Hin.
    unfold overlaps in Hov. simpl in Hov. apply andb_true_iff in Hov.
    exists k, e. tauto.
  - assert (Hex : ~ exists k e,
               In (k, e) (schedule s)
               /\ Entry.username e = current_user sess
               /\ Entry.date e = Py.strftime_Ymd (Form.schedule_date form)
               /\ editing sess s <> Some k
               /\ Py.time_lt (Form.start_time form)
                             (_parse_time (Entry.end_time e)) = true
               /\ Py.time_lt (_parse_time (Entry.start_time e))
                             (Form.end_time form) = true).
    { intros (k & e & Hin & Hu & Hd & Hed & H1 & H2).
      pose proof (find_none _ _ F (k, e)) as Hf.
      unfold overlaps in Hf. simpl in Hf. rewrite H1, H2 in Hf.
      enough (true = false) by discriminate. apply Hf.
      apply in_comparison_set. tauto. }
    destruct (lookup_user _ _); [destruct (editing sess s)|]; simpl;
      (split; [split; [discriminate | intros H; destruct (Hex H)] |]);
      (split; [discriminate|]); [reflexivity .. | intros _ H; contradiction].
Qed.

Lemma C3_conflict_rejection_witness :
  fst (submit_schedule Sample.world Sample.alice_session
         (Sample.form (Py.mk_time 16 0) (Py.mk_time 18 0)) Sample.office)
  = Conflict
  /\ fst (submit_schedule Sample.world Sample.alice_session
            (Sample.form (Py.mk_time 17 0) (Py.mk_time 18 0)) Sample.office)
     <> Conflict.
Proof.
  split.
  - destruct (C3_conflict_rejection Sample.world Sample.alice_session
                (Sample.form (Py.mk_time 16 0) (Py.mk_time 18 0)) Sample.office
                eq_refl) as ([_ H] & _ & _).
    apply H. exists 0, Sample.alice_shift.
    repeat split; try reflexivity; [left; reflexivity | discriminate].
  - destruct (C3_conflict_rejection Sample.world Sample.alice_session
                (Sample.form (Py.mk_time 17 0) (Py.mk_time 18 0)) Sample.office
                eq_refl) as ([H _] & _ & _).
    intros Hc. destruct (H Hc) as (k & e & Hin & Hu & _ & _ & H1 & _).
    destruct Hin as [[= <- <-] | [[= <- <-] | []]];
      [vm_compute in H1 | vm_compute in Hu]; discriminate.
Defined.

(** ** Auto-assignment: times of the generated entries *)

Lemma assign_all_cons w date subteam u rest t es t' :
  assign_all w ((date, subteam, u) :: rest) t = (Some es, t') ->
  exists e t1 es',
    assign_one w date subteam u t = (Some e, t1)
    /\ assign_all w rest t1 = (Some es', t') /\ es = e :: es'.
Proof.
  simpl. destruct (assign_one w date subteam u t) as [[e|] t1]; [|discriminate].
  destruct (assign_all w rest t1) as [[es'|] t2] eqn:E; [|discriminate].
  intros [= <- <-]. exists e, t1, es'. auto.
Qed.

Lemma assign_one_fields w date subteam username user t e t1 :
  assign_one w date subteam (username, user) t = (Some e, t1) ->
  Entry.date e = Py.strftime_Ymd date
  /\ Entry.username e = username
  /\ Entry.subteam e = subteam
  /\ Entry.start_time e
     = default "09:00"
         (Prefs.preferred_start_time (default Prefs.empty (User.preferences user)))
  /\ Entry.auto_assigned e = true.
Proof.
  unfold assign_one.
  destruct (Py.strptime_HM _); [|discriminate].
  destruct (Py.add_to_time _ _); [|discriminate].
  intros [= <- _]. simpl. auto.
Qed.

Lemma assign_one_defaults w date subteam username user t :
  no_time_preferences user ->
  exists e,
    assign_one w date subteam (username, user) t = (Some e, (3 + t)%nat)
    /\ Entry.start_time e = "09:00" /\ Entry.end_time e = "18:00".
Proof.
  intros [H1 H2]. unfold assign_one. rewrite H1, H2. simpl default.
  change (Py.strptime_HM "09:00") with (Some (Py.mk_time 9 0)).
  replace (Py.add_to_time (Py.mk_time 9 0) (Py.timedelta_hours 9))
    with (Some "18:00") by (vm_compute; reflexivity).
  eexists. split; [reflexivity|]. split; reflexivity.
Qed.

(** C4, as stated, fails: without stored preferences the generated
    shift ends at 18:00, not at 17:00. *)
Lemma C4_default_shift_does_not_end_at_1700 :
  ~ (forall w date subteam username user t e,
        no_time_preferences user ->
        fst (assign_one w date subteam (username, user) t) = Some e ->
        Entry.start_time e = "09:00" /\ Entry.end_time e = "17:00").
Proof.
  intros claim.
  destruct (assign_one Sample.world Sample.monday "Brokerage"
              ("alice", Sample.alice) 0) as [[e|] t] eqn:E;
    [|vm_compute in E; discriminate].
  destruct (claim Sample.world Sample.monday "Brokerage" "alice" Sample.alice
                  0%nat e) as [_ H].
  - split; reflexivity.
  - rewrite E; reflexivity.
  - vm_compute in E. injection E as <- _. vm_compute in H. discriminate.
Qed.

(** C4 (amended): for a user with no stored preferred start time and no
    stored preferred hours, the loop body of auto-assignment always
    produces an entry, and every entry it creates for them starts at
    09:00 and ends nine hours later, at 18:00. *)
Theorem C4_default_shift_is_0900_to_1800 w :
  (forall date subteam username user t,
      no_time_preferences user ->
      exists e,
        assign_one w date subteam (username, user) t = (Some e, (3 + t)%nat)
        /\ Entry.start_time e = "09:00" /\ Entry.end_time e = "18:00")
  /\ (forall sel t es t',
         assign_all w sel t = (Some es, t') ->
         Forall2
           (fun x e =>
              Entry.username e = fst (snd x)
              /\ (no_time_preferences (snd (snd x)) ->
                  Entry.start_time e = "09:00" /\ Entry.end_time e = "18:00"))
           sel es).
Proof.
  split; [intros; apply assign_one_defaults; assumption|].
  induction sel as [|[[date subteam] [username user]] rest IH]; intros t es t' H.
  - injection H as <- _. constructor.
  - apply assign_all_cons in H as (e & t1 & es' & H1 & H2 & ->).
    constructor; [|eapply IH; eassumption]. simpl. split.
    + apply assign_one_fields in H1. tauto.
    + intros Hno.
      destruct (assign_one_defaults w date subteam username user t Hno)
        as (e' & E & Hs & He).
      rewrite E in H1. injection H1 as <- _. auto.
Qed.

Lemma C4_default_shift_witness :
  exists e,
    assign_one Sample.world Sample.monday "Brokerage" ("alice", Sample.alice) 0
    = (Some e, 3%nat)
    /\ Entry.start_time e = "09:00" /\ Entry.end_time e = "18:00".
Proof.
  destruct (C4_default_shift_is_0900_to_1800 Sample.world) as [H _].
  apply (H Sample.monday "Brokerage" "alice" Sample.alice 0%nat).
  split; reflexivity.
Defined.

(** The entries built by the loop are the new rows of the schedule. *)
Lemma auto_assign_rows w dates s e es t :
  users s <> [] ->
  assign_all w (selections dates (group_by_subteam (users s))) (ticks s)
  = (Some (e :: es), t) ->
  pd.rows (schedule (_auto_assign_shifts w dates s))
  = pd.rows (clear_dates dates (schedule s)) ++ e :: es.
Proof.
  intros Hu H. unfold _auto_assign_shifts. rewrite H.
  destruct (users s); [contradiction|]. simpl.
  destruct (length (clear_dates dates (schedule s)) =? 0)%nat eqn:E.
  - apply Nat.eqb_eq in E.
    destruct (clear_dates dates (schedule s)); [|discriminate].
    unfold pd.of_records. rewrite rows_range_index. reflexivity.
  - unfold pd.concat_ignore_index, pd.of_records.
    rewrite !rows_range_index. reflexivity.
Qed.

(** C8: with the evening start of the sample roster (start 20:00, nine
    hours), auto-assignment stores a shift from 20:00 to 05:00, whose
    end is not after its start. *)
Theorem C8_auto_assigned_shift_ends_before_start :
  map (fun p => (fst p, Entry.username (snd p), Entry.start_time (snd p),
                 Entry.end_time (snd p), ends_after_start (snd p)))
      (schedule (_auto_assign_shifts Sample.world [Sample.monday]
                   Sample.night_roster))
  = [(0, "nina", "20:00", "05:00", false)].
Proof. vm_compute. reflexivity. Qed.

(** ** Auto-assignment: who is selected *)


Lemma omap_total_length {A B} (f : A -> option B) (l : list A) :
  (forall x, In x l -> is_Some (f x)) -> length (omap f l) = length l.
Proof.
  induction l as [|a l IH]; intros Hall; [reflexivity|].
  destruct (Hall a (or_introl eq_refl)) as [b Hb].
  simpl omap. rewrite Hb. simpl. f_equal.
  apply IH. intros x Hx. apply Hall. right. exact Hx.
Qed.

Lemma rotation_in_range (team : roster) (d i : Z) :
  team <> [] ->
  is_Some (team !! Z.to_nat ((d + i) mod Z.of_nat (length team))).
Proof.
  intros Hne. apply lookup_lt_is_Some.
  assert (0 < Z.of_nat (length team)) by (destruct team; [contradiction | simpl; lia]).
  pose proof (Z.mod_pos_bound (d + i) (Z.of_nat (length team))). lia.
Qed.

(** The members of the entries built by a run are those selected. *)
Lemma assign_all_members w sel t es t' :
  assign_all w sel t = (Some es, t') ->
  map (fun e => (Entry.date e, Entry.subteam e, Entry.username e)) es
  = map (fun x => (Py.strftime_Ymd (fst (fst x)), snd (fst x), fst (snd x))) sel.
Proof.
  revert t es t'.
  induction sel as [|[[date subteam] [username user]] rest IH]; intros t es t' H.
  - injection H as <- _. reflexivity.
  - apply assign_all_cons in H as (e & t1 & es' & H1 & H2 & ->).
    apply assign_one_fields in H1 as (Hd & Hu & Hs & _).
    simpl. rewrite Hd, Hu, Hs. f_equal. eapply IH. eassumption.
Qed.

(** Every team formed by the grouping has a member. *)
Lemma group_add_nonempty subteam u groups :
  Forall (fun g => snd g <> []) groups ->
  Forall (fun g => snd g <> []) (group_add subteam u groups).
Proof.
  induction 1 as [|[k members] rest Hk Hrest IH]; simpl.
  - constructor; [discriminate | constructor].
  - simpl in Hk. destruct (String.eqb k subteam); constructor; simpl; auto.
    destruct members; [contradiction | discriminate].
Qed.

Lemma groups_nonempty (us : roster) :
  Forall (fun g => snd g <> []) (group_by_subteam us).
Proof.
  unfold group_by_subteam.
  assert (G : forall (groups : list (string * roster)),
             Forall (fun g => snd g <> []) groups ->
             Forall (fun g => snd g <> [])
                    (fold_left (fun groups u =>
                                  group_add (User.subteam (snd u)) u groups)
                               us groups)).
  { induction us as [|u us IH]; intros groups Hg; simpl; [exact Hg|].
    apply IH, group_add_nonempty, Hg. }
  apply G. constructor.
Qed.

Lemma weekday_of_sample_monday :
  Py.weekday Sample.monday = 0 /\ Py.day_name Sample.monday = "Monday".
Proof. split; reflexivity. Qed.

(** ** The manual path keeps the end after the start *)

Lemma parse_time_strftime (t : Py.time) :
  valid_time t -> _parse_time (Py.strftime_HM t) = t.
Proof.
  intros [Hh Hm].
  assert (T : forallb (fun h => forallb (reads_back h) (seqZ 0 60)) (seqZ 0 24) = true)
    by (vm_compute; reflexivity).
  assert (Hin : forall k n : Z, 0 <= k < n -> In k (seqZ 0 n))
    by (intros k n Hk; apply list_elem_of_In, elem_of_seqZ; lia).
  pose proof (proj1 (forallb_forall _ _) T (Py.hour t) (Hin _ _ Hh)) as T'.
  cbv beta in T'.
  pose proof (proj1 (forallb_forall _ _) T' (Py.minute t) (Hin _ _ Hm)) as T''.
  clear T T' Hin. unfold reads_back in T''.
  apply andb_true_iff in T'' as [T1 T2].
  apply Z.eqb_eq in T1, T2. destruct t as [h m]. cbn [Py.hour Py.minute] in *.
  destruct (_parse_time _) as [h' m']. cbn [Py.hour Py.minute] in *. congruence.
Qed.

Lemma loc_set_loc_eq {A} id upd (df : pd.DataFrame A) :
  pd.loc id (pd.set_loc id upd df) = upd <$> pd.loc id df.
Proof.
  unfold pd.loc, pd.set_loc.
  induction df as [|[k r] df IH]; simpl; [reflexivity|].
  destruct (k =? id) eqn:E; simpl; rewrite E; [reflexivity | exact IH].
Qed.

(** An entry saved through the form, new or edited, ends after it
    starts. *)
Lemma manual_entry_ends_after_start w sess form s s' :
  valid_time (Form.start_time form) ->
  valid_time (Form.end_time form) ->
  submit_schedule w sess form s = (Saved, s') ->
  match editing sess s with
  | Some id => forall e, pd.loc id (schedule s') = Some e -> ends_after_start e = true
  | None =>
      exists new,
        pd.rows (schedule s') = pd.rows (schedule s) ++ [new]
        /\ ends_after_start new = true
  end.
Proof.
  intros Vs Ve H. unfold submit_schedule in H.
  rewrite time_le_lt in H.
  destruct (Py.time_lt (Form.start_time form) (Form.end_time form)) eqn:Hlt;
    [|discriminate].
  simpl negb in H. cbv iota in H.
  destruct (find _ _) as [[? ?]|]; [discriminate|].
  destruct (lookup_user _ _) as [user|]; [|discriminate].
  assert (Hok : forall e,
             Entry.start_time e = Py.strftime_HM (Form.start_time form) ->
             Entry.end_time e = Py.strftime_HM (Form.end_time form) ->
             ends_after_start e = true).
  { intros e E1 E2. unfold ends_after_start.
    rewrite E1, E2, !parse_time_strftime by assumption. exact Hlt. }
  assert (N : forall (b : bool) m t s3,
             schedule (if b then notify_managers w m t s3 else s3) = schedule s3)
    by (intros [] ? ? ?; auto using notify_managers_schedule).
  destruct (editing sess s) as [id|] eqn:Ed; injection H as <-.
  - intros e. rewrite N. simpl. rewrite loc_set_loc_eq.
    destruct (pd.loc id (schedule s)); [|discriminate].
    intros [= <-]. apply Hok; reflexivity.
  - rewrite N. simpl. eexists. split.
    + unfold pd.concat_ignore_index, pd.of_records.
      rewrite !rows_range_index. reflexivity.
    + apply Hok; reflexivity.
Qed.

(** * Further properties of the code *)

(** ** Notification service *)

Lemma take_cap {A} (l : list A) :
  (if (50 <? length l)%nat then firstn 50 l else l) = firstn 50 l.
Proof.
  destruct (Nat.ltb_spec 50 (length l)); [reflexivity|].
  symmetry. apply take_ge. lia.
Qed.

Lemma inbox_after_add w u m t l s :
  let s' := add_notification w u m t l s in
  inbox_of u s'
  = firstn 50 (Notification.mk (uuid4 w (ticks s)) m t l
                               (timestamp w (S (ticks s))) false
               :: inbox_of u s)
  /\ (length (inbox_of u s') <= 50)%nat
  /\ (forall u', u' <> u -> notifications s' !! u' = notifications s !! u')
  /\ users s' = users s /\ schedule s' = schedule s
  /\ shift_requests s' = shift_requests s.
Proof.
  intros s'. subst s'.
  assert (E : inbox_of u (add_notification w u m t l s)
              = firstn 50 (Notification.mk (uuid4 w (ticks s)) m t l
                                           (timestamp w (S (ticks s))) false
                           :: inbox_of u s)).
  { unfold inbox_of, add_notification, tick, set_ticks, set_notifications.
    cbn [notifications]. rewrite lookup_insert_eq, take_cap. reflexivity. }
  rewrite E.
  split; [reflexivity|]. split; [rewrite length_take; lia|].
  split; [|auto].
  intros u' Hne. unfold add_notification, tick, set_ticks, set_notifications.
  cbn [notifications]. rewrite lookup_insert_ne by congruence. reflexivity.
Qed.

(** X1.  [add_notification] puts the new, unread notification first, keeps
    the earlier ones behind it in their order and drops what lies
    beyond the fiftieth place, whatever the size of the inbox was; no
    other inbox and no other collection changes. *)
Theorem add_notification_caps_inbox w u m t l s :
  let s' := add_notification w u m t l s in
  inbox_of u s'
  = firstn 50 (Notification.mk (uuid4 w (ticks s)) m t l
                               (timestamp w (S (ticks s))) false
               :: inbox_of u s)
  /\ (length (inbox_of u s') <= 50)%nat
  /\ (forall u', u' <> u -> notifications s' !! u' = notifications s !! u')
  /\ users s' = users s /\ schedule s' = schedule s
  /\ shift_requests s' = shift_requests s.
Proof. exact (inbox_after_add w u m t l s). Qed.

Lemma unread_count_of username s inbox :
  notifications s !! username = Some inbox ->
  get_unread_notification_count username s
  = length (List.filter (fun n => negb (Notification.read n)) inbox).
Proof. intros H. unfold get_unread_notification_count. rewrite H. reflexivity. Qed.

(** X2.  While the inbox holds fewer than fifty notifications, each
    [add_notification] raises that user's unread count by one; a user
    without an inbox has count 0. *)
Theorem add_notification_raises_unread_count w u m t l s :
  (length (inbox_of u s) < 50)%nat ->
  get_unread_notification_count u (add_notification w u m t l s)
  = S (get_unread_notification_count u s)
  /\ (notifications s !! u = None -> get_unread_notification_count u s = 0%nat).
Proof.
  intros Hlen. split.
  - destruct (inbox_after_add w u m t l s) as (E & _).
    unfold get_unread_notification_count.
    unfold inbox_of in E, Hlen.
    assert (L : notifications (add_notification w u m t l s) !! u
                = Some (default [] (notifications (add_notification w u m t l s) !! u)))
      by (unfold add_notification, tick, set_ticks, set_notifications;
          cbn [notifications]; rewrite lookup_insert_eq; reflexivity).
    rewrite L, E. rewrite take_ge by (simpl; lia).
    destruct (notifications s !! u); reflexivity.
  - intros H. unfold get_unread_notification_count. rewrite H. reflexivity.
Qed.

Lemma add_notification_unread_witness :
  get_unread_notification_count "alice"
    (add_notification Sample.world "alice" "hello" "info" None Sample.requested)
  = S (get_unread_notification_count "alice" Sample.requested).
Proof.
  apply (add_notification_raises_unread_count Sample.world "alice" "hello" "info"
           None Sample.requested).
  vm_compute. lia.
Defined.

Lemma mark_first_fields nid inbox :
  map Notification.mark_read (mark_first nid inbox) = map Notification.mark_read inbox.
Proof.
  induction inbox as [|n inbox IH]; simpl; [reflexivity|].
  destruct (String.eqb _ _); simpl; [destruct n; reflexivity|].
  rewrite IH. reflexivity.
Qed.

Lemma mark_first_twice nid inbox :
  mark_first nid (mark_first nid inbox) = mark_first nid inbox.
Proof.
  induction inbox as [|n inbox IH]; simpl; [reflexivity|].
  destruct (String.eqb (Notification.id n) nid) eqn:E; simpl; rewrite E.
  - reflexivity.
  - rewrite IH. reflexivity.
Qed.

Lemma mark_first_unread nid inbox :
  (length (List.filter (fun n => negb (Notification.read n)) (mark_first nid inbox))
   + match find (fun n => String.eqb (Notification.id n) nid) inbox with
     | Some n => if Notification.read n then 0 else 1
     | None => 0
     end
   = length (List.filter (fun n => negb (Notification.read n)) inbox))%nat.
Proof.
  induction inbox as [|n inbox IH]; simpl; [reflexivity|].
  destruct (String.eqb (Notification.id n) nid) eqn:E; simpl.
  - destruct (Notification.read n); simpl; lia.
  - destruct (Notification.read n); simpl; lia.
Qed.

(** X3.  [mark_notification_as_read] on a user with an inbox changes read
    flags only: every notification keeps its place and its other
    fields.  It marks the first notification with the given id and no
    other, so the unread count drops by one when that notification was
    unread and stays as it was otherwise; a second call with the same
    id changes nothing. *)
Theorem mark_notification_as_read_effect username nid s inbox :
  notifications s !! username = Some inbox ->
  let s' := snd (mark_notification_as_read username nid s) in
  fst (mark_notification_as_read username nid s) = true
  /\ map Notification.mark_read (inbox_of username s')
     = map Notification.mark_read inbox
  /\ (get_unread_notification_count username s'
      + match find (fun n => String.eqb (Notification.id n) nid) inbox with
        | Some n => if Notification.read n then 0 else 1
        | None => 0
        end
      = get_unread_notification_count username s)%nat
  /\ mark_notification_as_read username nid s' = (true, s').
Proof.
  intros H s'. subst s'.
  set (s1 := set_notifications
               (<[username := mark_first nid inbox]> (notifications s)) s).
  assert (E : mark_notification_as_read username nid s = (true, s1))
    by (unfold mark_notification_as_read; rewrite H; reflexivity).
  rewrite E. cbn [fst snd].
  assert (L : notifications s1 !! username = Some (mark_first nid inbox))
    by (simpl; apply lookup_insert_eq).
  split; [reflexivity|]. split; [|split].
  - unfold inbox_of. rewrite L. apply mark_first_fields.
  - rewrite (unread_count_of _ _ _ L), (unread_count_of _ _ _ H).
    apply mark_first_unread.
  - unfold mark_notification_as_read. rewrite L. f_equal.
    unfold set_notifications. simpl. rewrite mark_first_twice.
    rewrite insert_insert_eq. reflexivity.
Qed.

Lemma mark_notification_as_read_witness :
  (get_unread_notification_count "alice"
     (snd (mark_notification_as_read "alice" "uuid-5" Sample.requested)) + 1
   = get_unread_notification_count "alice" Sample.requested)%nat.
Proof.
  destruct (notifications Sample.requested !! "alice") as [inbox|] eqn:E;
    [|vm_compute in E; discriminate].
  destruct (mark_notification_as_read_effect "alice" "uuid-5" Sample.requested
              inbox E) as (_ & _ & H & _).
  vm_compute in E. injection E as <-. exact H.
Defined.

Lemma filter_twice {A} (f : A -> bool) (l : list A) :
  List.filter f (List.filter f l) = List.filter f l.
Proof.
  induction l as [|x l IH]; simpl; [reflexivity|].
  destruct (f x) eqn:E; simpl; [rewrite E, IH|]; auto.
Qed.

Lemma filter_unread_le (f : Notification.t -> bool) inbox :
  (length (List.filter (fun n => negb (Notification.read n)) (List.filter f inbox))
   <= length (List.filter (fun n => negb (Notification.read n)) inbox))%nat.
Proof.
  induction inbox as [|n inbox IH]; simpl; [lia|].
  destruct (f n); simpl; destruct (Notification.read n); simpl; lia.
Qed.

(** X4.  [delete_notification] on a user with an inbox removes every
    notification with the given id, keeps the others in their order,
    never raises the unread count and leaves the other inboxes alone;
    a second call with the same id changes nothing. *)
Theorem delete_notification_effect username nid s inbox :
  notifications s !! username = Some inbox ->
  let s' := snd (delete_notification username nid s) in
  fst (delete_notification username nid s) = true
  /\ Forall (fun n => Notification.id n <> nid) (inbox_of username s')
  /\ (forall n, In n inbox -> Notification.id n <> nid -> In n (inbox_of username s'))
  /\ (get_unread_notification_count username s'
      <= get_unread_notification_count username s)%nat
  /\ (forall u', u' <> username -> notifications s' !! u' = notifications s !! u')
  /\ delete_notification username nid s' = (true, s').
Proof.
  intros H s'. subst s'.
  set (keep := fun n => negb (String.eqb (Notification.id n) nid)).
  set (s1 := set_notifications
               (<[username := List.filter keep inbox]> (notifications s)) s).
  assert (E : delete_notification username nid s = (true, s1))
    by (unfold delete_notification; rewrite H; reflexivity).
  rewrite E. cbn [fst snd].
  assert (L : notifications s1 !! username = Some (List.filter keep inbox))
    by (simpl; apply lookup_insert_eq).
  split; [reflexivity|]. unfold inbox_of. rewrite L. simpl.
  split; [|split; [|split; [|split]]].
  - apply List.Forall_forall. intros n Hn. apply filter_In in Hn as [_ Hk].
    unfold keep in Hk. apply negb_true_iff, String.eqb_neq in Hk. exact Hk.
  - intros n Hin Hne. apply filter_In. split; [exact Hin|].
    unfold keep. apply negb_true_iff, String.eqb_neq. exact Hne.
  - rewrite (unread_count_of _ _ _ L), (unread_count_of _ _ _ H).
    apply filter_unread_le.
  - intros u' Hne. simpl. rewrite lookup_insert_ne by congruence. reflexivity.
  - unfold delete_notification. rewrite L. f_equal.
    unfold set_notifications. simpl. fold keep. rewrite filter_twice.
    rewrite insert_insert_eq. reflexivity.
Qed.

Lemma delete_notification_witness :
  Forall (fun n => Notification.id n <> "uuid-5")
         (inbox_of "alice"
            (snd (delete_notification "alice" "uuid-5" Sample.requested))).
Proof.
  destruct (notifications Sample.requested !! "alice") as [inbox|] eqn:E;
    [|vm_compute in E; discriminate].
  destruct (delete_notification_effect "alice" "uuid-5" Sample.requested inbox E)
    as (_ & H & _).
  exact H.
Defined.

(** ** Swap workflow: making a request *)

Lemma loc_none {A} k (df : pd.DataFrame A) :
  pd.index_mem k df = false -> pd.loc k df = None.
Proof.
  unfold pd.index_mem, pd.index, pd.loc.
  induction df as [|[k' r] df IH]; simpl; [reflexivity|].
  rewrite (Z.eqb_sym k k'). destruct (k' =? k); simpl; [discriminate | exact IH].
Qed.

Lemma loc_some_mem {A} k (df : pd.DataFrame A) e :
  pd.loc k df = Some e -> pd.index_mem k df = true.
Proof.
  intros H. destruct (pd.index_mem k df) eqn:E; [reflexivity|].
  rewrite (loc_none _ _ E) in H. discriminate.
Qed.

(** X5.  [create_shift_swap_request] with a schedule id that is not a key of
    the schedule fails with "Schedule not found."; with a live key and
    an unregistered target user it fails with "Target user not found.".
    In both cases no request is stored and nobody is notified: only
    the message is reported. *)
Theorem create_request_rejects_unknown w k target_username s :
  (pd.index_mem k (schedule s) = false ->
   create_shift_swap_request w k target_username s
   = (false, report "Schedule not found." s))
  /\ (pd.index_mem k (schedule s) = true ->
      lookup_user target_username s = None ->
      create_shift_swap_request w k target_username s
      = (false, report "Target user not found." s)).
Proof.
  unfold create_shift_swap_request. split.
  - intros H. rewrite (loc_none _ _ H). reflexivity.
  - intros H Hu. destruct (pd.loc k (schedule s)) eqn:E.
    + rewrite Hu. reflexivity.
    + apply index_mem_true in H. exfalso.
      unfold pd.loc in E. destruct (find _ _) as [p|] eqn:F; [discriminate|].
      apply in_map_iff in H as ([k' r] & Hk & Hin). simpl in Hk. subst k'.
      pose proof (find_none _ _ F _ Hin) as Hf. simpl in Hf.
      rewrite Z.eqb_refl in Hf. discriminate.
Qed.

Lemma create_request_rejects_witness :
  create_shift_swap_request Sample.world 7 "bob" Sample.office
  = (false, report "Schedule not found." Sample.office)
  /\ create_shift_swap_request Sample.world 0 "nobody" Sample.office
     = (false, report "Target user not found." Sample.office).
Proof.
  destruct (create_request_rejects_unknown Sample.world 7 "bob" Sample.office)
    as [H1 _].
  destruct (create_request_rejects_unknown Sample.world 0 "nobody" Sample.office)
    as [_ H2].
  split; [apply H1 | apply H2]; reflexivity.
Defined.

Lemma request_after_create w k target_username s e target :
  pd.loc k (schedule s) = Some e ->
  lookup_user target_username s = Some target ->
  exists r s',
    create_shift_swap_request w k target_username s = (true, s')
    /\ shift_requests s' = shift_requests s ++ [r]
    /\ Request.request_id r = uuid4 w (ticks s)
    /\ Request.status r = Pending
    /\ Py.int_float (Request.schedule_id r) = Some k
    /\ Request.requester_username r = Entry.username e
    /\ Request.requester_name r = Entry.name e
    /\ Request.target_username r = target_username
    /\ Request.target_name r = User.name target
    /\ (Request.date r, Request.start_time r, Request.end_time r,
        Request.location r, Request.notes r, Request.auto_assigned r)
       = (Entry.date e, Entry.start_time e, Entry.end_time e,
          Entry.location e, Entry.notes e, Entry.auto_assigned e)
    /\ schedule s' = schedule s /\ users s' = users s
    /\ (exists n, hd_error (inbox_of (Entry.username e) s') = Some n
                  /\ Notification.message n
                     = ("Shift swap request sent to " ++ User.name target)%string
                  /\ Notification.type n = "success")
    /\ (exists n, In n (inbox_of target_username s')
                  /\ Notification.message n
                     = ("New shift swap request from " ++ Entry.name e ++ " for "
                        ++ Entry.date e)%string
                  /\ Notification.type n = "info").
Proof.
  intros He Ht. unfold create_shift_swap_request. rewrite He, Ht.
  eexists _, _. split; [reflexivity|].
  match goal with
  | |- context [add_notification w ?u2 ?m2 ?t2 ?l2
                  (add_notification w ?u1 ?m1 ?t1 ?l1 ?s1)] =>
      destruct (inbox_add_same w u1 m1 t1 l1 s1) as (rest1 & H1 & _);
      destruct (inbox_add_same w u2 m2 t2 l2
                  (add_notification w u1 m1 t1 l1 s1)) as (rest2 & H2 & Hrest2);
      set (sa := add_notification w u1 m1 t1 l1 s1) in *;
      set (sb := add_notification w u2 m2 t2 l2 sa) in *
  end.
  split; [reflexivity|]. split; [reflexivity|]. split; [reflexivity|].
  split; [apply int_float_str|].
  do 5 (split; [reflexivity|]). split; [reflexivity|]. split; [reflexivity|].
  split.
  - eexists. rewrite H2. split; [reflexivity|]. split; reflexivity.
  - destruct (decide (Entry.username e = target_username)) as [Heq|Hne].
    + eexists. split; [|split].
      * rewrite <- Heq, H2. right.
        apply list_elem_of_In, list_elem_of_lookup. exists 0%nat.
        rewrite Hrest2 by lia. rewrite Heq, H1. reflexivity.
      * reflexivity.
      * reflexivity.
    + eexists. split; [|split].
      * subst sb. rewrite inbox_add_other by exact Hne. rewrite H1.
        left. reflexivity.
      * reflexivity.
      * reflexivity.
Qed.

(** X6.  A successful [create_shift_swap_request] appends exactly one
    request: it is Pending, its requester is the owner of the entry, its
    fields are those of the entry, and its [schedule_id] reads back as
    the key.  The schedule and the users are unchanged; the target's
    newest notification announces the request and the requester's newest
    notification confirms it. *)
Theorem create_request_stores_snapshot w k target_username s e target :
  pd.loc k (schedule s) = Some e ->
  lookup_user target_username s = Some target ->
  exists r s',
    create_shift_swap_request w k target_username s = (true, s')
    /\ shift_requests s' = shift_requests s ++ [r]
    /\ Request.request_id r = uuid4 w (ticks s)
    /\ Request.status r = Pending
    /\ Py.int_float (Request.schedule_id r) = Some k
    /\ Request.requester_username r = Entry.username e
    /\ Request.requester_name r = Entry.name e
    /\ Request.target_username r = target_username
    /\ Request.target_name r = User.name target
    /\ (Request.date r, Request.start_time r, Request.end_time r,
        Request.location r, Request.notes r, Request.auto_assigned r)
       = (Entry.date e, Entry.start_time e, Entry.end_time e,
          Entry.location e, Entry.notes e, Entry.auto_assigned e)
    /\ schedule s' = schedule s /\ users s' = users s
    /\ (exists n, hd_error (inbox_of (Entry.username e) s') = Some n
                  /\ Notification.message n
                     = ("Shift swap request sent to " ++ User.name target)%string
                  /\ Notification.type n = "success")
    /\ (exists n, In n (inbox_of target_username s')
                  /\ Notification.message n
                     = ("New shift swap request from " ++ Entry.name e ++ " for "
                        ++ Entry.date e)%string
                  /\ Notification.type n = "info").
Proof. exact (request_after_create w k target_username s e target). Qed.

Lemma create_request_witness :
  exists r s',
    create_shift_swap_request Sample.world 0 "bob" Sample.office = (true, s')
    /\ shift_requests s' = [r]
    /\ Py.int_float (Request.schedule_id r) = Some 0.
Proof.
  destruct (create_request_stores_snapshot Sample.world 0 "bob" Sample.office
              Sample.alice_shift Sample.bob eq_refl eq_refl)
    as (r & s' & H1 & H2 & _ & _ & H3 & _).
  exists r, s'. auto.
Defined.

(** ** Swap workflow: answering a request *)

Lemma schedule_after_approval w s rid r target k :
  find_request rid s = Some r ->
  lookup_user (Request.target_username r) s = Some target ->
  Py.int_float (Request.schedule_id r) = Some k ->
  pd.index_mem k (schedule s) = true ->
  exists new s',
    update_shift_request_status w rid Approved s = (true, s')
    /\ pd.rows (schedule s')
       = pd.rows (List.filter (fun p => negb (fst p =? k)) (schedule s)) ++ [new]
    /\ Entry.username new = Request.target_username r
    /\ Entry.name new = Request.target_name r
    /\ Entry.subteam new = User.subteam target
    /\ (Entry.date new, Entry.start_time new, Entry.end_time new, Entry.location new,
        Entry.auto_assigned new)
       = (Request.date r, Request.start_time r, Request.end_time r,
          Request.location r, Request.auto_assigned r)
    /\ Entry.notes new = ("Swapped with " ++ Request.requester_name r)%string
    /\ (exists r', find_request rid s' = Some r' /\ Request.status r' = Approved)
    /\ st_error s' = st_error s
    /\ (exists n, hd_error (inbox_of (Request.requester_username r) s') = Some n
                  /\ Notification.message n
                     = approved_message (Request.date r) (User.name target)).
Proof.
  intros Hr Ht Hk Hmem. unfold update_shift_request_status. rewrite Hr.
  replace (lookup_user (Request.target_username r) (store_status w rid Approved s))
    with (lookup_user (Request.target_username r) s) by reflexivity.
  rewrite Ht.
  match goal with
  | |- context [process_approved_swap w rid ?x] => set (s2 := x)
  end.
  assert (Hin : exists rest n,
             inbox_of (Request.requester_username r) s2 = n :: rest
             /\ Notification.message n
                = approved_message (Request.date r) (User.name target)).
  { subst s2. match goal with
              | |- context [add_notification w ?u ?m ?t ?l ?s1] =>
                  destruct (inbox_add_same w u m t l s1) as (rest & H & _)
              end.
    eexists _, _. split; [exact H | reflexivity]. }
  destruct Hin as (rest & n & Hin & Hn).
  assert (Hf : find_request rid s2
               = Some (Request.set_status Approved (timestamp w (ticks s)) r))
    by (apply find_set_status; exact Hr).
  unfold process_approved_swap. rewrite Hf.
  cbn [Request.set_status Request.target_username Request.schedule_id
       Request.date Request.target_name Request.start_time Request.end_time
       Request.location Request.requester_name Request.auto_assigned].
  replace (lookup_user (Request.target_username r) s2)
    with (lookup_user (Request.target_username r) s) by reflexivity.
  rewrite Ht, Hk.
  replace (schedule (tick 2 s2)) with (schedule s) by reflexivity.
  rewrite drop_spec, Hmem. cbn [negb].
  eexists _, _. split; [reflexivity|].
  split; [cbn [schedule set_schedule]; unfold pd.concat_ignore_index, pd.of_records;
          rewrite !rows_range_index; reflexivity|].
  do 5 (split; [reflexivity|]).
  split; [exists (Request.set_status Approved (timestamp w (ticks s)) r);
          split; [exact Hf | reflexivity]|].
  split; [reflexivity|].
  exists n. split; [|exact Hn].
  change (inbox_of (Request.requester_username r) (set_schedule _ (tick 2 s2)))
    with (inbox_of (Request.requester_username r) s2).
  rewrite Hin. reflexivity.
Qed.

(** X7.  When the request exists, its target user is registered and its
    schedule id reads as a live key [k], an approval succeeds: the
    request is stored as Approved, the rows keyed [k] leave the
    schedule and one entry owned by the target, with the target's
    current subteam and the request's date, times and location, is
    appended; no error is reported and the requester's newest
    notification says that the request was approved. *)
Theorem approval_transfers_the_entry w s rid r target k :
  find_request rid s = Some r ->
  lookup_user (Request.target_username r) s = Some target ->
  Py.int_float (Request.schedule_id r) = Some k ->
  pd.index_mem k (schedule s) = true ->
  exists new s',
    update_shift_request_status w rid Approved s = (true, s')
    /\ pd.rows (schedule s')
       = pd.rows (List.filter (fun p => negb (fst p =? k)) (schedule s)) ++ [new]
    /\ Entry.username new = Request.target_username r
    /\ Entry.name new = Request.target_name r
    /\ Entry.subteam new = User.subteam target
    /\ (Entry.date new, Entry.start_time new, Entry.end_time new, Entry.location new,
        Entry.auto_assigned new)
       = (Request.date r, Request.start_time r, Request.end_time r,
          Request.location r, Request.auto_assigned r)
    /\ Entry.notes new = ("Swapped with " ++ Request.requester_name r)%string
    /\ (exists r', find_request rid s' = Some r' /\ Request.status r' = Approved)
    /\ st_error s' = st_error s
    /\ (exists n, hd_error (inbox_of (Request.requester_username r) s') = Some n
                  /\ Notification.message n
                     = approved_message (Request.date r) (User.name target)).
Proof. exact (schedule_after_approval w s rid r target k). Qed.

Lemma approval_transfers_witness :
  exists new s',
    update_shift_request_status Sample.world Sample.request_id Approved
      Sample.requested = (true, s')
    /\ pd.rows (schedule s') = [Sample.carol_shift; new]
    /\ Entry.username new = "bob".
Proof.
  destruct (find_request Sample.request_id Sample.requested) as [r|] eqn:E;
    [|vm_compute in E; discriminate].
  pose proof (approval_transfers_the_entry Sample.world Sample.requested
                Sample.request_id r Sample.bob 0 E) as H.
  vm_compute in E. injection E as <-.
  destruct (H eq_refl eq_refl eq_refl) as (new & s' & H1 & H2 & H3 & _).
  exists new, s'. auto.
Defined.

Lemma find_request_last rid l r :
  Forall (fun x => Request.request_id x <> rid) l ->
  Request.request_id r = rid ->
  find (has_id rid) (l ++ [r]) = Some r.
Proof.
  intros Hl Hr. induction Hl as [|x l Hx _ IH]; simpl.
  - unfold has_id. rewrite Hr, String.eqb_refl. reflexivity.
  - unfold has_id at 1. destruct (String.eqb_spec (Request.request_id x) rid);
      [contradiction | exact IH].
Qed.

(** X8.  Request, then approval: when the entry keyed [k] exists, the target
    user is registered and the new request id is not already in use,
    [create_shift_swap_request] followed by an approval of the new
    request takes the rows keyed [k] out of the schedule and appends
    one entry for the target with the date, times, location and
    auto_assigned flag of the requested entry and the note
    "Swapped with <owner's name>". *)
Theorem request_then_approval_moves_the_entry w k target_username s e target :
  pd.loc k (schedule s) = Some e ->
  lookup_user target_username s = Some target ->
  Forall (fun x => Request.request_id x <> uuid4 w (ticks s)) (shift_requests s) ->
  exists new s',
    update_shift_request_status w (uuid4 w (ticks s)) Approved
      (snd (create_shift_swap_request w k target_username s)) = (true, s')
    /\ pd.rows (schedule s')
       = pd.rows (List.filter (fun p => negb (fst p =? k)) (schedule s)) ++ [new]
    /\ Entry.username new = target_username
    /\ Entry.name new = User.name target
    /\ Entry.subteam new = User.subteam target
    /\ (Entry.date new, Entry.start_time new, Entry.end_time new, Entry.location new,
        Entry.auto_assigned new)
       = (Entry.date e, Entry.start_time e, Entry.end_time e, Entry.location e,
          Entry.auto_assigned e)
    /\ Entry.notes new = ("Swapped with " ++ Entry.name e)%string.
Proof.
  intros He Ht Hfresh.
  destruct (request_after_create w k target_username s e target He Ht)
    as (r & s1 & Hc & Hreq & Hid & _ & Hsid & _ & Hrn & Htu & Htn & Hsnap & Hsch
        & Hus & _).
  rewrite Hc. cbn [snd].
  assert (Hf : find_request (uuid4 w (ticks s)) s1 = Some r)
    by (unfold find_request; rewrite Hreq; apply find_request_last; assumption).
  assert (Ht1 : lookup_user (Request.target_username r) s1 = Some target)
    by (rewrite Htu; unfold lookup_user; rewrite Hus; exact Ht).
  assert (Hm1 : pd.index_mem k (schedule s1) = true)
    by (rewrite Hsch; eapply loc_some_mem; exact He).
  destruct (schedule_after_approval w s1 _ r target k Hf Ht1 Hsid Hm1)
    as (new & s' & H1 & H2 & H3 & H4 & H5 & H6 & H7 & _).
  exists new, s'. rewrite Hsch in H2. injection Hsnap as Hd Hst Het Hl _ Ha.
  repeat split; try assumption; try congruence.
Qed.

Lemma request_then_approval_witness :
  exists new s',
    update_shift_request_status Sample.world (uuid4 Sample.world 0) Approved
      (snd (create_shift_swap_request Sample.world 0 "bob" Sample.office))
    = (true, s')
    /\ pd.rows (schedule s') = [Sample.carol_shift; new]
    /\ Entry.username new = "bob".
Proof.
  destruct (request_then_approval_moves_the_entry Sample.world 0 "bob"
              Sample.office Sample.alice_shift Sample.bob eq_refl eq_refl)
    as (new & s' & H1 & H2 & H3 & _).
  - constructor.
  - exists new, s'. auto.
Defined.

(** X9.  Rejecting, cancelling or resetting a request to Pending never
    touches the schedule or the users; when the user named in the
    notification is registered, a rejection succeeds and its warning is
    the requester's newest notification, and a cancellation succeeds and
    its note is the target's newest notification. *)
Theorem declining_keeps_the_schedule w rid status s :
  status <> Approved ->
  schedule (snd (update_shift_request_status w rid status s)) = schedule s
  /\ users (snd (update_shift_request_status w rid status s)) = users s
  /\ forall r,
      find_request rid s = Some r ->
      (status = Rejected ->
       forall target,
         lookup_user (Request.target_username r) s = Some target ->
         fst (update_shift_request_status w rid status s) = true
         /\ exists n,
             hd_error (inbox_of (Request.requester_username r)
                         (snd (update_shift_request_status w rid status s)))
             = Some n
             /\ Notification.type n = "warning"
             /\ Notification.message n
                = ("Your shift swap request for " ++ Request.date r
                   ++ " was rejected by " ++ User.name target)%string)
      /\ (status = Cancelled ->
          forall requester,
            lookup_user (Request.requester_username r) s = Some requester ->
            fst (update_shift_request_status w rid status s) = true
            /\ exists n,
                hd_error (inbox_of (Request.target_username r)
                            (snd (update_shift_request_status w rid status s)))
                = Some n
                /\ Notification.type n = "info"
                /\ Notification.message n
                   = ("Shift swap request from " ++ User.name requester ++ " for "
                      ++ Request.date r ++ " was cancelled")%string).
Proof.
  intros Hne. unfold update_shift_request_status.
  destruct (find_request rid s) as [r|] eqn:Hr.
  2: { repeat split; discriminate. }
  split; [|split].
  - destruct status; [reflexivity | contradiction | |];
      destruct (lookup_user _ _); reflexivity.
  - destruct status; [reflexivity | contradiction | |];
      destruct (lookup_user _ _); reflexivity.
  - intros r0 [= <-]. split; intros -> u Hu;
      match goal with
      | |- context [lookup_user ?x (store_status w rid ?st s)] =>
          replace (lookup_user x (store_status w rid st s))
            with (lookup_user x s) by reflexivity
      end; rewrite Hu; cbn [fst snd]; (split; [reflexivity|]);
      match goal with
      | |- context [add_notification w ?a ?m ?t ?l ?s1] =>
          destruct (inbox_add_same w a m t l s1) as (rest & H & _); rewrite H
      end; eexists; (split; [reflexivity|]); split; reflexivity.
Qed.

Lemma declining_keeps_the_schedule_witness :
  schedule (snd (update_shift_request_status Sample.world Sample.request_id
                   Cancelled Sample.requested))
  = schedule Sample.requested.
Proof.
  apply (declining_keeps_the_schedule Sample.world Sample.request_id Cancelled
           Sample.requested).
  discriminate.
Defined.

(** X10.  With a request id that is not in the table,
    [update_shift_request_status] and [process_approved_swap] return
    [False] and report "Shift request not found."; nothing else
    changes, whatever the status asked for. *)
Theorem unknown_request_is_reported w rid status s :
  Forall (fun r => Request.request_id r <> rid) (shift_requests s) ->
  update_shift_request_status w rid status s
  = (false, report "Shift request not found." s)
  /\ process_approved_swap w rid s = (false, report "Shift request not found." s).
Proof.
  intros H.
  assert (F : find_request rid s = None).
  { unfold find_request. induction H as [|r l Hr _ IH]; simpl; [reflexivity|].
    unfold has_id at 1. destruct (String.eqb_spec (Request.request_id r) rid);
      [contradiction | exact IH]. }
  unfold update_shift_request_status, process_approved_swap. rewrite F. auto.
Qed.

Lemma unknown_request_witness :
  update_shift_request_status Sample.world "no-such-request" Approved
    Sample.requested
  = (false, report "Shift request not found." Sample.requested).
Proof.
  apply (unknown_request_is_reported Sample.world "no-such-request" Approved
           Sample.requested).
  vm_compute. repeat constructor; discriminate.
Defined.

(** X11.  [update_shift_request_status] rewrites only the requests with the
    given id: the table keeps its length, every other request stays
    where and as it was, and a request with the id changes in its
    status and update time only. *)
Theorem other_requests_are_untouched w rid status s r0 :
  find_request rid s = Some r0 ->
  let s' := snd (update_shift_request_status w rid status s) in
  length (shift_requests s') = length (shift_requests s)
  /\ forall i r,
      shift_requests s !! i = Some r ->
      (Request.request_id r <> rid -> shift_requests s' !! i = Some r)
      /\ (Request.request_id r = rid ->
          shift_requests s' !! i
          = Some (Request.set_status status (timestamp w (ticks s)) r)).
Proof.
  intros H s'. subst s'. rewrite (update_status_requests w rid status s r0 H).
  split; [apply length_map|].
  intros i r Hi. rewrite list_lookup_fmap, Hi. simpl. unfold has_id.
  split; intros Hr.
  - destruct (String.eqb_spec (Request.request_id r) rid); [contradiction|reflexivity].
  - rewrite Hr, String.eqb_refl. reflexivity.
Qed.

Lemma other_requests_witness :
  length (shift_requests
            (snd (update_shift_request_status Sample.world Sample.request_id
                    Rejected Sample.requested)))
  = length (shift_requests Sample.requested).
Proof.
  destruct (find_request Sample.request_id Sample.requested) as [r|] eqn:E;
    [|vm_compute in E; discriminate].
  apply (other_requests_are_untouched Sample.world Sample.request_id Rejected
           Sample.requested r E).
Defined.

(** ** Schedule form: times and the no-overlap invariant *)

(** X12.  [_parse_time] never fails: whatever the stored text, it yields an
    hour from 0 to 23 and a minute from 0 to 59, and text without a
    colon reads as 09:00. *)
Theorem parse_time_is_always_a_time (time_str : string) :
  valid_time (_parse_time time_str)
  /\ (Py.contains_colon time_str = false -> _parse_time time_str = Py.mk_time 9 0).
Proof.
  unfold _parse_time, valid_time.
  destruct (Py.contains_colon time_str); [|split; [simpl; lia | reflexivity]].
  split; [|discriminate].
  destruct (Py.split_colon time_str "") as [|p0 [|p1 ?]]; try (simpl; lia).
  destruct (Py.int p0) as [h|]; [|simpl; lia].
  destruct (Py.int p1) as [m|]; [|simpl; lia].
  simpl. pose proof (Z.mod_pos_bound h 24). pose proof (Z.mod_pos_bound m 60). lia.
Qed.

(** X13.  Every time of day that the form stores with [strftime('%H:%M')]
    is read back by [_parse_time] as the same time. *)
Theorem parse_time_reads_back_strftime (t : Py.time) :
  valid_time t -> _parse_time (Py.strftime_HM t) = t.
Proof. exact (parse_time_strftime t). Qed.

Lemma parse_time_reads_back_witness :
  _parse_time (Py.strftime_HM (Py.mk_time 7 5)) = Py.mk_time 7 5.
Proof. apply parse_time_reads_back_strftime. unfold valid_time. simpl. lia. Defined.

(** X14.  An entry saved through the form, new or edited, ends after it
    starts, as the program reads the stored times. *)
Theorem saved_entry_ends_after_start w sess form s s' :
  valid_time (Form.start_time form) ->
  valid_time (Form.end_time form) ->
  submit_schedule w sess form s = (Saved, s') ->
  match editing sess s with
  | Some id => forall e, pd.loc id (schedule s') = Some e -> ends_after_start e = true
  | None =>
      exists new,
        pd.rows (schedule s') = pd.rows (schedule s) ++ [new]
        /\ ends_after_start new = true
  end.
Proof. exact (manual_entry_ends_after_start w sess form s s'). Qed.

Lemma saved_entry_ends_after_start_witness :
  exists new,
    pd.rows (schedule (snd (submit_schedule Sample.world Sample.alice_session
                              (Sample.form (Py.mk_time 17 0) (Py.mk_time 18 0))
                              Sample.office)))
    = pd.rows (schedule Sample.office) ++ [new]
    /\ ends_after_start new = true.
Proof.
  destruct (submit_schedule Sample.world Sample.alice_session
              (Sample.form (Py.mk_time 17 0) (Py.mk_time 18 0)) Sample.office)
    as [x s'] eqn:E.
  assert (Hx : x = Saved) by (apply (f_equal fst) in E; vm_compute in E; congruence).
  subst x.
  pose proof (saved_entry_ends_after_start Sample.world Sample.alice_session
                (Sample.form (Py.mk_time 17 0) (Py.mk_time 18 0)) Sample.office s')
    as H.
  change (editing Sample.alice_session Sample.office) with (@None Z) in H.
  apply H; [unfold valid_time; simpl; lia .. | exact E].
Defined.

(** What a save leaves in the schedule. *)
Lemma saved_schedule w sess form s s' :
  submit_schedule w sess form s = (Saved, s') ->
  let fits e :=
    Entry.username e = current_user sess
    /\ Entry.date e = Py.strftime_Ymd (Form.schedule_date form)
    /\ Entry.start_time e = Py.strftime_HM (Form.start_time form)
    /\ Entry.end_time e = Py.strftime_HM (Form.end_time form) in
  Py.time_lt (Form.start_time form) (Form.end_time form) = true
  /\ find (fun p => overlaps (Form.start_time form) (Form.end_time form) (snd p))
          (comparison_set sess form s) = None
  /\ match editing sess s with
     | Some id =>
         exists upd,
           schedule s' = pd.set_loc id upd (schedule s) /\ forall old, fits (upd old)
     | None =>
         exists new,
           schedule s' = pd.concat_ignore_index (schedule s) (pd.of_records [new])
           /\ fits new
     end.
Proof.
  intros H fits. unfold submit_schedule in H. rewrite time_le_lt in H.
  destruct (Py.time_lt (Form.start_time form) (Form.end_time form));
    [|simpl in H; discriminate H].
  simpl negb in H. cbv iota in H.
  destruct (find _ _) as [[? ?]|]; [discriminate H|].
  destruct (lookup_user _ _) as [user|]; [|discriminate H].
  split; [reflexivity|]. split; [reflexivity|].
  assert (N : forall (b : bool) m t s3,
             schedule (if b then notify_managers w m t s3 else s3) = schedule s3)
    by (intros [] ? ? ?; auto using notify_managers_schedule).
  destruct (editing sess s) as [id|]; injection H as <-; rewrite N.
  - eexists. split; [reflexivity|]. intros old. repeat split.
  - eexists. split; [reflexivity|]. repeat split.
Qed.

Lemma entries_overlap_sym a b : entries_overlap a b = entries_overlap b a.
Proof. unfold entries_overlap. apply andb_comm. Qed.

Lemma range_index_lookup {A} (l : list A) i n :
  pd.rows (pd.range_index i l) !! n = l !! n.
Proof. rewrite rows_range_index. reflexivity. Qed.

(** X15.  Saving through the form keeps shifts disjoint: if no two entries of
    one user on one date overlap and the keys of the schedule are
    distinct, the same holds after a new entry or an edit has been
    saved. *)
Theorem saving_keeps_shifts_disjoint w sess form s s' :
  valid_time (Form.start_time form) ->
  valid_time (Form.end_time form) ->
  NoDup (pd.index (schedule s)) ->
  conflict_free (schedule s) ->
  submit_schedule w sess form s = (Saved, s') ->
  conflict_free (schedule s').
Proof.
  intros Vs Ve Hnd Hfree H.
  destruct (saved_schedule w sess form s s' H) as (Hlt & Hfind & Hs').
  (* an entry that fits the form does not overlap a row of the comparison set *)
  assert (Hcmp : forall k e new,
             In (k, e) (schedule s) -> editing sess s <> Some k ->
             Entry.username new = current_user sess ->
             Entry.date new = Py.strftime_Ymd (Form.schedule_date form) ->
             Entry.start_time new = Py.strftime_HM (Form.start_time form) ->
             Entry.end_time new = Py.strftime_HM (Form.end_time form) ->
             Entry.username e = Entry.username new ->
             Entry.date e = Entry.date new ->
             entries_overlap new e = false).
  { intros k e new Hin Hed Hu Hd Hst Het Hue Hde.
    pose proof (find_none _ _ Hfind (k, e)) as Hf.
    unfold entries_overlap. rewrite Hst, Het, !parse_time_strftime by assumption.
    apply Hf. apply in_comparison_set. repeat split; congruence. }
  unfold conflict_free in *.
  destruct (editing sess s) as [id|] eqn:Ed.
  - destruct Hs' as (upd & -> & Hfits).
    assert (Hrow : forall n x,
               pd.rows (pd.set_loc id upd (schedule s)) !! n = Some x ->
               exists k r, schedule s !! n = Some (k, r)
                           /\ x = if k =? id then upd r else r).
    { intros n x Hx. unfold pd.rows, pd.set_loc in Hx.
      rewrite map_map, list_lookup_fmap in Hx.
      apply fmap_Some in Hx as ([k r] & Hn & ->).
      exists k, r. split; [exact Hn|].
      simpl. destruct (k =? id); reflexivity. }
    intros i j a b Hij Ha Hb Hu Hd.
    apply Hrow in Ha as (ki & ri & Hi & ->).
    apply Hrow in Hb as (kj & rj & Hj & ->).
    assert (Hin : forall n k r, schedule s !! n = Some (k, r) -> In (k, r) (schedule s))
      by (intros n k r Hn; apply list_elem_of_In, list_elem_of_lookup; eauto).
    assert (Hr : forall n k r, schedule s !! n = Some (k, r) ->
                               pd.rows (schedule s) !! n = Some r)
      by (intros n k r Hn; unfold pd.rows; rewrite list_lookup_fmap;
          apply fmap_Some; exists (k, r); split; [exact Hn | reflexivity]).
    assert (Hk : forall n k r, schedule s !! n = Some (k, r) ->
                               pd.index (schedule s) !! n = Some k)
      by (intros n k r Hn; unfold pd.index; rewrite list_lookup_fmap;
          apply fmap_Some; exists (k, r); split; [exact Hn | reflexivity]).
    destruct (Z.eqb_spec ki id) as [->|Hi'], (Z.eqb_spec kj id) as [->|Hj'].
    + exfalso. apply Hij. eapply NoDup_lookup; eauto.
    + destruct (Hfits ri) as (F1 & F2 & F3 & F4).
      eapply Hcmp; eauto; congruence.
    + destruct (Hfits rj) as (F1 & F2 & F3 & F4).
      rewrite entries_overlap_sym. eapply Hcmp; eauto; congruence.
    + eapply Hfree; eauto.
  - destruct Hs' as (new & -> & F1 & F2 & F3 & F4).
    unfold pd.concat_ignore_index, pd.of_records.
    intros i j a b Hij. rewrite !range_index_lookup, rows_range_index.
    intros Ha Hb Hu Hd.
    assert (Hin : forall n e, pd.rows (schedule s) !! n = Some e ->
                              exists k, In (k, e) (schedule s)).
    { intros n e Hn. unfold pd.rows in Hn. rewrite list_lookup_fmap in Hn.
      apply fmap_Some in Hn as ([k r] & Hn & ->). exists k.
      apply list_elem_of_In, list_elem_of_lookup. eauto. }
    apply lookup_app_Some in Ha as [Ha | [Hia Ha]];
      apply lookup_app_Some in Hb as [Hb | [Hjb Hb]].
    + eapply Hfree; eauto.
    + apply list_lookup_singleton_Some in Hb as [_ <-].
      destruct (Hin _ _ Ha) as (k & Hk).
      rewrite entries_overlap_sym. eapply Hcmp; eauto; congruence.
    + apply list_lookup_singleton_Some in Ha as [_ <-].
      destruct (Hin _ _ Hb) as (k & Hk).
      eapply Hcmp; eauto; congruence.
    + apply list_lookup_singleton_Some in Ha as [Ha _].
      apply list_lookup_singleton_Some in Hb as [Hb _]. lia.
Qed.

Lemma saving_keeps_shifts_disjoint_witness :
  conflict_free
    (schedule (snd (submit_schedule Sample.world Sample.alice_session
                      (Sample.form (Py.mk_time 17 0) (Py.mk_time 18 0))
                      Sample.office))).
Proof.
  destruct (submit_schedule Sample.world Sample.alice_session
              (Sample.form (Py.mk_time 17 0) (Py.mk_time 18 0)) Sample.office)
    as [x s'] eqn:E.
  assert (Hx : x = Saved) by (apply (f_equal fst) in E; vm_compute in E; congruence).
  subst x.
  apply (saving_keeps_shifts_disjoint Sample.world Sample.alice_session
           (Sample.form (Py.mk_time 17 0) (Py.mk_time 18 0)) Sample.office s').
  - unfold valid_time. simpl. lia.
  - unfold valid_time. simpl. lia.
  - apply (bool_decide_unpack _). vm_compute. exact I.
  - intros [|[|i]] [|[|j]] a b Hij Ha Hb Hu Hd; try discriminate;
      try contradiction; vm_compute in Ha, Hb;
      injection Ha as <-; injection Hb as <-; discriminate Hu.
  - exact E.
Defined.

(** ** Auto-assignment: what a run does to the schedule *)

Lemma rows_select (mask : Entry.t -> bool) (df : pd.DataFrame Entry.t) :
  pd.rows (pd.select (fun _ e => mask e) df) = List.filter mask (pd.rows df).
Proof.
  unfold pd.rows, pd.select. induction df as [|[k e] df IH]; simpl; [reflexivity|].
  destruct (mask e); simpl; rewrite IH; reflexivity.
Qed.

Lemma rows_clear_dates dates df :
  pd.rows (clear_dates dates df)
  = List.filter (fun e => negb (in_window dates e)) (pd.rows df).
Proof.
  unfold clear_dates. destruct df as [|p df]; [reflexivity|].
  cbn [length Nat.ltb Nat.leb]. apply rows_select.
Qed.

Lemma choose_location_cases weights r :
  choose_location weights r = "Office" \/ choose_location weights r = "WFH".
Proof. unfold choose_location. destruct (Qcompare _ _); auto. Qed.

Lemma assign_one_entry w date subteam u t e t1 :
  assign_one w date subteam u t = (Some e, t1) ->
  Entry.auto_assigned e = true
  /\ Entry.notes e = "Auto-assigned shift"
  /\ (Entry.location e = "Office" \/ Entry.location e = "WFH")
  /\ Entry.date e = Py.strftime_Ymd date
  /\ Entry.username e = fst u
  /\ Entry.subteam e = subteam.
Proof.
  unfold assign_one. destruct u as [username user_data].
  destruct (Py.strptime_HM _); [|discriminate].
  destruct (Py.add_to_time _ _); [|discriminate].
  intros [= <- _]. cbn [Entry.auto_assigned Entry.notes Entry.location Entry.date
                        Entry.username Entry.subteam fst].
  repeat split. apply choose_location_cases.
Qed.

Lemma selections_dates dates groups x :
  In x (selections dates groups) -> In (fst (fst x)) dates.
Proof.
  unfold selections. rewrite in_flat_map. intros (d & Hd & Hx).
  apply in_flat_map in Hx as (g & _ & Hx).
  apply in_map_iff in Hx as (u & <- & _). exact Hd.
Qed.

Lemma assign_all_entries w sel t es t' :
  assign_all w sel t = (Some es, t') ->
  Forall (fun e =>
            Entry.auto_assigned e = true
            /\ Entry.notes e = "Auto-assigned shift"
            /\ (Entry.location e = "Office" \/ Entry.location e = "WFH")
            /\ exists x, In x sel /\ Entry.date e = Py.strftime_Ymd (fst (fst x)))
         es.
Proof.
  revert t es t'.
  induction sel as [|[[date subteam] u] rest IH]; intros t es t' H.
  - injection H as <- _. constructor.
  - apply assign_all_cons in H as (e & t1 & es' & H1 & H2 & ->).
    constructor.
    + apply assign_one_entry in H1 as (A & B & C & D & _).
      repeat (split; [assumption|]).
      exists (date, subteam, u). split; [left; reflexivity | exact D].
    + specialize (IH _ _ _ H2). eapply Forall_impl; [exact IH|].
      intros e' (A & B & C & x & Hx & D). repeat (split; [assumption|]).
      exists x. split; [right; exact Hx | exact D].
Qed.

Lemma in_window_strftime dates d e :
  In d dates -> Entry.date e = Py.strftime_Ymd d -> in_window dates e = true.
Proof.
  intros Hd He. unfold in_window. apply existsb_exists.
  exists (Py.strftime_Ymd d). split.
  - apply in_map. exact Hd.
  - rewrite He. apply String.eqb_refl.
Qed.

Lemma auto_assign_cases w dates s :
  let s' := _auto_assign_shifts w dates s in
  users s' = users s /\ shift_requests s' = shift_requests s
  /\ notifications s' = notifications s /\ st_error s' = st_error s
  /\ (schedule s' = schedule s
      \/ exists es,
          es <> []
          /\ schedule s'
             = pd.range_index 0
                 (List.filter (fun e => negb (in_window dates e))
                              (pd.rows (schedule s)) ++ es)
          /\ Forall (fun e =>
                       Entry.auto_assigned e = true
                       /\ Entry.notes e = "Auto-assigned shift"
                       /\ (Entry.location e = "Office" \/ Entry.location e = "WFH")
                       /\ in_window dates e = true) es).
Proof.
  intros s'. subst s'. unfold _auto_assign_shifts.
  destruct (users s) as [|u0 us] eqn:Hu; [rewrite Hu; auto 6|].
  destruct (assign_all w _ (ticks s)) as [[[|e es]|] t] eqn:Ha;
    cbn [users shift_requests notifications st_error schedule set_ticks set_schedule];
    rewrite ?Hu; repeat (split; [reflexivity|]);
    [left; reflexivity | | left; reflexivity].
  right. exists (e :: es). split; [discriminate|]. split.
  - rewrite <- rows_clear_dates.
    destruct (length (clear_dates dates (schedule s)) =? 0)%nat eqn:E.
    + apply Nat.eqb_eq in E.
      destruct (clear_dates dates (schedule s)); [reflexivity | discriminate].
    + unfold pd.concat_ignore_index, pd.of_records.
      rewrite rows_range_index. reflexivity.
  - pose proof (assign_all_entries _ _ _ _ _ Ha) as F.
    eapply Forall_impl; [exact F|].
    intros e' (A & B & C & x & Hx & D). repeat (split; [assumption|]).
    apply (in_window_strftime dates (fst (fst x))); [|exact D].
    apply (selections_dates _ _ _ Hx).
Qed.

(** X16.  A run of [_auto_assign_shifts] never touches users, requests,
    inboxes or the error channel, and it either leaves the schedule as
    it was or replaces the whole window: every earlier entry dated on
    one of the dates is gone, the other entries are kept in their
    order, the new entries follow, and the table is keyed [0 .. n-1].
    Every new entry is flagged auto_assigned, carries the note
    "Auto-assigned shift", is dated on one of the dates and is located
    at Office or WFH. *)
Theorem auto_assign_replaces_the_window w dates s :
  let s' := _auto_assign_shifts w dates s in
  users s' = users s /\ shift_requests s' = shift_requests s
  /\ notifications s' = notifications s /\ st_error s' = st_error s
  /\ (schedule s' = schedule s
      \/ exists es,
          es <> []
          /\ schedule s'
             = pd.range_index 0
                 (List.filter (fun e => negb (in_window dates e))
                              (pd.rows (schedule s)) ++ es)
          /\ Forall (fun e =>
                       Entry.auto_assigned e = true
                       /\ Entry.notes e = "Auto-assigned shift"
                       /\ (Entry.location e = "Office" \/ Entry.location e = "WFH")
                       /\ in_window dates e = true) es).
Proof. exact (auto_assign_cases w dates s). Qed.

Lemma auto_assign_unchanged w dates s :
  users s = []
  \/ fst (assign_all w (selections dates (group_by_subteam (users s))) (ticks s)) = None
  \/ fst (assign_all w (selections dates (group_by_subteam (users s))) (ticks s))
     = Some [] ->
  schedule (_auto_assign_shifts w dates s) = schedule s.
Proof.
  unfold _auto_assign_shifts. intros H.
  destruct (users s) as [|u0 us] eqn:Hu; [reflexivity|].
  destruct (assign_all w _ (ticks s)) as [[[|e es]|] t]; try reflexivity.
  simpl in H. destruct H as [H|[H|H]]; discriminate H.
Qed.

Lemma assign_all_stops w sel t x :
  In x sel ->
  Py.strptime_HM
    (default "09:00"
       (Prefs.preferred_start_time
          (default Prefs.empty (User.preferences (snd (snd x)))))) = None ->
  fst (assign_all w sel t) = None.
Proof.
  intros Hx Hbad. revert t.
  induction sel as [|[[date subteam] [username user]] rest IH]; intros t;
    [destruct Hx|].
  cbn [assign_all].
  destruct (assign_one w date subteam (username, user) t) as [[e|] t1] eqn:E1;
    [|reflexivity].
  destruct Hx as [<- | Hx].
  - unfold assign_one in E1. simpl in Hbad. rewrite Hbad in E1. discriminate E1.
  - specialize (IH Hx t1).
    destruct (assign_all w rest t1) as [[es|] t2]; [discriminate IH | reflexivity].
Qed.

(** X17.  One selected user whose stored start time is not of the form
    [%H:%M] stops the whole run of [_auto_assign_shifts]: the schedule
    stays as it was, for every user and every date. *)
Theorem malformed_start_time_blocks_the_run w dates s x :
  In x (selections dates (group_by_subteam (users s))) ->
  Py.strptime_HM
    (default "09:00"
       (Prefs.preferred_start_time
          (default Prefs.empty (User.preferences (snd (snd x)))))) = None ->
  schedule (_auto_assign_shifts w dates s) = schedule s.
Proof.
  intros Hx Hbad. apply auto_assign_unchanged. right. left.
  exact (assign_all_stops w _ _ x Hx Hbad).
Qed.

Lemma malformed_start_time_witness :
  schedule (_auto_assign_shifts Sample.world [Sample.monday] Cases.dave_only)
  = schedule Cases.dave_only.
Proof.
  apply (malformed_start_time_blocks_the_run Sample.world [Sample.monday]
           Cases.dave_only (Sample.monday, "IT Support", ("dave", Cases.dave))).
  - vm_compute. left. reflexivity.
  - reflexivity.
Defined.

Lemma assign_one_slate w1 w2 date subteam u t1 t2 :
  match fst (assign_one w1 date subteam u t1),
        fst (assign_one w2 date subteam u t2) with
  | Some e1, Some e2 => slate e1 = slate e2
  | None, None => True
  | _, _ => False
  end.
Proof.
  unfold assign_one. destruct u as [username user_data].
  destruct (Py.strptime_HM _); [|exact I].
  destruct (Py.add_to_time _ _); [reflexivity | exact I].
Qed.

Lemma assign_all_slate w1 w2 sel t1 t2 :
  match fst (assign_all w1 sel t1), fst (assign_all w2 sel t2) with
  | Some es1, Some es2 => map slate es1 = map slate es2
  | None, None => True
  | _, _ => False
  end.
Proof.
  revert t1 t2.
  induction sel as [|[[date subteam] u] rest IH]; intros t1 t2; [reflexivity|].
  cbn [assign_all].
  pose proof (assign_one_slate w1 w2 date subteam u t1 t2) as H1.
  destruct (assign_one w1 date subteam u t1) as [[e1|] t1'];
    destruct (assign_one w2 date subteam u t2) as [[e2|] t2'];
    simpl in H1; try contradiction; [|exact I].
  specialize (IH t1' t2').
  destruct (assign_all w1 rest t1') as [[es1|] t1''];
    destruct (assign_all w2 rest t2') as [[es2|] t2''];
    simpl in IH |- *; try contradiction; [|exact I].
  rewrite H1, IH. reflexivity.
Qed.

Lemma auto_assign_users w dates s :
  users (_auto_assign_shifts w dates s) = users s.
Proof.
  unfold _auto_assign_shifts. destruct (users s) eqn:Hu; [exact Hu|].
  destruct (assign_all w _ (ticks s)) as [[[|e es]|] t]; exact Hu.
Qed.

Lemma filter_none {A} (f : A -> bool) (l : list A) :
  Forall (fun x => f x = false) l -> List.filter f l = [].
Proof.
  induction 1 as [|x l Hx _ IH]; simpl; [reflexivity|]. rewrite Hx. exact IH.
Qed.

Lemma filter_all {A} (f : A -> bool) (l : list A) :
  Forall (fun x => f x = true) l -> List.filter f l = l.
Proof.
  induction 1 as [|x l Hx _ IH]; simpl; [reflexivity|]. rewrite Hx, IH. reflexivity.
Qed.

Lemma new_entries_in_window w dates groups t es t' :
  assign_all w (selections dates groups) t = (Some es, t') ->
  Forall (fun e => in_window dates e = true) es.
Proof.
  intros Ha. pose proof (assign_all_entries _ _ _ _ _ Ha) as F.
  eapply Forall_impl; [exact F|].
  intros e' (_ & _ & _ & x & Hx & D).
  apply (in_window_strftime dates (fst (fst x))); [|exact D].
  apply (selections_dates _ _ _ Hx).
Qed.

Lemma rows_clear_dates_twice dates df :
  List.filter (fun e => negb (in_window dates e)) (pd.rows (clear_dates dates df))
  = pd.rows (clear_dates dates df).
Proof. rewrite rows_clear_dates. apply filter_twice. Qed.

(** X18.  Running [_auto_assign_shifts] again on the same dates, with
    whatever clock and random draws, gives the same schedule up to the
    locations drawn and the creation times: the same entries for the
    same users on the same dates with the same hours, in the same
    order, and the entries outside the window as they were. *)
Theorem rerunning_auto_assignment_keeps_the_slate w1 w2 dates s :
  let s1 := _auto_assign_shifts w1 dates s in
  let s2 := _auto_assign_shifts w2 dates s1 in
  map slate (pd.rows (schedule s2)) = map slate (pd.rows (schedule s1)).
Proof.
  intros s1 s2.
  destruct (users s) as [|u0 us] eqn:Hu.
  { subst s2. rewrite auto_assign_unchanged; [reflexivity|].
    left. subst s1. rewrite auto_assign_users. exact Hu. }
  assert (Hu1 : users s1 = users s) by apply auto_assign_users.
  pose proof (assign_all_slate w1 w2
                (selections dates (group_by_subteam (users s)))
                (ticks s) (ticks s1)) as Hs.
  destruct (assign_all w1 _ (ticks s)) as [[[|e es]|] t] eqn:Ha1;
    destruct (assign_all w2 _ (ticks s1)) as [[es2|] t2] eqn:Ha2;
    simpl in Hs; try contradiction.
  - destruct es2; [|discriminate Hs].
    subst s2. rewrite auto_assign_unchanged; [reflexivity|].
    right. right. rewrite Hu1, Ha2. reflexivity.
  - destruct es2 as [|e2 es2]; [discriminate Hs|].
    assert (R1 : pd.rows (schedule s1)
                 = pd.rows (clear_dates dates (schedule s)) ++ e :: es).
    { apply (auto_assign_rows w1 dates s e es t); [rewrite Hu; discriminate | exact Ha1]. }
    assert (R2 : pd.rows (schedule s2)
                 = pd.rows (clear_dates dates (schedule s1)) ++ e2 :: es2).
    { apply (auto_assign_rows w2 dates s1 e2 es2 t2).
      - rewrite Hu1, Hu. discriminate.
      - rewrite Hu1. exact Ha2. }
    rewrite R2, R1, rows_clear_dates, R1, List.filter_app, rows_clear_dates_twice.
    rewrite (filter_none _ (e :: es)).
    + change (map slate (e :: es) = map slate (e2 :: es2)) in Hs.
      rewrite app_nil_r, !map_app, Hs. reflexivity.
    + pose proof (new_entries_in_window _ _ _ _ _ _ Ha1) as F.
      eapply Forall_impl; [exact F|]. intros a Ha. simpl. rewrite Ha. reflexivity.
  - subst s2. rewrite auto_assign_unchanged; [reflexivity|].
    right. left. rewrite Hu1, Ha2. reflexivity.
Qed.

(** ** Auto-assignment: how many entries a run creates *)

Lemma select_users_length date (team : roster) :
  team <> [] ->
  length (select_users date team)
  = Z.to_nat (members_per_day (Z.of_nat (length team))).
Proof.
  intros Hne. unfold select_users. rewrite omap_total_length.
  - apply length_seqZ.
  - intros i _. apply rotation_in_range. exact Hne.
Qed.

Lemma day_selection_length date (groups : list (string * roster)) :
  Forall (fun g => snd g <> []) groups ->
  length (flat_map
            (fun g => map (fun u => (date, fst g, u)) (select_users date (snd g)))
            groups)
  = daily_cover groups.
Proof.
  induction 1 as [|g groups Hg _ IH]; [reflexivity|].
  simpl. rewrite length_app, length_map, select_users_length, IH by exact Hg.
  reflexivity.
Qed.

Lemma selections_length dates (groups : list (string * roster)) :
  Forall (fun g => snd g <> []) groups ->
  length (selections dates groups) = (length dates * daily_cover groups)%nat.
Proof.
  intros Hg. unfold selections. induction dates as [|d dates IH]; [reflexivity|].
  simpl. rewrite length_app, day_selection_length, IH by exact Hg. reflexivity.
Qed.

Lemma group_add_all (P : string * User.t -> Prop) subteam u groups :
  P u ->
  Forall (fun g => Forall P (snd g)) groups ->
  Forall (fun g => Forall P (snd g)) (group_add subteam u groups).
Proof.
  intros Hu. induction 1 as [|[k members] rest Hk Hrest IH]; simpl.
  - repeat constructor. exact Hu.
  - simpl in Hk. destruct (String.eqb k subteam); constructor; simpl; auto.
    apply Forall_app. split; [exact Hk | repeat constructor; exact Hu].
Qed.

Lemma groups_all (P : string * User.t -> Prop) (us : roster) :
  Forall P us -> Forall (fun g => Forall P (snd g)) (group_by_subteam us).
Proof.
  unfold group_by_subteam.
  assert (G : forall groups : list (string * roster),
             Forall (fun g => Forall P (snd g)) groups ->
             Forall P us ->
             Forall (fun g => Forall P (snd g))
                    (fold_left (fun groups u =>
                                  group_add (User.subteam (snd u)) u groups)
                               us groups)).
  { induction us as [|u us IH]; intros groups Hg Hus; [exact Hg|].
    simpl. inversion Hus; subst. apply IH; [|assumption].
    apply group_add_all; assumption. }
  intros Hus. apply G; [constructor | exact Hus].
Qed.

Lemma select_users_all (P : string * User.t -> Prop) date (team : roster) :
  Forall P team -> Forall P (select_users date team).
Proof.
  intros Ht. apply List.Forall_forall. intros x Hx.
  apply list_elem_of_In in Hx. unfold select_users in Hx.
  apply list_elem_of_omap in Hx as (i & _ & Hi).
  apply list_elem_of_lookup_2, list_elem_of_In in Hi.
  rewrite List.Forall_forall in Ht. apply Ht. exact Hi.
Qed.

Lemma selections_all (P : string * User.t -> Prop) dates groups :
  Forall (fun g => Forall P (snd g)) groups ->
  Forall (fun x => P (snd x)) (selections dates groups).
Proof.
  intros Hg. apply List.Forall_forall. intros x Hx.
  unfold selections in Hx. apply in_flat_map in Hx as (d & _ & Hx).
  apply in_flat_map in Hx as (g & Hin & Hx).
  apply in_map_iff in Hx as (u & <- & Hu). simpl.
  rewrite List.Forall_forall in Hg. specialize (Hg g Hin).
  apply (select_users_all P d) in Hg.
  rewrite List.Forall_forall in Hg. apply Hg. exact Hu.
Qed.

Lemma assign_all_defaults w sel t :
  Forall (fun x => no_time_preferences (snd (snd x))) sel ->
  exists es t', assign_all w sel t = (Some es, t').
Proof.
  intros H. revert t.
  induction H as [|[[date subteam] [username user]] rest Hx _ IH]; intros t.
  - exists [], t. reflexivity.
  - simpl in Hx.
    destruct (assign_one_defaults w date subteam username user t Hx)
      as (e & He & _).
    destruct (IH (3 + t)%nat) as (es & t' & Hes).
    exists (e :: es), t'. cbn [assign_all]. rewrite He, Hes. reflexivity.
Qed.

Lemma assign_all_length w sel t es t' :
  assign_all w sel t = (Some es, t') -> length es = length sel.
Proof.
  intros H. apply assign_all_members in H.
  apply (f_equal (@length _)) in H. rewrite !length_map in H. exact H.
Qed.

Lemma group_add_not_nil subteam u groups : group_add subteam u groups <> [].
Proof.
  destruct groups as [|[k members] rest]; simpl; [discriminate|].
  destruct (String.eqb k subteam); discriminate.
Qed.

Lemma groups_not_nil (us : roster) : us <> [] -> group_by_subteam us <> [].
Proof.
  unfold group_by_subteam.
  assert (G : forall (l : roster) (groups : list (string * roster)),
             groups <> [] ->
             fold_left (fun groups u => group_add (User.subteam (snd u)) u groups)
                       l groups <> []).
  { induction l as [|u l IH]; intros groups Hg; [exact Hg|].
    simpl. apply IH. apply group_add_not_nil. }
  destruct us as [|u us]; [contradiction|]. intros _.
  simpl. apply G. discriminate.
Qed.

Lemma daily_cover_pos (groups : list (string * roster)) :
  groups <> [] -> (0 < daily_cover groups)%nat.
Proof.
  destruct groups as [|g groups]; [contradiction|]. intros _. simpl.
  unfold members_per_day. lia.
Qed.

Lemma filter_complement {A} (f : A -> bool) (l : list A) :
  List.filter f (List.filter (fun x => negb (f x)) l) = [].
Proof.
  induction l as [|x l IH]; simpl; [reflexivity|].
  destruct (f x) eqn:E; simpl; [|rewrite E]; exact IH.
Qed.

(** X19.  When no user has stored time preferences, a run of
    [_auto_assign_shifts] cannot fail, and afterwards the schedule holds
    on the given dates exactly the new entries: for every date and
    every team, max(1, size / 5) of them, whatever was planned on those
    dates before. *)
Theorem auto_assign_fills_the_window w dates s :
  users s <> [] ->
  Forall (fun u => no_time_preferences (snd u)) (users s) ->
  length (List.filter (in_window dates)
                      (pd.rows (schedule (_auto_assign_shifts w dates s))))
  = (length dates * daily_cover (group_by_subteam (users s)))%nat.
Proof.
  intros Hne Hall.
  pose proof (selections_all _ dates _ (groups_all _ _ Hall)) as Hsel.
  destruct (assign_all_defaults w _ (ticks s) Hsel) as (es & t' & Ha).
  pose proof (assign_all_length _ _ _ _ _ Ha) as Hlen.
  rewrite selections_length in Hlen by apply groups_nonempty.
  rewrite <- Hlen.
  destruct es as [|e es].
  - pose proof (daily_cover_pos _ (groups_not_nil _ Hne)) as Hpos.
    assert (dates = []) as -> by (destruct dates; [reflexivity | simpl in Hlen; lia]).
    rewrite filter_none; [reflexivity|].
    apply List.Forall_forall. intros; reflexivity.
  - rewrite (auto_assign_rows w dates s e es t' Hne Ha), rows_clear_dates.
    rewrite List.filter_app, filter_complement, filter_all; [reflexivity|].
    exact (new_entries_in_window _ _ _ _ _ _ Ha).
Qed.

Lemma auto_assign_fills_the_window_witness :
  length (List.filter (in_window [Sample.monday])
            (pd.rows (schedule (_auto_assign_shifts Sample.world [Sample.monday]
                                                    Sample.office))))
  = (length [Sample.monday]
     * daily_cover (group_by_subteam (users Sample.office)))%nat.
Proof.
  apply (auto_assign_fills_the_window Sample.world [Sample.monday] Sample.office).
  - discriminate.
  - repeat constructor.
Defined.

(** ** The calendar and the weeks handed to the auto-assignment *)

Lemma days_before_year_succ y :
  Py.days_before_year (y + 1)
  = Py.days_before_year y + 365 + (if Py.is_leap y then 1 else 0).
Proof.
  unfold Py.days_before_year, Py.is_leap.
  replace (y + 1 - 1) with y by lia.
  destruct (Z.eqb_spec (y mod 4) 0), (Z.eqb_spec (y mod 100) 0),
    (Z.eqb_spec (y mod 400) 0); cbn [negb orb andb];
    Z.div_mod_to_equations; lia.
Qed.

Lemma days_before_year_nonneg y : 1 <= y -> 0 <= Py.days_before_year y.
Proof. unfold Py.days_before_year. intros. Z.div_mod_to_equations. lia. Qed.

Lemma month_cases m :
  1 <= m <= 12 ->
  m = 1 \/ m = 2 \/ m = 3 \/ m = 4 \/ m = 5 \/ m = 6 \/ m = 7 \/ m = 8
  \/ m = 9 \/ m = 10 \/ m = 11 \/ m = 12.
Proof. lia. Qed.

Ltac by_month H :=
  apply month_cases in H;
  repeat (destruct H as [H | H]); subst.

Lemma days_in_month_range y m :
  1 <= m <= 12 -> 28 <= Py.days_in_month y m <= 31.
Proof.
  intros H. unfold Py.days_in_month. by_month H; destruct (Py.is_leap y);
    simpl; lia.
Qed.

Lemma days_before_month_succ y m :
  1 <= m <= 11 ->
  Py.days_before_month y (m + 1) = Py.days_before_month y m + Py.days_in_month y m.
Proof.
  intros H. assert (H' : 1 <= m <= 12) by lia.
  unfold Py.days_before_month, Py.days_in_month.
  by_month H'; try lia; destruct (Py.is_leap y); simpl; lia.
Qed.

Lemma days_before_december y :
  Py.days_before_month y 12 + 31 = 365 + (if Py.is_leap y then 1 else 0).
Proof. unfold Py.days_before_month. destruct (Py.is_leap y); simpl; lia. Qed.

Lemma toordinal_pos d : valid_date d -> 1 <= Py.toordinal d.
Proof.
  intros (Hy & Hm & Hd). unfold Py.toordinal.
  pose proof (days_before_year_nonneg _ Hy).
  assert (0 <= Py.days_before_month (Py.year d) (Py.month d)).
  { unfold Py.days_before_month. by_month Hm; rewrite Hm;
      destruct (Py.is_leap (Py.year d)); simpl; lia. }
  lia.
Qed.

Lemma next_day_spec d :
  valid_date d ->
  valid_date (Py.next_day d) /\ Py.toordinal (Py.next_day d) = Py.toordinal d + 1.
Proof.
  destruct d as [y m dd]. unfold valid_date, Py.next_day, Py.toordinal.
  cbn [Py.year Py.month Py.day]. intros (Hy & Hm & Hd).
  destruct (Z.ltb_spec dd (Py.days_in_month y m)); cbn [Py.year Py.month Py.day].
  - repeat split; lia.
  - destruct (Z.ltb_spec m 12); cbn [Py.year Py.month Py.day].
    + pose proof (days_in_month_range y (m + 1)).
      rewrite days_before_month_succ by lia. repeat split; lia.
    + assert (m = 12) as -> by lia.
      pose proof (days_before_december y).
      rewrite days_before_year_succ.
      change (Py.days_in_month (y + 1) 1) with 31.
      change (Py.days_before_month (y + 1) 1) with 0.
      change (Py.days_in_month y 12) with 31 in *.
      repeat split; lia.
Qed.

Lemma prev_day_spec d :
  valid_date d -> 1 < Py.toordinal d ->
  valid_date (Py.prev_day d) /\ Py.toordinal (Py.prev_day d) = Py.toordinal d - 1.
Proof.
  destruct d as [y m dd]. unfold valid_date, Py.prev_day, Py.toordinal.
  cbn [Py.year Py.month Py.day]. intros (Hy & Hm & Hd) Hord.
  destruct (Z.ltb_spec 1 dd); cbn [Py.year Py.month Py.day].
  - repeat split; lia.
  - destruct (Z.ltb_spec 1 m); cbn [Py.year Py.month Py.day].
    + pose proof (days_in_month_range y (m - 1)).
      pose proof (days_before_month_succ y (m - 1)) as E.
      replace (m - 1 + 1) with m in E by lia.
      rewrite E by lia. repeat split; lia.
    + assert (m = 1) as -> by lia. assert (dd = 1) as -> by lia.
      change (Py.days_before_month y 1) with 0 in *.
      change (Py.days_in_month (y - 1) 12) with 31.
      pose proof (days_before_december (y - 1)).
      pose proof (days_before_year_succ (y - 1)) as E.
      replace (y - 1 + 1) with y in E by lia.
      assert (y <> 1) by (intros ->; vm_compute in Hord; discriminate).
      repeat split; lia.
Qed.

Lemma iter_next_day n d :
  valid_date d ->
  valid_date (Nat.iter n Py.next_day d)
  /\ Py.toordinal (Nat.iter n Py.next_day d) = Py.toordinal d + Z.of_nat n.
Proof.
  intros Hd. induction n as [|n [IH1 IH2]]; [split; [exact Hd | simpl; lia]|].
  change (Nat.iter (S n) Py.next_day d)
    with (Py.next_day (Nat.iter n Py.next_day d)).
  destruct (next_day_spec _ IH1). split; [assumption | lia].
Qed.

Lemma iter_prev_day n d :
  valid_date d -> Z.of_nat n < Py.toordinal d ->
  valid_date (Nat.iter n Py.prev_day d)
  /\ Py.toordinal (Nat.iter n Py.prev_day d) = Py.toordinal d - Z.of_nat n.
Proof.
  intros Hd. induction n as [|n IH]; intros Hn; [split; [exact Hd | simpl; lia]|].
  destruct IH as [IH1 IH2]; [lia|].
  change (Nat.iter (S n) Py.prev_day d)
    with (Py.prev_day (Nat.iter n Py.prev_day d)).
  destruct (prev_day_spec _ IH1); [lia|]. split; [assumption | lia].
Qed.

Lemma add_days_spec d n :
  valid_date d -> 1 <= Py.toordinal d + n ->
  valid_date (Py.add_days d n) /\ Py.toordinal (Py.add_days d n) = Py.toordinal d + n.
Proof.
  intros Hd Hn. unfold Py.add_days. destruct (Z.leb_spec 0 n).
  - destruct (iter_next_day (Z.to_nat n) d Hd). split; [assumption | lia].
  - destruct (iter_prev_day (Z.to_nat (- n)) d Hd); [lia|].
    split; [assumption | lia].
Qed.

Lemma toordinal_bound d :
  valid_date d -> Py.year d < 9999 -> Py.toordinal d + 11 <= Py.max_ordinal.
Proof.
  intros (Hy & Hm & Hd) Hlt. unfold Py.toordinal, Py.max_ordinal.
  pose proof (days_in_month_range (Py.year d) (Py.month d) Hm).
  assert (Py.days_before_month (Py.year d) (Py.month d) <= 335).
  { unfold Py.days_before_month. by_month Hm; rewrite Hm;
      destruct (Py.is_leap (Py.year d)); simpl; lia. }
  assert (Py.days_before_year (Py.year d) <= 3651500).
  { unfold Py.days_before_year. Z.div_mod_to_equations. lia. }
  lia.
Qed.

Lemma date_add_in_range d n :
  1 <= Py.toordinal d + n <= Py.max_ordinal ->
  Py.date_add d n = Some (Py.add_days d n).
Proof.
  intros H. unfold Py.date_add.
  destruct (Z.leb_spec 1 (Py.toordinal d + n)),
    (Z.leb_spec (Py.toordinal d + n) Py.max_ordinal); try lia. reflexivity.
Qed.

Lemma date_add_overflow d n :
  Py.max_ordinal < Py.toordinal d + n -> Py.date_add d n = None.
Proof.
  intros H. unfold Py.date_add.
  destruct (Z.leb_spec (Py.toordinal d + n) Py.max_ordinal); [lia|].
  rewrite andb_false_r. reflexivity.
Qed.

Lemma week_from_spec monday :
  valid_date monday -> Py.weekday monday = 0 ->
  Py.toordinal monday + 4 <= Py.max_ordinal ->
  exists week,
    week_from monday = Some week
    /\ Forall valid_date week
    /\ map Py.weekday week = [0; 1; 2; 3; 4]
    /\ map Py.toordinal week
       = map (fun i => Py.toordinal monday + i) [0; 1; 2; 3; 4].
Proof.
  intros Hv Hw Hmax. pose proof (toordinal_pos _ Hv) as Hp.
  assert (A : forall i, 0 <= i <= 4 ->
                Py.date_add monday i = Some (Py.add_days monday i)
                /\ valid_date (Py.add_days monday i)
                /\ Py.toordinal (Py.add_days monday i) = Py.toordinal monday + i
                /\ Py.weekday (Py.add_days monday i) = i).
  { intros i Hi. destruct (add_days_spec monday i Hv) as [V O]; [lia|].
    split; [apply date_add_in_range; lia|].
    split; [exact V | split; [exact O|]].
    unfold Py.weekday in *. rewrite O. Z.div_mod_to_equations. lia. }
  destruct (A 0) as (D0 & V0 & O0 & W0); [lia|].
  destruct (A 1) as (D1 & V1 & O1 & W1); [lia|].
  destruct (A 2) as (D2 & V2 & O2 & W2); [lia|].
  destruct (A 3) as (D3 & V3 & O3 & W3); [lia|].
  destruct (A 4) as (D4 & V4 & O4 & W4); [lia|].
  exists (map (Py.add_days monday) [0; 1; 2; 3; 4]).
  split.
  - unfold week_from. change (seqZ 0 5) with [0; 1; 2; 3; 4].
    apply mapM_Some. cbn [map].
    repeat (apply List.Forall2_cons; [assumption|]). apply List.Forall2_nil.
  - cbn [map]. rewrite W0, W1, W2, W3, W4, O0, O1, O2, O3, O4.
    split; [|split; reflexivity].
    repeat (apply List.Forall_cons; [assumption|]). apply List.Forall_nil.
Qed.

(** X20.  For every date of the calendar before the year 9999,
    [_get_current_week_dates] and [_get_next_week_dates] raise nothing;
    the first gives the Monday on or before that date and the four days
    after it, the second the same five days one week later: ten
    calendar dates, Monday to Friday twice. *)
Theorem week_dates_are_monday_to_friday today :
  valid_date today -> Py.year today < 9999 ->
  let monday := Py.toordinal today - Py.weekday today in
  exists current_week next_week,
    _get_current_week_dates today = Some current_week
    /\ _get_next_week_dates today = Some next_week
    /\ Forall valid_date (current_week ++ next_week)
    /\ map Py.weekday current_week = [0; 1; 2; 3; 4]
    /\ map Py.weekday next_week = [0; 1; 2; 3; 4]
    /\ map Py.toordinal current_week
       = map (fun i => monday + i) [0; 1; 2; 3; 4]
    /\ map Py.toordinal next_week
       = map (fun i => monday + 7 + i) [0; 1; 2; 3; 4].
Proof.
  intros Hv Hlt monday. pose proof (toordinal_pos _ Hv) as Hp.
  pose proof (toordinal_bound _ Hv Hlt) as Hb.
  assert (Hw : 0 <= Py.weekday today <= 6 /\ Py.weekday today < Py.toordinal today).
  { unfold Py.weekday. Z.div_mod_to_equations. lia. }
  destruct (add_days_spec today (- Py.weekday today) Hv) as [V1 O1]; [lia|].
  assert (W1 : Py.weekday (Py.add_days today (- Py.weekday today)) = 0).
  { unfold Py.weekday in *. rewrite O1. Z.div_mod_to_equations. lia. }
  destruct (add_days_spec _ 7 V1) as [V2 O2]; [lia|].
  assert (W2 : Py.weekday
                 (Py.add_days (Py.add_days today (- Py.weekday today)) 7) = 0).
  { unfold Py.weekday in *. rewrite O2, O1. Z.div_mod_to_equations. lia. }
  destruct (week_from_spec _ V1 W1) as (week & E1 & A1 & B1 & C1); [lia|].
  destruct (week_from_spec _ V2 W2) as (next & E2 & A2 & B2 & C2); [lia|].
  exists week, next.
  unfold _get_current_week_dates, _get_next_week_dates.
  rewrite (date_add_in_range today (- Py.weekday today)) by lia.
  cbn [mbind option_bind].
  rewrite (date_add_in_range _ 7) by lia. cbn [mbind option_bind].
  split; [exact E1|]. split; [exact E2|].
  split; [apply Forall_app; split; assumption|].
  split; [exact B1|]. split; [exact B2|].
  rewrite C1, C2, O2, O1. subst monday.
  split; apply map_ext; intros; lia.
Qed.

Lemma week_dates_witness :
  exists current_week next_week,
    _get_current_week_dates (Py.mk_date 2026 11 5) = Some current_week
    /\ _get_next_week_dates (Py.mk_date 2026 11 5) = Some next_week
    /\ map Py.weekday current_week = [0; 1; 2; 3; 4]
    /\ map Py.toordinal next_week
       = map (fun i => Py.toordinal (Py.mk_date 2026 11 5)
                       - Py.weekday (Py.mk_date 2026 11 5) + 7 + i) [0; 1; 2; 3; 4].
Proof.
  assert (V : valid_date (Py.mk_date 2026 11 5)) by (vm_compute; intuition discriminate).
  assert (Y : Py.year (Py.mk_date 2026 11 5) < 9999) by (simpl; lia).
  destruct (week_dates_are_monday_to_friday (Py.mk_date 2026 11 5) V Y)
    as (week & next & E1 & E2 & _ & A & _ & _ & B).
  exists week, next. repeat split; assumption.
Defined.

(** ** The dates of a month *)

Lemma iter_next_day_within y m d0 n :
  d0 + Z.of_nat n <= Py.days_in_month y m ->
  Nat.iter n Py.next_day (Py.mk_date y m d0) = Py.mk_date y m (d0 + Z.of_nat n).
Proof.
  induction n as [|n IH]; intros H.
  - simpl. rewrite Z.add_0_r. reflexivity.
  - change (Nat.iter (S n) Py.next_day (Py.mk_date y m d0))
      with (Py.next_day (Nat.iter n Py.next_day (Py.mk_date y m d0))).
    rewrite IH by lia. unfold Py.next_day. cbn [Py.year Py.month Py.day].
    destruct (Z.ltb_spec (d0 + Z.of_nat n) (Py.days_in_month y m)); [|lia].
    f_equal. lia.
Qed.

Lemma map_seqZ_shift {A} (f g : Z -> A) (a b n : Z) :
  (forall i, 0 <= i < n -> f (a + i) = g (b + i)) ->
  map f (seqZ a n) = map g (seqZ b n).
Proof.
  destruct (Z.le_gt_cases n 0) as [Hn|Hn].
  { intros _. rewrite !seqZ_nil by exact Hn. reflexivity. }
  rewrite <- (Z2Nat.id n) by lia. clear Hn.
  generalize (Z.to_nat n) as k. clear n. intros k. revert a b.
  induction k as [|k IH]; intros a b H; [reflexivity|].
  rewrite !(seqZ_cons _ (Z.of_nat (S k))) by lia. simpl map.
  f_equal.
  - specialize (H 0). rewrite !Z.add_0_r in H. apply H. lia.
  - replace (Z.pred (Z.of_nat (S k))) with (Z.of_nat k) by lia.
    apply IH. intros i Hi. specialize (H (1 + i)).
    replace (Z.succ a + i) with (a + (1 + i)) by lia.
    replace (Z.succ b + i) with (b + (1 + i)) by lia. apply H. lia.
Qed.

Lemma checked_date_valid y m d :
  1 <= y <= 9999 -> 1 <= m <= 12 -> 1 <= d <= Py.days_in_month y m ->
  checked_date y m d = Some (Py.mk_date y m d).
Proof.
  intros Hy Hm Hd. unfold checked_date.
  destruct (Z.leb_spec 1 y), (Z.leb_spec y 9999), (Z.leb_spec 1 m),
    (Z.leb_spec m 12), (Z.leb_spec 1 d), (Z.leb_spec d (Py.days_in_month y m));
    try lia. reflexivity.
Qed.

Lemma next_month_ordinal y m :
  1 <= y -> 1 <= m <= 12 ->
  let next := if m =? 12 then Py.mk_date (y + 1) 1 1 else Py.mk_date y (m + 1) 1 in
  valid_date next
  /\ Py.toordinal next = Py.toordinal (Py.mk_date y m 1) + Py.days_in_month y m.
Proof.
  intros Hy Hm next. subst next. unfold Py.toordinal, valid_date.
  destruct (Z.eqb_spec m 12) as [->|Hne]; cbn [Py.year Py.month Py.day].
  - change (Py.days_in_month (y + 1) 1) with 31.
    change (Py.days_before_month (y + 1) 1) with 0.
    change (Py.days_in_month y 12) with 31.
    pose proof (days_before_december y). rewrite days_before_year_succ.
    repeat split; lia.
  - pose proof (days_in_month_range y (m + 1)).
    rewrite days_before_month_succ by lia. repeat split; lia.
Qed.

(** X28.  [_get_month_dates] gives the days of the month, from the
    first to the last, in order: 28 to 31 dates, 29 for the February
    of a leap year.  This holds for every month of the years 1 to
    9999 except December 9999, where the first day of the next month
    does not exist. *)
Theorem month_dates_are_the_days_of_the_month year month :
  1 <= year <= 9999 -> 1 <= month <= 12 -> (year = 9999 -> month <> 12) ->
  _get_month_dates year month
  = Some (map (Py.mk_date year month) (seqZ 1 (Py.days_in_month year month))).
Proof.
  intros Hy Hm Hlast. unfold _get_month_dates.
  pose proof (days_in_month_range year month Hm) as Hdim.
  rewrite (checked_date_valid year month 1) by lia. cbn [mbind option_bind].
  destruct (next_month_ordinal year month) as [Hv Ho]; [lia | lia |].
  assert (Hn : (if month =? 12 then checked_date (year + 1) 1 1
                else checked_date year (month + 1) 1)
               = Some (if month =? 12 then Py.mk_date (year + 1) 1 1
                       else Py.mk_date year (month + 1) 1)).
  { destruct (Z.eqb_spec month 12) as [->|Hne].
    - apply checked_date_valid; [lia | lia |].
      change (Py.days_in_month (year + 1) 1) with 31. lia.
    - pose proof (days_in_month_range year (month + 1)).
      apply checked_date_valid; lia. }
  rewrite Hn. cbn [mbind option_bind]. clear Hn.
  set (next := if month =? 12 then Py.mk_date (year + 1) 1 1
               else Py.mk_date year (month + 1) 1) in *.
  assert (Hp : 1 <= Py.toordinal (Py.mk_date year month 1)).
  { apply toordinal_pos. unfold valid_date. cbn [Py.year Py.month Py.day]. lia. }
  destruct (add_days_spec next (- 1) Hv) as [_ Hl]; [lia|].
  rewrite Hl, Ho.
  replace (Py.toordinal (Py.mk_date year month 1) + Py.days_in_month year month
           + - 1 - Py.toordinal (Py.mk_date year month 1) + 1)
    with (Py.days_in_month year month) by lia.
  f_equal. apply map_seqZ_shift. intros i Hi.
  unfold Py.add_days. destruct (Z.leb_spec 0 (0 + i)); [|lia].
  rewrite iter_next_day_within by lia. f_equal. lia.
Qed.

Lemma month_dates_witness :
  _get_month_dates 2024 2
  = Some (map (Py.mk_date 2024 2) (seqZ 1 (Py.days_in_month 2024 2))).
Proof.
  apply month_dates_are_the_days_of_the_month; [lia | lia | intros; lia].
Defined.

(** ** Administration: departments *)

Lemma listed_In x l : listed x l = true <-> In x l.
Proof.
  unfold listed. rewrite existsb_exists. split.
  - intros (y & Hy & E). apply String.eqb_eq in E. subst. exact Hy.
  - intros H. exists x. split; [exact H | apply String.eqb_refl].
Qed.

Lemma not_listed_In x l : listed x l = false <-> ~ In x l.
Proof.
  rewrite <- listed_In. destruct (listed x l); split; intros; congruence.
Qed.

Lemma In_replace_first old new l x :
  List.NoDup l -> In old l ->
  In x (replace_first old new l) <-> x = new \/ (In x l /\ x <> old).
Proof.
  induction l as [|y r IH]; intros Hnd Hin; [destruct Hin|].
  apply List.NoDup_cons_iff in Hnd as [Hy Hr]. simpl.
  destruct (String.eqb_spec y old) as [->|Hne].
  - simpl. split.
    + intros [<-|H]; [left; reflexivity|].
      right. split; [right; exact H | intros ->; contradiction].
    + intros [->|[[->|H] Hx]]; [left; reflexivity | contradiction | right; exact H].
  - destruct Hin as [->|Hin]; [contradiction|].
    simpl. rewrite (IH Hr Hin). split.
    + intros [<-|[->|[H Hx]]]; [right; split; [left; reflexivity | exact Hne] | auto |].
      right. split; [right; exact H | exact Hx].
    + intros [->|[[<-|H] Hx]]; auto.
Qed.

Lemma NoDup_replace_first old new l :
  List.NoDup l -> In old l -> ~ In new l -> List.NoDup (replace_first old new l).
Proof.
  induction l as [|y r IH]; intros Hnd Hin Hnew; [destruct Hin|].
  apply List.NoDup_cons_iff in Hnd as [Hy Hr]. simpl.
  destruct (String.eqb_spec y old) as [->|Hne].
  - apply List.NoDup_cons_iff. split; [|exact Hr].
    intros H. apply Hnew. right. exact H.
  - destruct Hin as [->|Hin]; [contradiction|].
    apply List.NoDup_cons_iff. split.
    + rewrite (In_replace_first old new r y Hr Hin).
      intros [->|[H _]]; [apply Hnew; left; reflexivity | contradiction].
    + apply IH; [exact Hr | exact Hin |]. intros H. apply Hnew. right. exact H.
Qed.

Lemma In_remove_first x l y :
  List.NoDup l -> In y (remove_first x l) <-> In y l /\ y <> x.
Proof.
  induction l as [|z r IH]; intros Hnd; [simpl; tauto|].
  apply List.NoDup_cons_iff in Hnd as [Hz Hr]. simpl.
  destruct (String.eqb_spec z x) as [->|Hne].
  - split.
    + intros H. split; [right; exact H | intros ->; contradiction].
    + intros [[->|H] Hy]; [contradiction | exact H].
  - simpl. rewrite (IH Hr). split.
    + intros [<-|[H Hy]]; [split; [left; reflexivity | exact Hne] | auto].
    + intros [[<-|H] Hy]; auto.
Qed.

Lemma NoDup_remove_first x l : List.NoDup l -> List.NoDup (remove_first x l).
Proof.
  induction l as [|z r IH]; intros Hnd; [exact Hnd|].
  pose proof Hnd as Hnd'. apply List.NoDup_cons_iff in Hnd as [Hz Hr]. simpl.
  destruct (String.eqb_spec z x) as [->|Hne]; [exact Hr|].
  apply List.NoDup_cons_iff. split; [|apply IH; exact Hr].
  rewrite (In_remove_first x r z Hr). tauto.
Qed.

Lemma NoDup_snoc {A} (x : A) (l : list A) :
  List.NoDup l -> ~ In x l -> List.NoDup (l ++ [x]).
Proof.
  induction l as [|y r IH]; intros Hnd Hx; simpl.
  - constructor; [intros [] | constructor].
  - apply List.NoDup_cons_iff in Hnd as [Hy Hr].
    apply List.NoDup_cons_iff. split.
    + intros H. apply in_app_or in H as [H|[->|[]]]; [contradiction|].
      apply Hx. left. reflexivity.
    + apply IH; [exact Hr|]. intros H. apply Hx. right. exact H.
Qed.

Lemma reassign_users_subteam dept new (us : list (string * User.t)) :
  Forall2 (fun p p' =>
             fst p' = fst p
             /\ User.subteam (snd p')
                = (if String.eqb (User.subteam (snd p)) dept then new
                   else User.subteam (snd p)))
          us (reassign_users dept new us).
Proof.
  induction us as [|p us IH]; simpl; constructor; [|exact IH].
  destruct (String.eqb (User.subteam (snd p)) dept) eqn:E; simpl;
    rewrite ?E; auto.
Qed.

Lemma reassign_users_names dept new us :
  map fst (reassign_users dept new us) = map fst us.
Proof.
  unfold reassign_users. rewrite map_map. apply map_ext.
  intros p. destruct (String.eqb _ _); reflexivity.
Qed.

Lemma reassign_users_empties dept new us :
  new <> dept ->
  Forall (fun p => User.subteam (snd p) <> dept) (reassign_users dept new us).
Proof.
  intros Hne. unfold reassign_users. apply Forall_map.
  apply List.Forall_forall. intros p _.
  destruct (String.eqb_spec (User.subteam (snd p)) dept); simpl; auto.
Qed.

Lemma reassign_entries_empties dept new (df : pd.DataFrame Entry.t) :
  new <> dept ->
  Forall (fun e => Entry.subteam e <> dept) (pd.rows (reassign_entries dept new df)).
Proof.
  intros Hne. unfold pd.rows, reassign_entries. rewrite map_map.
  apply Forall_map. apply List.Forall_forall. intros p _.
  destruct (String.eqb_spec (Entry.subteam (snd p)) dept); simpl; auto.
Qed.

Lemma reassign_entries_index dept new (df : pd.DataFrame Entry.t) :
  pd.index (reassign_entries dept new df) = pd.index df.
Proof.
  unfold pd.index, reassign_entries. rewrite map_map. apply map_ext.
  intros p. destruct (String.eqb _ _); reflexivity.
Qed.

Lemma reassign_users_listed dept new (l l' : list string) us :
  (forall x, In x l -> x <> dept -> In x l') -> In new l' ->
  Forall (fun p => In (User.subteam (snd p)) l) us ->
  Forall (fun p => In (User.subteam (snd p)) l') (reassign_users dept new us).
Proof.
  intros Hl Hnew H. unfold reassign_users. apply Forall_map.
  eapply Forall_impl; [exact H|]. intros p Hp.
  destruct (String.eqb_spec (User.subteam (snd p)) dept); simpl; auto.
Qed.

Lemma filter_nil_none {A} (f : A -> bool) (l : list A) :
  List.filter f l = [] -> Forall (fun x => f x = false) l.
Proof.
  induction l as [|x l IH]; simpl; [constructor|].
  destruct (f x) eqn:E; [discriminate|]. constructor; auto.
Qed.

(** X21.  The three department handlers keep the directory sound: whenever
    every user belongs to a listed department and no department is
    listed twice, the same holds after "Add Department", after "Save
    Changes" on a department and after its deletion, whatever the names
    typed and whatever the exit. *)
Theorem department_handlers_keep_the_directory SUBTEAMS s :
  departments_ok SUBTEAMS s ->
  (forall dept_name,
      departments_ok (snd (fst (_show_add_dept_form dept_name SUBTEAMS s)))
                     (snd (_show_add_dept_form dept_name SUBTEAMS s)))
  /\ (forall dept_name new_dept_name,
         departments_ok
           (snd (fst (_show_edit_dept_form dept_name new_dept_name SUBTEAMS s)))
           (snd (_show_edit_dept_form dept_name new_dept_name SUBTEAMS s)))
  /\ (forall dept_name choice,
         departments_ok
           (snd (fst (_show_delete_dept_confirm dept_name choice SUBTEAMS s)))
           (snd (_show_delete_dept_confirm dept_name choice SUBTEAMS s))).
Proof.
  intros [Hnd Hus]. split; [|split].
  - intros dept. unfold _show_add_dept_form.
    destruct (String.eqb dept ""); [split; assumption|].
    destruct (listed dept SUBTEAMS) eqn:L; [split; assumption|].
    apply not_listed_In in L. split; simpl.
    + apply NoDup_snoc; assumption.
    + eapply Forall_impl; [exact Hus|]. intros p Hp. apply in_or_app. auto.
  - intros dept new. unfold _show_edit_dept_form.
    destruct (listed dept SUBTEAMS) eqn:L; [|split; assumption].
    apply listed_In in L. cbn [negb].
    destruct (String.eqb new ""); [split; assumption|].
    destruct (String.eqb_spec new dept) as [->|Hne]; cbn [negb andb];
      [split; assumption|].
    destruct (listed new SUBTEAMS) eqn:L'; [split; assumption|].
    apply not_listed_In in L'. split; simpl.
    + apply NoDup_replace_first; assumption.
    + apply (reassign_users_listed dept new SUBTEAMS); [| |exact Hus].
      * intros x Hx Hxd. apply In_replace_first; auto.
      * apply In_replace_first; auto.
  - intros dept choice. unfold _show_delete_dept_confirm.
    destruct (listed dept SUBTEAMS) eqn:L; [|split; assumption].
    apply listed_In in L. cbn [negb].
    assert (Hrm : forall x, In x SUBTEAMS -> x <> dept ->
                            In x (remove_first dept SUBTEAMS))
      by (intros x Hx Hxd; apply In_remove_first; auto).
    destruct (0 <? length _)%nat eqn:N.
    + destruct (List.filter (fun d => negb (String.eqb d dept)) SUBTEAMS)
        as [|d0 ds] eqn:F; [split; assumption|].
      destruct ((d0 :: ds) !! choice) as [reassign_to|] eqn:C; [|split; assumption].
      apply list_elem_of_lookup_2, list_elem_of_In in C. rewrite <- F in C.
      apply filter_In in C as [C1 C2].
      assert (reassign_to <> dept)
        by (intros ->; rewrite String.eqb_refl in C2; discriminate).
      split; simpl.
      * apply NoDup_remove_first. exact Hnd.
      * apply (reassign_users_listed dept reassign_to SUBTEAMS); auto.
    + apply Nat.ltb_ge in N.
      assert (E : List.filter (fun p => String.eqb (User.subteam (snd p)) dept)
                              (users s) = [])
        by (destruct (List.filter _ (users s)); [reflexivity | simpl in N; lia]).
      apply filter_nil_none in E. split; simpl.
      * apply NoDup_remove_first. exact Hnd.
      * rewrite List.Forall_forall in Hus, E. apply List.Forall_forall.
        intros p Hp. apply Hrm; [apply Hus; exact Hp|].
        specialize (E p Hp). intros Heq. apply String.eqb_neq in E. contradiction.
Qed.

Lemma sample_departments_ok : departments_ok SUBTEAMS Sample.office.
Proof.
  split.
  - apply NoDup_ListNoDup, (bool_decide_unpack _). vm_compute. exact I.
  - repeat (apply List.Forall_cons; [simpl; tauto|]). apply List.Forall_nil.
Defined.

Lemma department_handlers_witness :
  departments_ok
    (snd (fst (_show_edit_dept_form "Brokerage" "Trading" SUBTEAMS Sample.office)))
    (snd (_show_edit_dept_form "Brokerage" "Trading" SUBTEAMS Sample.office))
  /\ departments_ok
       (snd (fst (_show_delete_dept_confirm "Control" 0 SUBTEAMS Sample.office)))
       (snd (_show_delete_dept_confirm "Control" 0 SUBTEAMS Sample.office)).
Proof.
  destruct (department_handlers_keep_the_directory SUBTEAMS Sample.office
              sample_departments_ok) as (_ & H2 & H3).
  split; [apply H2 | apply H3].
Defined.

Lemma length_replace_first old new l :
  length (replace_first old new l) = length l.
Proof.
  induction l as [|x r IH]; simpl; [reflexivity|].
  destruct (String.eqb x old); simpl; congruence.
Qed.

Lemma members_after_rename dept new us :
  Forall (fun p => User.subteam (snd p) <> new) us ->
  members_of new (reassign_users dept new us) = members_of dept us.
Proof.
  unfold members_of.
  induction 1 as [|p us Hp _ IH]; simpl; [reflexivity|].
  destruct (String.eqb_spec (User.subteam (snd p)) dept) as [E|E]; simpl.
  - rewrite String.eqb_refl. simpl. f_equal. exact IH.
  - apply String.eqb_neq in Hp. rewrite Hp. exact IH.
Qed.

Lemma others_after_rename dept new x us :
  x <> dept -> x <> new ->
  List.filter (fun p => String.eqb (User.subteam (snd p)) x)
              (reassign_users dept new us)
  = List.filter (fun p => String.eqb (User.subteam (snd p)) x) us.
Proof.
  intros Hd Hn. induction us as [|p us IH]; simpl; [reflexivity|].
  destruct (String.eqb_spec (User.subteam (snd p)) dept) as [E|E]; simpl.
  - rewrite E. apply not_eq_sym in Hd, Hn.
    apply String.eqb_neq in Hd, Hn. rewrite Hd, Hn. exact IH.
  - rewrite IH. reflexivity.
Qed.

Lemma members_none dept us :
  Forall (fun p => User.subteam (snd p) <> dept) us -> members_of dept us = [].
Proof.
  intros H. unfold members_of. rewrite filter_none; [reflexivity|].
  eapply Forall_impl; [exact H|]. intros p Hp. apply String.eqb_neq. exact Hp.
Qed.

(** X22.  Renaming a department moves the team as a whole: the members of
    the old name are, in the same order, the members of the new name;
    nobody and no schedule entry is left under the old name; every
    other team, every username and every entry key is as before; and
    the list of departments holds the new name in place of the old. *)
Theorem rename_department_moves_the_team dept new SUBTEAMS s l' s' :
  departments_ok SUBTEAMS s ->
  _show_edit_dept_form dept new SUBTEAMS s = (Renamed, l', s') ->
  members_of new (users s') = members_of dept (users s)
  /\ members_of dept (users s') = []
  /\ (forall x, x <> dept -> x <> new ->
        List.filter (fun p => String.eqb (User.subteam (snd p)) x) (users s')
        = List.filter (fun p => String.eqb (User.subteam (snd p)) x) (users s))
  /\ map fst (users s') = map fst (users s)
  /\ Forall (fun e => Entry.subteam e <> dept) (pd.rows (schedule s'))
  /\ pd.index (schedule s') = pd.index (schedule s)
  /\ length l' = length SUBTEAMS /\ In new l' /\ ~ In dept l'.
Proof.
  intros [Hnd Hus]. unfold _show_edit_dept_form.
  destruct (listed dept SUBTEAMS) eqn:L; [|discriminate].
  apply listed_In in L. cbn [negb].
  destruct (String.eqb new ""); [discriminate|].
  destruct (String.eqb_spec new dept) as [->|Hne]; cbn [negb andb];
    [discriminate|].
  destruct (listed new SUBTEAMS) eqn:L'; [discriminate|].
  apply not_listed_In in L'. intros [= <- <-]. simpl.
  repeat split.
  - apply members_after_rename. eapply Forall_impl; [exact Hus|].
    intros p Hp E. apply L'. rewrite <- E. exact Hp.
  - apply members_none, reassign_users_empties. exact Hne.
  - intros x Hd Hn. apply others_after_rename; assumption.
  - apply reassign_users_names.
  - apply reassign_entries_empties. exact Hne.
  - apply reassign_entries_index.
  - apply length_replace_first.
  - apply In_replace_first; auto.
  - rewrite In_replace_first by assumption.
    intros [E|[_ E]]; [apply Hne; symmetry; exact E | apply E; reflexivity].
Qed.

Lemma rename_department_witness :
  members_of "Trading"
    (users (snd (_show_edit_dept_form "Brokerage" "Trading" SUBTEAMS Sample.office)))
  = members_of "Brokerage" (users Sample.office).
Proof.
  destruct (_show_edit_dept_form "Brokerage" "Trading" SUBTEAMS Sample.office)
    as [[x l'] s'] eqn:E.
  assert (Hx : x = Renamed)
    by (apply (f_equal (fun r => fst (fst r))) in E; vm_compute in E; congruence).
  subst x.
  apply (rename_department_moves_the_team "Brokerage" "Trading" SUBTEAMS
           Sample.office l' s' sample_departments_ok E).
Defined.

(** X23.  A department leaves the list only without members: after a
    deletion no user is left in it and its name is gone from the list,
    which is otherwise as before; usernames and entry keys are kept.
    If it had members, they and its schedule entries were reassigned;
    if it had none, users and schedule are untouched, so entries that
    still name the department keep naming it. *)
Theorem delete_department_leaves_no_member dept choice SUBTEAMS s l' s' :
  List.NoDup SUBTEAMS ->
  _show_delete_dept_confirm dept choice SUBTEAMS s = (Deleted, l', s') ->
  (forall x, In x l' <-> In x SUBTEAMS /\ x <> dept)
  /\ members_of dept (users s') = []
  /\ map fst (users s') = map fst (users s)
  /\ pd.index (schedule s') = pd.index (schedule s)
  /\ (members_of dept (users s) = [] ->
      users s' = users s /\ schedule s' = schedule s)
  /\ (members_of dept (users s) <> [] ->
      Forall (fun e => Entry.subteam e <> dept) (pd.rows (schedule s'))).
Proof.
  intros Hnd. unfold _show_delete_dept_confirm, members_of.
  destruct (listed dept SUBTEAMS) eqn:L; [|discriminate].
  cbn [negb].
  destruct (List.filter (fun p => String.eqb (User.subteam (snd p)) dept) (users s))
    as [|m ms] eqn:M.
  - cbn [length Nat.ltb Nat.leb]. intros [= <- <-].
    split; [intros x; apply In_remove_first; exact Hnd|].
    rewrite M. repeat split; try reflexivity. intros H. contradiction.
  - cbn [length Nat.ltb Nat.leb].
    destruct (List.filter (fun d => negb (String.eqb d dept)) SUBTEAMS)
      as [|d0 ds] eqn:F; [discriminate|].
    destruct ((d0 :: ds) !! choice) as [reassign_to|] eqn:C; [|discriminate].
    apply list_elem_of_lookup_2, list_elem_of_In in C. rewrite <- F in C.
    apply filter_In in C as [C1 C2].
    assert (reassign_to <> dept)
      by (intros ->; rewrite String.eqb_refl in C2; discriminate).
    intros [= <- <-]. simpl.
    split; [intros x; apply In_remove_first; exact Hnd|].
    split; [apply (members_none dept), reassign_users_empties; assumption|].
    split; [apply reassign_users_names|].
    split; [apply reassign_entries_index|].
    split; [discriminate|].
    intros _. apply reassign_entries_empties. assumption.
Qed.

Lemma delete_department_witness :
  members_of "Control"
    (users (snd (_show_delete_dept_confirm "Control" 0 SUBTEAMS Sample.office)))
  = [].
Proof.
  destruct (_show_delete_dept_confirm "Control" 0 SUBTEAMS Sample.office)
    as [[x l'] s'] eqn:E.
  assert (Hx : x = Deleted)
    by (apply (f_equal (fun r => fst (fst r))) in E; vm_compute in E; congruence).
  subst x.
  apply (delete_department_leaves_no_member "Control" 0 SUBTEAMS Sample.office l' s'
           (proj1 sample_departments_ok) E).
Defined.

(** ** Administration: deleting a user *)

Lemma find_without_self username (us : list (string * User.t)) :
  find (fun p => String.eqb (fst p) username)
       (List.filter (fun p => negb (String.eqb (fst p) username)) us) = None.
Proof.
  induction us as [|p us IH]; simpl; [reflexivity|].
  destruct (String.eqb (fst p) username) eqn:E; simpl; [|rewrite E]; exact IH.
Qed.

Lemma find_without_other username other (us : list (string * User.t)) :
  other <> username ->
  find (fun p => String.eqb (fst p) other)
       (List.filter (fun p => negb (String.eqb (fst p) username)) us)
  = find (fun p => String.eqb (fst p) other) us.
Proof.
  intros Hne. induction us as [|p us IH]; simpl; [reflexivity|].
  destruct (String.eqb_spec (fst p) username) as [E|E]; simpl.
  - rewrite E. apply not_eq_sym, String.eqb_neq in Hne. rewrite Hne. exact IH.
  - rewrite IH. reflexivity.
Qed.

Lemma state_after_delete_user {P : Type} username (preferences : gmap string P) s u :
  lookup_user username s = Some u ->
  let r := _show_delete_user_confirm username preferences s in
  fst (fst r) = true
  /\ lookup_user username (snd r) = None
  /\ snd (fst r) !! username = None
  /\ inbox_of username (snd r) = []
  /\ (forall other, other <> username ->
        lookup_user other (snd r) = lookup_user other s
        /\ snd (fst r) !! other = preferences !! other
        /\ inbox_of other (snd r) = inbox_of other s)
  /\ schedule (snd r) = schedule s
  /\ shift_requests (snd r) = shift_requests s.
Proof.
  intros Hu r. subst r. unfold _show_delete_user_confirm. rewrite Hu.
  cbn [fst snd]. unfold lookup_user, inbox_of.
  cbn [users notifications schedule shift_requests set_notifications set_users].
  split; [reflexivity|].
  split; [rewrite find_without_self; reflexivity|].
  split; [apply lookup_delete_eq|].
  split; [rewrite lookup_delete_eq; reflexivity|].
  split; [|split; reflexivity].
  intros other Hne.
  rewrite find_without_other by exact Hne.
  rewrite !lookup_delete_ne by (apply not_eq_sym; exact Hne).
  repeat split; reflexivity.
Qed.

(** X24.  Deleting a registered user removes the account, the user's
    settings and the user's inbox, and nothing else: every other
    account, inbox and settings entry is as before, and so are the
    schedule and the swap requests, including the entries and requests
    of the deleted user. *)
Theorem delete_user_effect {P : Type} username (preferences : gmap string P) s u :
  lookup_user username s = Some u ->
  let r := _show_delete_user_confirm username preferences s in
  fst (fst r) = true
  /\ lookup_user username (snd r) = None
  /\ snd (fst r) !! username = None
  /\ inbox_of username (snd r) = []
  /\ (forall other, other <> username ->
        lookup_user other (snd r) = lookup_user other s
        /\ snd (fst r) !! other = preferences !! other
        /\ inbox_of other (snd r) = inbox_of other s)
  /\ schedule (snd r) = schedule s
  /\ shift_requests (snd r) = shift_requests s.
Proof. exact (state_after_delete_user username preferences s u). Qed.

Lemma delete_user_witness :
  lookup_user "bob"
    (snd (_show_delete_user_confirm "bob" (∅ : gmap string bool) Sample.requested))
  = None
  /\ shift_requests
       (snd (_show_delete_user_confirm "bob" (∅ : gmap string bool) Sample.requested))
     = shift_requests Sample.requested.
Proof.
  destruct (delete_user_effect "bob" (∅ : gmap string bool) Sample.requested
              Sample.bob eq_refl) as (_ & H1 & _ & _ & _ & _ & H2).
  split; [exact H1 | exact H2].
Defined.

(** X25.  A request addressed to a user who has since been deleted cannot be
    answered: approving or rejecting it returns [False] and reports the
    missing key, nobody is notified and the schedule is as before, yet
    the request is stored with the new status. *)
Theorem request_to_a_deleted_user_cannot_be_answered
        {P : Type} w username (preferences : gmap string P) s u rid r st :
  lookup_user username s = Some u ->
  find_request rid s = Some r ->
  Request.target_username r = username ->
  st = Approved \/ st = Rejected ->
  let s1 := snd (_show_delete_user_confirm username preferences s) in
  exists s2 r',
    update_shift_request_status w rid st s1 = (false, s2)
    /\ schedule s2 = schedule s
    /\ notifications s2 = notifications s1
    /\ find_request rid s2 = Some r' /\ Request.status r' = st
    /\ st_error s2
       = ("Error updating shift request: " ++ key_error username)%string
         :: st_error s.
Proof.
  intros Hu Hr Ht Hst s1.
  destruct (state_after_delete_user username preferences s u Hu)
    as (_ & Hgone & _ & _ & _ & Hsched & Hreq).
  fold s1 in Hgone, Hsched, Hreq.
  assert (Hr1 : find_request rid s1 = Some r)
    by (unfold find_request; rewrite Hreq; exact Hr).
  assert (Herr : st_error s1 = st_error s).
  { subst s1. unfold _show_delete_user_confirm. rewrite Hu. reflexivity. }
  pose proof (update_status_requests w rid st s1 r Hr1) as Hmap.
  assert (E : update_shift_request_status w rid st s1
              = (false,
                 report ("Error updating shift request: " ++ key_error username)
                        (store_status w rid st s1))).
  { unfold update_shift_request_status. rewrite Hr1, Ht.
    assert (L : lookup_user username (store_status w rid st s1) = None)
      by exact Hgone.
    destruct Hst as [-> | ->]; rewrite L; reflexivity. }
  rewrite E in Hmap. cbn [snd] in Hmap.
  exists (report ("Error updating shift request: " ++ key_error username)
                 (store_status w rid st s1)),
         (Request.set_status st (timestamp w (ticks s1)) r).
  split; [exact E|].
  split; [exact Hsched|].
  split; [reflexivity|].
  split; [|split; [reflexivity|]].
  - unfold find_request. rewrite Hmap. apply find_set_status. exact Hr1.
  - simpl. rewrite Herr. reflexivity.
Qed.

Lemma request_to_a_deleted_user_witness :
  exists s2 r',
    update_shift_request_status Sample.world Sample.request_id Approved
      (snd (_show_delete_user_confirm "bob" (∅ : gmap string bool) Sample.requested))
    = (false, s2)
    /\ schedule s2 = schedule Sample.requested
    /\ find_request Sample.request_id s2 = Some r'
    /\ Request.status r' = Approved.
Proof.
  destruct (find_request Sample.request_id Sample.requested) as [r|] eqn:E;
    [|vm_compute in E; discriminate].
  assert (T : Request.target_username r = "bob")
    by (vm_compute in E; injection E as <-; reflexivity).
  destruct (request_to_a_deleted_user_cannot_be_answered
              Sample.world "bob" (∅ : gmap string bool) Sample.requested
              Sample.bob Sample.request_id r Approved eq_refl E T
              (or_introl eq_refl))
    as (s2 & r' & H1 & H2 & _ & H3 & H4 & _).
  exists s2, r'. repeat split; assumption.
Defined.

(** ** Auto-assignment: the members scheduled *)

Lemma assign_one_readable w date subteam username user t :
  readable_times user ->
  exists e, assign_one w date subteam (username, user) t = (Some e, (3 + t)%nat).
Proof.
  intros (start_dt & end_time & H1 & H2). unfold assign_one.
  rewrite H1, H2. eexists. reflexivity.
Qed.

Lemma assign_all_readable w sel t :
  Forall (fun x => readable_times (snd (snd x))) sel ->
  exists es t', assign_all w sel t = (Some es, t').
Proof.
  intros H. revert t.
  induction H as [|[[date subteam] [username user]] rest Hx _ IH]; intros t.
  - exists [], t. reflexivity.
  - simpl in Hx.
    destruct (assign_one_readable w date subteam username user t Hx) as (e & He).
    destruct (IH (3 + t)%nat) as (es & t' & Hes).
    exists (e :: es), t'. cbn [assign_all]. rewrite He, Hes. reflexivity.
Qed.

Lemma selected_readable dates (us : roster) :
  (forall date g u,
      In date dates -> In g (group_by_subteam us) ->
      In u (select_users date (snd g)) -> readable_times (snd u)) ->
  Forall (fun x => readable_times (snd (snd x)))
         (selections dates (group_by_subteam us)).
Proof.
  intros H. apply List.Forall_forall. intros x Hx.
  unfold selections in Hx. apply in_flat_map in Hx as (date & Hd & Hx).
  apply in_flat_map in Hx as (g & Hg & Hx).
  apply in_map_iff in Hx as (u & <- & Hu). simpl.
  exact (H date g u Hd Hg Hu).
Qed.

Lemma users_readable dates (us : roster) :
  Forall (fun u => readable_times (snd u)) us ->
  forall date g u,
    In date dates -> In g (group_by_subteam us) ->
    In u (select_users date (snd g)) -> readable_times (snd u).
Proof.
  intros H date g u _ Hg Hu.
  pose proof (groups_all _ _ H) as G. rewrite List.Forall_forall in G.
  pose proof (select_users_all _ date _ (G g Hg)) as S.
  rewrite List.Forall_forall in S. exact (S u Hu).
Qed.

Lemma window_after_run w dates s :
  users s <> [] ->
  Forall (fun x => readable_times (snd (snd x)))
         (selections dates (group_by_subteam (users s))) ->
  map assignment
      (List.filter (in_window dates)
                   (pd.rows (schedule (_auto_assign_shifts w dates s))))
  = selected_assignments dates (users s).
Proof.
  intros Hne Hsel.
  destruct (assign_all_readable w _ (ticks s) Hsel) as (es & t' & Ha).
  pose proof (assign_all_length _ _ _ _ _ Ha) as Hlen.
  pose proof (assign_all_members _ _ _ _ _ Ha) as Hm.
  unfold selected_assignments. rewrite <- Hm. clear Hm.
  destruct es as [|e es].
  - rewrite selections_length in Hlen by apply groups_nonempty.
    pose proof (daily_cover_pos _ (groups_not_nil _ Hne)) as Hpos.
    assert (dates = []) as -> by (destruct dates; [reflexivity | simpl in Hlen; lia]).
    rewrite filter_none; [reflexivity|].
    apply List.Forall_forall. intros; reflexivity.
  - rewrite (auto_assign_rows w dates s e es t' Hne Ha), rows_clear_dates.
    rewrite List.filter_app, filter_complement, filter_all; [reflexivity|].
    exact (new_entries_in_window _ _ _ _ _ _ Ha).
Qed.




(** ** Regeneration *)

Lemma filter_keeps_outside {A} (f : A -> bool) (l es : list A) :
  Forall (fun x => f x = true) es ->
  List.filter (fun x => negb (f x)) (List.filter (fun x => negb (f x)) l ++ es)
  = List.filter (fun x => negb (f x)) l.
Proof.
  intros H. rewrite List.filter_app, filter_twice.
  rewrite (filter_none _ es); [apply app_nil_r|].
  eapply Forall_impl; [exact H|]. intros x Hx. simpl. rewrite Hx. reflexivity.
Qed.

(** X26.  When the current or the next week leaves the calendar,
    [regenerate_auto_assignments] answers [False], reports the error
    and leaves users, schedule and requests as they were.  Otherwise it
    answers [True] and keeps the entries outside the two weeks, in
    their order; and when there are users and the stored start time and
    hours of every selected member can be read, the entries it leaves
    in the two weeks are exactly those of the selected members, all of
    them auto-assigned: whatever was planned there before, manual
    entries included, is replaced. *)
Theorem regeneration_replaces_the_two_weeks w s :
  let r := regenerate_auto_assignments w s in
  match _get_current_week_dates (Py.date_of (now w (ticks s))),
        _get_next_week_dates (Py.date_of (now w (S (ticks s)))) with
  | Some current_week, Some next_week =>
      let all_dates := current_week ++ next_week in
      fst r = true
      /\ List.filter (fun e => negb (in_window all_dates e))
                     (pd.rows (schedule (snd r)))
         = List.filter (fun e => negb (in_window all_dates e))
                       (pd.rows (schedule s))
      /\ (users s <> [] ->
          (forall date g u,
              In date all_dates -> In g (group_by_subteam (users s)) ->
              In u (select_users date (snd g)) -> readable_times (snd u)) ->
          map assignment
              (List.filter (in_window all_dates) (pd.rows (schedule (snd r))))
          = selected_assignments all_dates (users s)
          /\ Forall (fun e => in_window all_dates e = true ->
                              Entry.auto_assigned e = true
                              /\ Entry.notes e = "Auto-assigned shift")
                    (pd.rows (schedule (snd r))))
  | _, _ =>
      fst r = false
      /\ users (snd r) = users s /\ schedule (snd r) = schedule s
      /\ shift_requests (snd r) = shift_requests s
      /\ st_error (snd r)
         = "Error regenerating assignments: date value out of range" :: st_error s
  end.
Proof.
  intros r. subst r. unfold regenerate_auto_assignments.
  destruct (_get_current_week_dates _) as [current_week|];
    [|repeat split; reflexivity].
  destruct (_get_next_week_dates _) as [next_week|];
    [|repeat split; reflexivity].
  cbn [fst snd]. set (all_dates := current_week ++ next_week).
  set (s1 := tick 2 (set_schedule (clear_dates all_dates (schedule s)) s)).
  assert (R1 : pd.rows (schedule s1)
               = List.filter (fun e => negb (in_window all_dates e))
                             (pd.rows (schedule s)))
    by apply rows_clear_dates.
  assert (K : forall P : Entry.t -> Prop,
             Forall (fun e => in_window all_dates e = true -> P e)
                    (List.filter (fun e => negb (in_window all_dates e))
                                 (pd.rows (schedule s)))).
  { intros P. apply List.Forall_forall. intros e He.
    apply filter_In in He as [_ He].
    intros Hw. rewrite Hw in He. discriminate He. }
  split; [reflexivity|]. split.
  - destruct (auto_assign_cases w all_dates s1) as (_ & _ & _ & _ & [E | E]).
    + rewrite E, R1. apply filter_twice.
    + destruct E as (es & _ & E & F). rewrite E, rows_range_index, R1.
      rewrite filter_twice. apply filter_keeps_outside.
      eapply Forall_impl; [exact F|]. intros e (_ & _ & _ & W). exact W.
  - intros Hus Hread. split.
    + apply (window_after_run w all_dates s1); [exact Hus|].
      apply (selected_readable all_dates (users s)). exact Hread.
    + destruct (auto_assign_cases w all_dates s1) as (_ & _ & _ & _ & [E | E]).
      * rewrite E, R1. apply K.
      * destruct E as (es & _ & E & F). rewrite E, rows_range_index, R1.
        apply Forall_app. split.
        -- rewrite filter_twice. apply K.
        -- eapply Forall_impl; [exact F|]. intros e (A & B & _) _. auto.
Qed.

Lemma regeneration_witness :
  (exists current_week next_week,
      _get_current_week_dates (Py.date_of (now Sample.world 0)) = Some current_week
      /\ _get_next_week_dates (Py.date_of (now Sample.world 1)) = Some next_week
      /\ fst (regenerate_auto_assignments Sample.world Sample.office) = true
      /\ map assignment
             (List.filter (in_window (current_week ++ next_week))
                (pd.rows (schedule (snd (regenerate_auto_assignments
                                           Sample.world Sample.office)))))
         = selected_assignments (current_week ++ next_week) (users Sample.office))
  /\ fst (regenerate_auto_assignments Cases.last_week Sample.office) = false.
Proof.
  pose proof (regeneration_replaces_the_two_weeks Sample.world Sample.office) as H.
  pose proof (regeneration_replaces_the_two_weeks Cases.last_week Sample.office) as H'.
  cbv zeta in H, H'. split.
  - destruct (_get_current_week_dates (Py.date_of (now Sample.world (ticks Sample.office))))
      as [current_week|] eqn:E1; [|vm_compute in E1; discriminate E1].
    destruct (_get_next_week_dates (Py.date_of (now Sample.world (S (ticks Sample.office)))))
      as [next_week|] eqn:E2; [|vm_compute in E2; discriminate E2].
    destruct H as (H1 & _ & H3).
    exists current_week, next_week.
    split; [exact E1|]. split; [exact E2|]. split; [exact H1|].
    apply H3; [discriminate|].
    apply users_readable.
    repeat (apply List.Forall_cons;
            [exists (Py.mk_time 9 0), "18:00"; split; reflexivity|]).
    apply List.Forall_nil.
  - destruct (_get_current_week_dates (Py.date_of (now Cases.last_week (ticks Sample.office))))
      as [current_week|] eqn:E1.
    + destruct (_get_next_week_dates
                  (Py.date_of (now Cases.last_week (S (ticks Sample.office)))))
        as [next_week|] eqn:E2; [vm_compute in E2; discriminate E2|].
      exact (proj1 H').
    + exact (proj1 H').
Defined.

(** ** Backups: what a cleanup keeps *)

Section Backups.

Import Backup.

Lemma In_insert_newest_first f l x :
  In x (insert_newest_first f l) <-> x = f \/ In x l.
Proof.
  induction l as [|g r IH]; simpl; [intuition|].
  destruct (Qle_bool (st_mtime g) (st_mtime f)); simpl; [intuition|].
  rewrite IH. intuition.
Qed.

Lemma insert_newest_first_perm f l : Permutation (insert_newest_first f l) (f :: l).
Proof.
  induction l as [|g r IH]; simpl; [reflexivity|].
  destruct (Qle_bool (st_mtime g) (st_mtime f)); [reflexivity|].
  rewrite IH. apply perm_swap.
Qed.

Lemma sort_newest_first_perm l : Permutation (sort_newest_first l) l.
Proof.
  induction l as [|f l IH]; simpl; [reflexivity|].
  rewrite insert_newest_first_perm, IH. reflexivity.
Qed.

Lemma insert_keeps_newest_first f l :
  newest_first l -> newest_first (insert_newest_first f l).
Proof.
  induction l as [|g r IH]; simpl; [intros _; split; [constructor | exact I]|].
  intros [Hg Hr].
  destruct (Qle_bool (st_mtime g) (st_mtime f)) eqn:E; simpl.
  - apply Qle_bool_iff in E. split; [|split; assumption].
    constructor; [exact E|].
    eapply Forall_impl; [exact Hg|]. intros b Hb. simpl in Hb.
    eapply Qle_trans; eassumption.
  - split; [|apply IH; exact Hr].
    apply List.Forall_forall. intros x Hx.
    apply In_insert_newest_first in Hx as [->|Hx].
    + apply Qlt_le_weak, Qnot_le_lt. intros H.
      apply Qle_bool_iff in H. congruence.
    + rewrite List.Forall_forall in Hg. apply Hg. exact Hx.
Qed.

Lemma sort_is_newest_first l : newest_first (sort_newest_first l).
Proof.
  induction l as [|f l IH]; simpl; [exact I|].
  apply insert_keeps_newest_first. exact IH.
Qed.

Lemma newest_first_app l1 l2 a b :
  newest_first (l1 ++ l2) -> In a l1 -> In b l2 -> (st_mtime b <= st_mtime a)%Q.
Proof.
  induction l1 as [|x l1 IH]; simpl; [intros _ []|].
  intros [Hx Hr] [->|Ha] Hb.
  - rewrite List.Forall_forall in Hx. apply Hx. apply in_or_app. right. exact Hb.
  - apply IH; assumption.
Qed.

Lemma fold_unlink (gone dir : list file) :
  fold_left (fun d old_file => unlink (name old_file) d) gone dir
  = List.filter (fun f => negb (existsb (String.eqb (name f)) (map name gone))) dir.
Proof.
  revert dir. induction gone as [|o gone IH]; intros dir; simpl.
  - induction dir as [|f dir IHd]; simpl; [reflexivity|]. f_equal. exact IHd.
  - rewrite IH. unfold unlink. clear IH.
    induction dir as [|f dir IHd]; simpl; [reflexivity|].
    destruct (String.eqb (name f) (name o)); simpl; [exact IHd|].
    destruct (existsb _ _); simpl; [exact IHd | f_equal; exact IHd].
Qed.

Lemma names_injective (dir : list file) f g :
  List.NoDup (map name dir) -> In f dir -> In g dir -> name f = name g -> f = g.
Proof.
  induction dir as [|x dir IH]; simpl; [intros _ []|].
  intros Hnd. apply List.NoDup_cons_iff in Hnd as [Hx Hnd].
  intros [->|Hf] [->|Hg] E; auto.
  - exfalso. apply Hx. rewrite E. apply in_map. exact Hg.
  - exfalso. apply Hx. rewrite <- E. apply in_map. exact Hf.
Qed.

Lemma NoDup_app_disjoint {A} (l1 l2 : list A) x :
  List.NoDup (l1 ++ l2) -> In x l1 -> ~ In x l2.
Proof.
  induction l1 as [|y l1 IH]; simpl; [intros _ []|].
  intros Hnd. apply List.NoDup_cons_iff in Hnd as [Hy Hnd].
  intros [->|Hx] H2; [apply Hy, in_or_app; right; exact H2 | exact (IH Hnd Hx H2)].
Qed.

Lemma filter_length_perm {A} (p : A -> bool) (l l' : list A) :
  Permutation l l' -> length (List.filter p l) = length (List.filter p l').
Proof.
  induction 1 as [|x l l' _ IH|x y l|l l' l'' _ IH1 _ IH2]; simpl.
  - reflexivity.
  - destruct (p x); simpl; congruence.
  - destruct (p x), (p y); reflexivity.
  - congruence.
Qed.

Lemma filter_swap {A} (p q : A -> bool) (l : list A) :
  List.filter p (List.filter q l) = List.filter q (List.filter p l).
Proof.
  induction l as [|x l IH]; simpl; [reflexivity|].
  destruct (p x) eqn:P, (q x) eqn:Q; simpl; rewrite ?P, ?Q, IH; reflexivity.
Qed.

Lemma in_names (l : list file) (f : file) :
  existsb (String.eqb (name f)) (map name l) = true <-> In (name f) (map name l).
Proof.
  rewrite existsb_exists. split.
  - intros (n & Hn & E). apply String.eqb_eq in E. rewrite E. exact Hn.
  - intros H. exists (name f). split; [exact H | apply String.eqb_refl].
Qed.

(** X27.  [_cleanup_old_backups] keeps at most ten backups of the file: when
    there were more, exactly ten remain, and no removed backup is newer
    than a kept one.  Files that do not match the pattern are never
    removed, and nothing is added to the directory. *)
Theorem cleanup_keeps_the_ten_newest file_stem file_suffix dir :
  List.NoDup (map name dir) ->
  let dir' := _cleanup_old_backups file_stem file_suffix dir in
  length (backups file_stem file_suffix dir')
  = Nat.min 10 (length (backups file_stem file_suffix dir))
  /\ List.filter (fun f => negb (matches file_stem file_suffix (name f))) dir'
     = List.filter (fun f => negb (matches file_stem file_suffix (name f))) dir
  /\ (forall f, In f dir' -> In f dir)
  /\ (forall kept gone,
         In kept (backups file_stem file_suffix dir') ->
         In gone (backups file_stem file_suffix dir) -> ~ In gone dir' ->
         (st_mtime gone <= st_mtime kept)%Q).
Proof.
  intros Hnd dir'. subst dir'. unfold _cleanup_old_backups, backups.
  set (m := fun f => matches file_stem file_suffix (name f)).
  set (M := List.filter m dir).
  set (S := sort_newest_first M).
  pose proof (sort_newest_first_perm M) as Hperm.
  pose proof (sort_is_newest_first M) as Hsorted. fold S in Hperm, Hsorted.
  assert (Hlen : length S = length M) by (apply Permutation_length; exact Hperm).
  destruct (Nat.ltb_spec 10 (length S)) as [Hgt|Hle].
  2:{ fold M. split; [lia|]. split; [reflexivity|]. split; [auto|].
      intros kept gone _ Hg Hn. exfalso. apply Hn.
      apply filter_In in Hg as [Hg _]. exact Hg. }
  rewrite fold_unlink.
  set (K := firstn 10 S). set (D := skipn 10 S).
  set (out := fun f => negb (existsb (String.eqb (name f)) (map name D))).
  assert (HS : S = K ++ D) by (symmetry; apply firstn_skipn).
  assert (HinS : forall f, In f S <-> In f dir /\ m f = true).
  { intros f. unfold M in Hperm. split.
    - intros H. apply filter_In. eapply Permutation_in; [exact Hperm | exact H].
    - intros H. eapply Permutation_in; [symmetry; exact Hperm|].
      apply filter_In. exact H. }
  assert (HndS : List.NoDup (map name S)).
  { eapply Permutation_NoDup; [apply Permutation_map; symmetry; exact Hperm|].
    unfold M. clear -Hnd. induction dir as [|x dir IH]; simpl; [constructor|].
    simpl in Hnd. apply List.NoDup_cons_iff in Hnd as [Hx Hnd].
    destruct (m x); simpl; [|apply IH; exact Hnd].
    apply List.NoDup_cons_iff. split; [|apply IH; exact Hnd].
    intros H. apply Hx. apply in_map_iff in H as (y & E & Hy).
    apply filter_In in Hy as [Hy _]. rewrite <- E. apply in_map. exact Hy. }
  assert (HD : forall f, In f dir -> (out f = false <-> In f D)).
  { intros f Hf. unfold out. rewrite negb_false_iff, in_names. split.
    - intros H. apply in_map_iff in H as (d & E & Hd).
      assert (Hd' : In d dir)
        by (apply (HinS d); rewrite HS; apply in_or_app; right; exact Hd).
      rewrite <- (names_injective dir d f Hnd Hd' Hf E). exact Hd.
    - intros H. apply in_map. exact H. }
  assert (HK : forall f, In f K -> out f = true).
  { intros f Hf. unfold out. apply negb_true_iff.
    destruct (existsb _ _) eqn:E; [|reflexivity]. exfalso.
    apply in_names in E. rewrite HS, map_app in HndS.
    apply (NoDup_app_disjoint _ _ (name f) HndS); [apply in_map; exact Hf | exact E]. }
  split; [|split; [|split]].
  - rewrite filter_swap. fold M.
    rewrite (filter_length_perm out M S) by (symmetry; exact Hperm).
    rewrite HS, List.filter_app, length_app.
    rewrite (filter_all out K), (filter_none out D).
    + unfold K. rewrite length_firstn. cbn [length]. lia.
    + apply List.Forall_forall. intros f Hf. apply HD; [|exact Hf].
      apply (HinS f). rewrite HS. apply in_or_app. right. exact Hf.
    + apply List.Forall_forall. exact HK.
  - rewrite filter_swap. apply filter_all, List.Forall_forall. intros f Hf.
    apply filter_In in Hf as [Hf Hm].
    destruct (out f) eqn:E; [reflexivity|]. exfalso.
    apply (HD f Hf) in E.
    assert (In f S) by (rewrite HS; apply in_or_app; right; exact E).
    apply HinS in H as [_ H]. change (negb (m f) = true) in Hm.
    rewrite H in Hm. discriminate Hm.
  - intros f Hf. apply filter_In in Hf as [Hf _]. exact Hf.
  - intros kept gone Hk Hg Hn.
    apply filter_In in Hk as [Hk Hkm]. apply filter_In in Hk as [Hk Hko].
    apply filter_In in Hg as [Hg Hgm].
    assert (HgD : In gone D).
    { apply (HD gone Hg). destruct (out gone) eqn:E; [|reflexivity].
      exfalso. apply Hn. apply filter_In. split; assumption. }
    assert (HkK : In kept K).
    { assert (HkS : In kept S) by (apply HinS; split; assumption).
      rewrite HS in HkS. apply in_app_or in HkS as [H|H]; [exact H|].
      apply (HD kept Hk) in H. congruence. }
    rewrite HS in Hsorted. exact (newest_first_app K D kept gone Hsorted HkK HgD).
Qed.

Lemma cleanup_witness :
  length (backups "users" ".json" (_cleanup_old_backups "users" ".json" sample_dir))
  = Nat.min 10 (length (backups "users" ".json" sample_dir)).
Proof.
  apply (cleanup_keeps_the_ten_newest "users" ".json" sample_dir).
  apply NoDup_ListNoDup, (bool_decide_unpack _). vm_compute. exact I.
Defined.

End Backups.
